(** * Date extraction from file names: a model of extract_dates_from_csv.py

    The script locates the rightmost date-like numeric group of a string,
    turns a two-field group into a three-field one, lets four evaluators read
    it and takes a consensus.  This development embeds the functions of the
    script as Rocq functions and proves the properties its specification
    states about them.

    Strings are lists of characters; a character is a code point below 256.
    On that range the regular-expression class \d is exactly 0-9, while
    str.isdigit also accepts the superscripts U+00B2, U+00B3 and U+00B9 and
    str.strip removes the white space of Latin-1. *)

From Stdlib Require Import String Ascii ZArith List Bool Lia Arith Sorted.
From Stdlib Require Import Numbers.DecimalString.
Import ListNotations.

Set Implicit Arguments.

(** ** Python values and strings *)

Module Py.

Definition str := list ascii.

(** A string literal of the script. *)
Definition lit (s : string) : str := list_ascii_of_string s.

(** The values a table cell can hold: the locator tests isinstance(text, str). *)
Inductive value :=
| PyStr (s : str)
| PyNone
| PyInt (z : Z)
| PyFloatNaN.

(** The outcome of a call that may raise: a value, or an exception (every
    exception of the script is a subclass of Exception). *)
Inductive res (A : Type) :=
| Ok (a : A)
| Raised.

Arguments Raised {A}.

Definition bind (A B : Type) (r : res A) (k : A -> res B) : res B :=
  match r with
  | Ok a => k a
  | Raised => Raised
  end.

(** try: r / except Exception: default *)
Definition catch (A : Type) (r : res A) (default : A) : A :=
  match r with
  | Ok a => a
  | Raised => default
  end.

Definition code (c : ascii) : N := N_of_ascii c.

(** The class \d of the re module, on code points below 256. *)
Definition is_decimal (c : ascii) : bool :=
  ((48 <=? code c) && (code c <=? 57))%N.

(** str.isdigit on one character: the decimal digits and the superscript
    digits of Latin-1. *)
Definition char_isdigit (c : ascii) : bool :=
  is_decimal c || (code c =? 178)%N || (code c =? 179)%N || (code c =? 185)%N.

(** str.isdigit: false on the empty string. *)
Definition isdigit (s : str) : bool :=
  match s with
  | [] => false
  | _ => forallb char_isdigit s
  end.

(** str.isspace on one character. *)
Definition char_isspace (c : ascii) : bool :=
  let n := code c in
  (((9 <=? n) && (n <=? 13)) || ((28 <=? n) && (n <=? 32))
   || (n =? 133) || (n =? 160))%N.

Fixpoint lstrip (s : str) : str :=
  match s with
  | c :: s' => if char_isspace c then lstrip s' else s
  | [] => []
  end.

(** str.strip with no argument. *)
Definition strip (s : str) : str := rev (lstrip (rev (lstrip s))).

(** Truth value of a string: non-empty. *)
Definition truthy (s : str) : bool :=
  match s with [] => false | _ => true end.

Definition eqb (a b : str) : bool :=
  if list_eq_dec ascii_dec a b then true else false.

(** [c in s] for a one-character string [c]. *)
Definition contains (c : ascii) (s : str) : bool :=
  existsb (Ascii.eqb c) s.

(** s[i] as a string of one character, and the empty string out of range
    (the script guards every index). *)
Definition char_at (s : str) (i : nat) : str :=
  match nth_error s i with Some c => [c] | None => [] end.

(** s[i:j]. *)
Definition slice (s : str) (i j : nat) : str := firstn (j - i) (skipn i s).

(** str.split on a separator of one character. *)
Fixpoint split_on (d : ascii) (s : str) : list str :=
  match s with
  | [] => [[]]
  | c :: s' =>
      if Ascii.eqb c d then [] :: split_on d s'
      else match split_on d s' with
           | p :: ps => (c :: p) :: ps
           | [] => [[c]]
           end
  end.

(** str.split raises on an empty separator and cuts at substrings for a longer
    one; every separator the script passes is one character of DELIM_LIST, the
    case modelled here. *)
Definition split (s sep : str) : list str :=
  match sep with
  | [d] => split_on d s
  | _ => [s]
  end.

Definition digit_value (c : ascii) : Z := Z.of_N (code c) - 48.

(** int(s) on a string: the value of a non-empty run of decimal digits, a
    ValueError otherwise.  The script converts only fields cut from a match of
    \d groups, so the signs, blanks and underscores that int also reads never
    reach it. *)
Definition int (s : str) : res Z :=
  match s with
  | [] => Raised
  | _ => if forallb is_decimal s
         then Ok (fold_left (fun acc c => 10 * acc + digit_value c) s 0)%Z
         else Raised
  end.

(** Decimal numeral of a natural number, without padding. *)
Definition numeral (n : N) : str :=
  list_ascii_of_string (NilZero.string_of_uint (N.to_uint n)).

(** The format specification 0<w>d of an f-string. *)
Definition format_d (w : nat) (z : Z) : str :=
  if (z <? 0)%Z
  then let ds := numeral (Z.to_N (- z)) in
       "-"%char :: repeat "0"%char (w - 1 - length ds) ++ ds
  else let ds := numeral (Z.to_N z) in
       repeat "0"%char (w - length ds) ++ ds.

End Py.

Declare Scope res_scope.
Delimit Scope res_scope with res.
Notation "x <- e ;; k" := (Py.bind e (fun x => k))
  (at level 61, e at next level, right associativity) : res_scope.

(** ** The regular expressions of the script

    Every pattern of the script is a sequence of bounded digit runs \d{lo,hi},
    literal delimiters and the delimiter class.  The matcher is the
    backtracking one of the re module: a run is greedy and gives characters
    back one at a time. *)

Module Re.

Import Py.

Inductive item :=
| Digits (lo hi : nat)
| Lit (c : ascii)
| Class (cs : list ascii)
| Eos.

Definition pattern := list item.

(** What a piece of the input must look like to be matched by an item. *)
Definition conforms (i : item) (piece : str) : Prop :=
  match i with
  | Digits lo hi =>
      lo <= length piece <= hi /\ forallb is_decimal piece = true
  | Lit c => piece = [c]
  | Class cs => exists x, piece = [x] /\ In x cs
  | Eos => piece = []
  end.

(** Tries the counts k, k-1, ..., lo in that order. *)
Fixpoint try_down (A : Type) (f : nat -> option A) (lo k : nat) : option A :=
  if k <? lo then None
  else match f k with
       | Some r => Some r
       | None => match k with
                 | O => None
                 | S k' => try_down f lo k'
                 end
       end.

(** The pieces matched by the items of [p] at the start of [s], in order. *)
Fixpoint match_here (p : pattern) (s : str) : option (list str) :=
  match p with
  | [] => Some []
  | Eos :: p' =>
      match s with
      | [] => option_map (cons []) (match_here p' s)
      | _ => None
      end
  | Lit c :: p' =>
      match s with
      | x :: s' =>
          if Ascii.eqb x c then option_map (cons [x]) (match_here p' s')
          else None
      | [] => None
      end
  | Class cs :: p' =>
      match s with
      | x :: s' =>
          if existsb (Ascii.eqb x) cs
          then option_map (cons [x]) (match_here p' s')
          else None
      | [] => None
      end
  | Digits lo hi :: p' =>
      try_down
        (fun k =>
           if (length (firstn k s) =? k) && forallb is_decimal (firstn k s)
           then option_map (cons (firstn k s)) (match_here p' (skipn k s))
           else None)
        lo hi
  end.

(** re.fullmatch: the pieces, when the whole string matches. *)
Definition fullmatch (p : pattern) (s : str) : option (list str) :=
  match_here (p ++ [Eos]) s.

(** m.groups() when every digit run of the pattern is a group. *)
Definition groups (p : pattern) (pieces : list str) : list str :=
  map snd
      (filter (fun ip => match fst ip with Digits _ _ => true | _ => false end)
              (combine p pieces)).

(** re.finditer: the spans of the successive non-overlapping matches, left to
    right, with the groups of each.  [skip] counts the characters of the
    previous match still to step over. *)
Fixpoint finditer_from (p : pattern) (s : str) (pos skip : nat)
  : list (nat * nat * list str) :=
  match s with
  | [] => []
  | _ :: s' =>
      match skip with
      | S k => finditer_from p s' (S pos) k
      | O =>
          match match_here p s with
          | Some pieces =>
              let len := length (concat pieces) in
              (pos, pos + len, groups p pieces)
                :: finditer_from p s' (S pos) (len - 1)
          | None => finditer_from p s' (S pos) 0
          end
      end
  end.

Definition finditer (p : pattern) (s : str) : list (nat * nat * list str) :=
  finditer_from p s 0 0.

(** re.search, as a truth value. *)
Fixpoint search (p : pattern) (s : str) : bool :=
  match match_here p s with
  | Some _ => true
  | None => match s with
            | [] => false
            | _ :: s' => search p s'
            end
  end.

End Re.

Import Py Re.

(** ** Calendar dates

    A datetime.date of Python: the constructor raises ValueError outside
    1 <= year <= 9999, 1 <= month <= 12, 1 <= day <= days in that month, so a
    date value always satisfies them. *)

Module Calendar.

Local Open Scope Z_scope.

Definition is_leap (y : Z) : bool :=
  ((y mod 4 =? 0) && negb (y mod 100 =? 0)) || (y mod 400 =? 0).

Definition days_in_month (y m : Z) : Z :=
  if m =? 2 then (if is_leap y then 29 else 28)
  else if (m =? 4) || (m =? 6) || (m =? 9) || (m =? 11) then 30
  else 31.

Definition valid_ymd (y m d : Z) : bool :=
  (1 <=? y) && (y <=? 9999) && (1 <=? m) && (m <=? 12)
  && (1 <=? d) && (d <=? days_in_month y m).

Record date := Date {
  year : Z;
  month : Z;
  day : Z;
  date_valid : valid_ymd year month day = true
}.

(** date(y, m, d), with its ValueError. *)
Definition make_date (y m d : Z) : res date :=
  match valid_ymd y m d as b return valid_ymd y m d = b -> res date with
  | true => fun H => Ok (Date y m d H)
  | false => fun _ => Raised
  end eq_refl.

(** datetime(y, m, d, H, M, S).date(): the time of day is checked too. *)
Definition make_datetime (y m d hh mi ss : Z) : res date :=
  if (0 <=? hh) && (hh <=? 23) && (0 <=? mi) && (mi <=? 59)
     && (0 <=? ss) && (ss <=? 59)
  then make_date y m d
  else Raised.

(** The f-string {y:04d}-{m:02d}-{d:02d} that builds every canonical date. *)
Definition ymd_string (y m d : Z) : str :=
  format_d 4 y ++ lit "-" ++ format_d 2 m ++ lit "-" ++ format_d 2 d.

(** date.isoformat(), and strftime('%Y-%m-%d') for a year of four digits. *)
Definition isoformat (dt : date) : str :=
  ymd_string (year dt) (month dt) (day dt).

End Calendar.

Import Calendar.

(** ** The libraries the script calls

    dateutil, datefinder, dateparser and parsedatetime are not part of the
    repository.  Each is a function of the text that returns or raises; every
    call site is inside a try block. *)

Record Libraries := {
  (** dateutil.parser.parse(s, fuzzy=True, default=datetime(2000, 1, 1)) *)
  dateutil_parse : str -> res date;
  (** list(datefinder.find_dates(s)) *)
  datefinder_find_dates : str -> res (list date);
  (** dateparser.parse(s): a datetime or the value None *)
  dateparser_parse : str -> res (option date);
  (** parsedatetime.Calendar().parse(s): the first six fields of the
      time_struct and the parse status *)
  parsedatetime_parse : str -> res (Z * Z * Z * Z * Z * Z * Z)
}.

(** ** Plausible years and century expansion *)

Section Years.

Local Open Scope Z_scope.

Definition in_range (lo x hi : Z) : bool := (lo <=? x) && (x <=? hi).

(** plausible_year on an integer. *)
Definition plausible_year (y : Z) : bool := (1980 <=? y) && (y <=? 2039).

(** The loop
      for century in [1900, 2000]:
          test_yy = yy + century
          if plausible_year(test_yy): yy = test_yy; break
    gives the first plausible test_yy, if any. *)
Fixpoint first_plausible (centuries : list Z) (yy : Z) : option Z :=
  match centuries with
  | [] => None
  | century :: rest =>
      let test_yy := yy + century in
      if plausible_year test_yy then Some test_yy
      else first_plausible rest yy
  end.

Definition CENTURIES : list Z := [1900; 2000].

(** The year after the guarded loop: if yy < 100, run the loop; yy is
    replaced when a century fits and kept otherwise. *)
Definition expand_year (yy : Z) : Z :=
  if yy <? 100
  then match first_plausible CENTURIES yy with
       | Some y => y
       | None => yy
       end
  else yy.

(** The same loop where it also sets the flag: ok = False before it, ok =
    True on success.  Above 99 the flag keeps its value True. *)
Definition expand_year_flag (yy : Z) : Z * bool :=
  if yy <? 100
  then match first_plausible CENTURIES yy with
       | Some y => (y, true)
       | None => (yy, false)
       end
  else (yy, true).

End Years.

(** ** The group locator *)

Section Locator.

Local Open Scope Z_scope.

Definition DELIM_LIST : list ascii := ["-"; "_"; "/"; "\"; "."]%char.

(** The patterns of one delimiter, each with its number of fields. *)
Definition patterns (delim : ascii) : list (nat * pattern) :=
  [ (3%nat, [Digits 1 2; Lit delim; Digits 1 2; Lit delim; Digits 2 4]);
    (3%nat, [Digits 2 4; Lit delim; Digits 1 2; Lit delim; Digits 1 2]);
    (2%nat, [Digits 1 2; Lit delim; Digits 2 4]);
    (2%nat, [Digits 2 4; Lit delim; Digits 1 2]) ].

(** The first try block of a 3-field candidate: month, day, year. *)
Definition mdy_ok (g1 g2 g3 : str) : bool :=
  match int (strip g1), int (strip g2), int (strip g3) with
  | Ok mm, Ok dd, Ok yy =>
      let '(yy, ok) := expand_year_flag yy in
      if negb (in_range 1 mm 12 && in_range 1 dd 31 && plausible_year yy)
      then false
      else ok
  | _, _, _ => false
  end.

(** The second try block: year, month, day. *)
Definition ymd_ok (g1 g2 g3 : str) : bool :=
  match int (strip g1), int (strip g2), int (strip g3) with
  | Ok yy, Ok mm, Ok dd =>
      let '(yy, _) := expand_year_flag yy in
      in_range 1 mm 12 && in_range 1 dd 31 && plausible_year yy
  | _, _, _ => false
  end.

Definition fields3_ok (split_groups : list str) : bool :=
  match split_groups with
  | [g1; g2; g3] => if mdy_ok g1 g2 g3 then true else ymd_ok g1 g2 g3
  | _ => false
  end.

Definition is_month_field (g : str) : bool :=
  (1 <=? length g)%nat && (length g <=? 2)%nat && isdigit g.

Definition is_year_field (g : str) : bool :=
  ((length g =? 2)%nat || (length g =? 4)%nat) && isdigit g.

(** Month and year of a 2-field group: month in range and year plausible after
    expansion. *)
Definition month_year_ok (g_mm g_yy : str) : bool :=
  match int g_mm, int g_yy with
  | Ok mm, Ok yy => in_range 1 mm 12 && plausible_year (expand_year yy)
  | _, _ => false
  end.

Definition fields2_ok (split_groups : list str) : bool :=
  match map strip split_groups with
  | [g1; g2] =>
      let mm_first := is_month_field g1 in
      let yy_first := is_year_field g1 in
      let mm_second := is_month_field g2 in
      let yy_second := is_year_field g2 in
      if mm_first && yy_second then month_year_ok g1 g2
      else if yy_first && mm_second then month_year_ok g2 g1
      else false
  | _ => false
  end.

(** The body of the innermost loop for one match [m] of a pattern with
    [n_groups] fields: the triple the function returns here, or None when the
    loop goes on to the next match. *)
Definition accept_match (delim : ascii) (n_groups : nat) (rev_text : str)
           (m : nat * nat * list str) : option (str * str * nat) :=
  let '(start_idx, end_idx, _) := m in
  let rev_candidate := slice rev_text start_idx end_idx in
  let before :=
    if (0 <? start_idx)%nat then char_at rev_text (start_idx - 1) else [] in
  let after :=
    if (end_idx <? length rev_text)%nat then char_at rev_text end_idx else [] in
  if ((start_idx =? 0)%nat || negb (isdigit before))
     && ((end_idx =? length rev_text)%nat || negb (isdigit after))
  then
    let orig_candidate := rev rev_candidate in
    let split_groups := filter truthy (split orig_candidate [delim]) in
    if (length split_groups =? n_groups)%nat
       && negb (contains " "%char orig_candidate)
    then
      let ok :=
        if (n_groups =? 3)%nat then fields3_ok split_groups
        else if (n_groups =? 2)%nat then fields2_ok split_groups
        else true in
      if ok then
        let other_delims :=
          filter (fun d => negb (Ascii.eqb d delim)) DELIM_LIST in
        let found_other :=
          existsb (fun d => contains d orig_candidate) other_delims in
        if negb found_other then Some (orig_candidate, [delim], n_groups)
        else None
      else None
    else None
  else None.

(** The first result of [f] along a list: a loop left by return. *)
Fixpoint first_some (A B : Type) (f : A -> option B) (l : list A) : option B :=
  match l with
  | [] => None
  | x :: l' =>
      match f x with
      | Some r => Some r
      | None => first_some f l'
      end
  end.

(** The matches of one pattern, scanned in order. *)
Definition scan_pattern (delim : ascii) (rev_text : str) (np : nat * pattern)
  : option (str * str * nat) :=
  first_some (accept_match delim (fst np) rev_text)
             (finditer (snd np) rev_text).

Definition scan_delim (rev_text : str) (delim : ascii)
  : option (str * str * nat) :=
  first_some (scan_pattern delim rev_text) (patterns delim).

(** A match enumerated by the scan of one pattern that passes every test of
    the loop body: a qualifying group of that delimiter and pattern. *)
Definition accepted (delim : ascii) (np : nat * pattern) (rev_text : str)
           (m : nat * nat * list str) : Prop :=
  In m (finditer (snd np) rev_text)
  /\ accept_match delim (fst np) rev_text m <> None.

(** extract_same_delim_group_from_reversed(text, num_groups): the group, its
    delimiter and its number of fields, or ('', '', 0). *)
Definition extract_same_delim_group_from_reversed
           (text : value) (num_groups : nat) : str * str * nat :=
  match text with
  | PyStr text =>
      let rev_text := rev text in
      match first_some (scan_delim rev_text) DELIM_LIST with
      | Some r => r
      | None => ([], [], 0%nat)
      end
  | _ => ([], [], 0%nat)
  end.

End Locator.

(** extract_rightmost_pattern(text): the group to evaluate and its kind. *)
Definition extract_rightmost_pattern (text : value) : str * nat :=
  let '(group, delim, n) := extract_same_delim_group_from_reversed text 3 in
  if truthy group then (group, 3)
  else
    let '(group, delim, n) := extract_same_delim_group_from_reversed text 2 in
    if truthy group then
      let delim := if truthy delim then delim else lit "-" in
      match split group delim with
      | [p0; p1] => (p0 ++ delim ++ lit "01" ++ delim ++ p1, 2)
      | _ => ([], 0)
      end
    else ([], 0).

(** ** The date standardizer *)

Section Standardizer.

Local Open Scope Z_scope.
Local Open Scope res_scope.

Variable L : Libraries.

(** The class [-_/\\\.] *)
Definition DELIMS : list ascii := ["-"; "_"; "/"; "\"; "."]%char.

Definition RE_YEAR : pattern := [Digits 4 4].
Definition RE_MONTH_YEAR : pattern := [Digits 1 2; Class DELIMS; Digits 2 4].
Definition RE_YEAR_MONTH : pattern := [Digits 4 4; Class DELIMS; Digits 1 2].
Definition RE_MDY : pattern :=
  [Digits 1 2; Class DELIMS; Digits 1 2; Class DELIMS; Digits 2 4].

(** f"{yy:04d}-{mm:02d}-01" *)
Definition first_of_month (yy mm : Z) : str :=
  format_d 4 yy ++ lit "-" ++ format_d 2 mm ++ lit "-01".

(** The month/year and year/month rules share their body. *)
Definition month_year_date (g_mm g_yy : str) : res str :=
  mm <- int g_mm ;;
  yy <- int g_yy ;;
  let yy := expand_year yy in
  if in_range 1 mm 12 && plausible_year yy
  then Ok (first_of_month yy mm)
  else Ok [].

Definition mdy_date (g1 g2 g3 : str) : res str :=
  mm <- int g1 ;;
  dd <- int g2 ;;
  yy <- int g3 ;;
  let yy := expand_year yy in
  if in_range 1 mm 12 && in_range 1 dd 31 && plausible_year yy
  then Ok (ymd_string yy mm dd)
  else if in_range 1 dd 12 && in_range 1 mm 31 && plausible_year yy
  then Ok (ymd_string yy dd mm)
  else Ok [].

(** The last two steps: no run of digits, then dateutil inside a try block. *)
Definition fuzzy_date (date_str : str) : str :=
  if negb (search [Digits 4 4] date_str) && negb (search [Digits 2 2] date_str)
  then []
  else match dateutil_parse L date_str with
       | Ok dt => if plausible_year (year dt) then isoformat dt else []
       | Raised => []
       end.

(** standardize_date(date_str) for a string; every caller passes one. *)
Definition standardize_date (date_str : str) : res str :=
  if negb (truthy date_str) then Ok []
  else
    let date_str := strip date_str in
    match fullmatch RE_YEAR date_str with
    | Some _ =>
        year <- int date_str ;;
        if plausible_year year then Ok (format_d 4 year ++ lit "-01-01")
        else Ok []
    | None =>
    match fullmatch RE_MONTH_YEAR date_str with
    | Some pieces =>
        match groups RE_MONTH_YEAR pieces with
        | [mm; yy] => month_year_date mm yy
        | _ => Raised
        end
    | None =>
    match fullmatch RE_YEAR_MONTH date_str with
    | Some pieces =>
        match groups RE_YEAR_MONTH pieces with
        | [yy; mm] => month_year_date mm yy
        | _ => Raised
        end
    | None =>
    match fullmatch RE_MDY date_str with
    | Some pieces =>
        match groups RE_MDY pieces with
        | [g1; g2; g3] => mdy_date g1 g2 g3
        | _ => Raised
        end
    | None => Ok (fuzzy_date date_str)
    end end end end.

(** ** The four evaluators

    The body of each is one try block: an exception gives ''. *)

(** for m in matches: iso = standardize_date(m.date().isoformat());
    if iso: return iso *)
Fixpoint first_standard (matches : list date) : res str :=
  match matches with
  | [] => Ok []
  | m :: rest =>
      iso <- standardize_date (isoformat m) ;;
      if truthy iso then Ok iso else first_standard rest
  end.

Definition extract_date_datefinder (text : str) : str :=
  catch (matches <- datefinder_find_dates L text ;; first_standard matches) [].

Definition extract_date_dateparser (text : str) : str :=
  catch (dt <- dateparser_parse L text ;;
         match dt with
         | Some dt => standardize_date (isoformat dt)
         | None => Ok []
         end) [].

Definition extract_date_parsedatetime (text : str) : str :=
  catch (r <- parsedatetime_parse L text ;;
         let '(y, m, d, hh, mi, ss, parse_status) := r in
         if 0 <? parse_status
         then dt <- make_datetime y m d hh mi ss ;;
              standardize_date (isoformat dt)
         else Ok []) [].

Definition REGEX_PATTERNS : list pattern :=
  [ [Digits 4 4; Class DELIMS; Digits 1 2; Class DELIMS; Digits 1 2];
    [Digits 1 2; Class DELIMS; Digits 1 2; Class DELIMS; Digits 2 4];
    [Digits 1 2; Class DELIMS; Digits 2 4];
    [Digits 2 4; Class DELIMS; Digits 1 2];
    [Digits 4 4] ].

(** A full date read by the regex evaluator: range checks, datetime(...) and
    the standardizer. [Ok None] is a date out of range, where the loop goes on. *)
Definition regex_full_date (year month day : Z) : res (option str) :=
  if in_range 1 month 12 && in_range 1 day 31 && plausible_year year
  then dt <- make_date year month day ;;
       r <- standardize_date (isoformat dt) ;;
       Ok (Some r)
  else Ok None.

Definition regex_month_year (g_mm g_yy : str) : res (option str) :=
  mm <- int g_mm ;;
  yy <- int g_yy ;;
  let yy := expand_year yy in
  if in_range 1 mm 12 && plausible_year yy
  then Ok (Some (first_of_month yy mm))
  else Ok None.

(** The try block of one match: [Ok (Some r)] is return r, [Ok None] falls
    through to the next match, [Raised] reaches except: continue. *)
Definition regex_try (groups : list str) : res (option str) :=
  match groups with
  | [g0; g1; g2] =>
      if (length g0 =? 4)%nat then
        year <- int g0 ;; month <- int g1 ;; day <- int g2 ;;
        regex_full_date year month day
      else if (length g2 =? 4)%nat then
        year <- int g2 ;; month <- int g0 ;; day <- int g1 ;;
        regex_full_date year month day
      else if (length g2 =? 2)%nat then
        year <- int g2 ;;
        let year :=
          match first_plausible CENTURIES year with
          | Some y => y
          | None => year
          end in
        month <- int g0 ;; day <- int g1 ;;
        regex_full_date year month day
      else Ok None
  | [g1; g2] =>
      let mm_first := is_month_field g1 in
      let yy_first := is_year_field g1 in
      let mm_second := is_month_field g2 in
      let yy_second := is_year_field g2 in
      if mm_first && yy_second then regex_month_year g1 g2
      else if yy_first && mm_second then regex_month_year g2 g1
      else Ok None
  | [g] =>
      yy <- int g ;;
      if plausible_year yy then Ok (Some (format_d 4 yy ++ lit "-01-01"))
      else Ok None
  | _ => Ok None
  end.

Definition regex_match (m : nat * nat * list str) : option str :=
  catch (regex_try (snd m)) None.

Definition extract_date_regex_datetime (text : str) : str :=
  match first_some (fun pat => first_some regex_match (finditer pat text))
                   REGEX_PATTERNS with
  | Some r => r
  | None => []
  end.

End Standardizer.

(** ** The consensus resolver *)

Section Consensus.

Local Open Scope res_scope.

Definition RE_ISO : pattern :=
  [Digits 4 4; Lit "-"%char; Digits 2 2; Lit "-"%char; Digits 2 2].

(** The first loop of consensus_date: the stripped strings of the form
    dddd-dd-dd, in the order of the input. *)
Fixpoint iso_dates (dates : list value) : list str :=
  match dates with
  | [] => []
  | PyStr d :: rest =>
      if negb (truthy d) then iso_dates rest
      else
        let d := strip d in
        match fullmatch RE_ISO d with
        | Some _ => d :: iso_dates rest
        | None => iso_dates rest
        end
  | _ :: rest => iso_dates rest
  end.

(** Counter(...): a dict from value to count, in insertion order. *)
Fixpoint counter_add (d : str) (count : list (str * nat)) : list (str * nat) :=
  match count with
  | [] => [(d, 1)]
  | (k, n) :: count' =>
      if Py.eqb k d then (k, S n) :: count'
      else (k, n) :: counter_add d count'
  end.

Definition Counter (l : list str) : list (str * nat) :=
  fold_left (fun count d => counter_add d count) l [].

(** max(items, key=count): the first item of greatest count. *)
Fixpoint first_max (best : str * nat) (items : list (str * nat)) : str * nat :=
  match items with
  | [] => best
  | x :: items' =>
      if snd best <? snd x then first_max x items'
      else first_max best items'
  end.

(** count.most_common(1)[0][0], with the IndexError of an empty counter. *)
Definition most_common_value (count : list (str * nat)) : res str :=
  match count with
  | [] => Raised
  | x :: items => Ok (fst (first_max x items))
  end.

Definition consensus_date (dates : list value) (two_group : bool) : res str :=
  let iso_dates := iso_dates dates in
  match iso_dates with
  | [] => Ok []
  | _ =>
      most_common <- most_common_value (Counter iso_dates) ;;
      if two_group then
        match split most_common (lit "-") with
        | [p0; p1; _] => Ok (p0 ++ lit "-" ++ p1 ++ lit "-01")
        | _ => Ok most_common
        end
      else Ok most_common
  end.

End Consensus.

(** ** One row of process_chunk *)

Record EvaluationRecord := {
  evaluated_element : str;
  datefinder_date : str;
  dateparser_date : str;
  parsedatetime_date : str;
  regex_date : str;
  consensus : str
}.

Section Row.

Local Open Scope res_scope.

Variable L : Libraries.

(** len(group.split(delim)) if group and delim else 0 *)
Definition splitcount (group delim : str) : nat :=
  if truthy group && truthy delim then length (split group delim) else 0.

(** The choice of final_eval; parts[1] raises IndexError on a short list. *)
Definition final_eval_of (group3 delim3 group2 delim2 : str) : res str :=
  if truthy group3 && truthy delim3 && (splitcount group3 delim3 =? 3)
  then Ok group3
  else if truthy group2 && truthy delim2 && (splitcount group2 delim2 =? 2)
  then match split group2 delim2 with
       | p0 :: p1 :: _ => Ok (p0 ++ delim2 ++ lit "01" ++ delim2 ++ p1)
       | _ => Raised
       end
  else Ok [].

Definition is_two_group_of (group3 delim3 group2 delim2 : str) : bool :=
  (truthy group2 && truthy delim2 && (splitcount group2 delim2 =? 2))
  && negb (truthy group3 && truthy delim3 && (splitcount group3 delim3 =? 3)).

(** The evaluated string element of a row. *)
Definition evaluated (text : value) : res str :=
  let '(group3, delim3, _) := extract_same_delim_group_from_reversed text 3 in
  let '(group2, delim2, _) := extract_same_delim_group_from_reversed text 2 in
  final_eval_of group3 delim3 group2 delim2.

Definition is_two_group (text : value) : bool :=
  let '(group3, delim3, _) := extract_same_delim_group_from_reversed text 3 in
  let '(group2, delim2, _) := extract_same_delim_group_from_reversed text 2 in
  is_two_group_of group3 delim3 group2 delim2.

(** The body of the loop of process_chunk for the cell [text]. *)
Definition process_row (text : value) : res EvaluationRecord :=
  final_eval <- evaluated text ;;
  let d1 := extract_date_datefinder L final_eval in
  let d2 := extract_date_dateparser L final_eval in
  let d3 := extract_date_parsedatetime L final_eval in
  let d4 := extract_date_regex_datetime L final_eval in
  r1 <- standardize_date L d1 ;;
  r2 <- standardize_date L d2 ;;
  r3 <- standardize_date L d3 ;;
  r4 <- standardize_date L d4 ;;
  c <- consensus_date [PyStr r1; PyStr r2; PyStr r3; PyStr r4]
                      (is_two_group text) ;;
  Ok {| evaluated_element := final_eval;
        datefinder_date := r1;
        dateparser_date := r2;
        parsedatetime_date := r3;
        regex_date := r4;
        consensus := c |}.

End Row.

(** ** Vocabulary of the statements *)

Definition count (l : list str) (k : str) : nat :=
  count_occ (list_eq_dec ascii_dec) l k.

(** [k1] is met in [l] before any occurrence of [k2]. *)
Definition encountered_before (k1 k2 : str) (l : list str) : Prop :=
  exists l1 l2, l = l1 ++ k1 :: l2 /\ ~ In k2 l1.

(** The mode of [l], ties going to the value met first. *)
Definition stable_mode (l : list str) (m : str) : Prop :=
  In m l
  /\ (forall x, count l x <= count l m)
  /\ (forall x, In x l -> x <> m -> count l x = count l m ->
                encountered_before m x l).

(** What the counter holds after the values of [l]. *)
Record counter_of (l : list str) (c : list (str * nat)) : Prop := {
  keys_distinct : NoDup (map fst c);
  counts_right : forall k n, In (k, n) c -> In k l /\ n = count l k;
  keys_complete : forall k, In k l -> In k (map fst c);
  keys_in_order : forall ks1 k1 ks2, map fst c = ks1 ++ k1 :: ks2 ->
      forall k2, In k2 ks2 -> encountered_before k1 k2 l
}.

(** The strings among the inputs of the resolver. *)
Definition strings_of (dates : list value) : list str :=
  flat_map (fun v => match v with PyStr d => [d] | _ => [] end) dates.

(** A string of the form dddd-dd-dd. *)
Definition well_formed (d : str) : bool :=
  match fullmatch RE_ISO d with Some _ => true | None => false end.

(** What the resolver keeps: the trimmed strings that are well formed. *)
Definition kept_dates (dates : list value) : list str :=
  filter well_formed (map strip (strings_of dates)).

(** A date cut to the month: the day replaced by 01. *)
Definition month_precision (m : str) : str := firstn 8 m ++ lit "01".

(** The third field of a date string. *)
Definition day_component (r : str) : str := nth 2 (split r (lit "-")) [].

(** The resolver as the specification words it: the inputs that are not well
    formed are discarded as they stand, and the answer is the stable mode of
    the rest. *)
Definition spec_consensus (dates : list value) (r : str) : Prop :=
  match filter well_formed (strings_of dates) with
  | [] => r = []
  | kept => stable_mode kept r
  end.

(** The year, month and day written in a string dddd-dd-dd. *)
Definition read_ymd (r : str) : option (Z * Z * Z) :=
  match fullmatch RE_ISO r with
  | Some pieces =>
      match groups RE_ISO pieces with
      | [y; m; d] =>
          match int y, int m, int d with
          | Ok y, Ok m, Ok d => Some (y, m, d)
          | _, _, _ => None
          end
      | _ => None
      end
  | None => None
  end.

(** A canonical date: fixed width, zero padded, plausible year, month in
    1..12 and day in 1..31. *)
Definition canonical (r : str) : bool :=
  match read_ymd r with
  | Some (y, m, d) => plausible_year y && in_range 1 m 12 && in_range 1 d 31
  | None => false
  end.

(** No rule of the standardizer reads the string before the fuzzy parse, and
    the string has a run of digits. *)
Definition falls_through (s : str) : bool :=
  truthy s && Py.eqb (strip s) s
  && match fullmatch RE_YEAR s, fullmatch RE_MONTH_YEAR s,
           fullmatch RE_YEAR_MONTH s, fullmatch RE_MDY s with
     | None, None, None, None => true
     | _, _, _, _ => false
     end
  && search [Digits 4 4] s.

Definition Z_range (lo : Z) (n : nat) : list Z :=
  map (fun k => lo + Z.of_nat k)%Z (seq 0 n).

(** A cell in which the locator can find no group: not a string, or a string
    (possibly empty) without a decimal digit. *)
Definition no_digit_input (text : value) : Prop :=
  match text with
  | PyStr s => forallb (fun c => negb (is_decimal c)) s = true
  | _ => True
  end.

(** The three libraries report no date for the empty string: each raises or
    returns nothing. *)
Definition silent_on_empty (L : Libraries) : Prop :=
  (datefinder_find_dates L [] = Raised \/ datefinder_find_dates L [] = Ok [])
  /\ (dateparser_parse L [] = Raised \/ dateparser_parse L [] = Ok None)
  /\ (parsedatetime_parse L [] = Raised
      \/ exists y m d hh mi ss status,
           parsedatetime_parse L [] = Ok (y, m, d, hh, mi, ss, status)
           /\ (status <= 0)%Z).

Definition empty_record : EvaluationRecord :=
  {| evaluated_element := [];
     datefinder_date := [];
     dateparser_date := [];
     parsedatetime_date := [];
     regex_date := [];
     consensus := [] |}.

(** No group of delimiter [delim] and pattern [np] qualifies in the text. *)
Definition none_accepted (delim : ascii) (np : nat * pattern) (rev_text : str)
  : Prop :=
  forall m, ~ accepted delim np rev_text m.

(** The delimiter and pattern that win the scan: every combination tried
    before has no qualifying group. *)
Definition winning (delim : ascii) (np : nat * pattern) (rev_text : str)
  : Prop :=
  exists ds1 ds2 ps1 ps2,
    DELIM_LIST = ds1 ++ delim :: ds2
    /\ patterns delim = ps1 ++ np :: ps2
    /\ (forall d' np', In d' ds1 -> In np' (patterns d') ->
                       none_accepted d' np' rev_text)
    /\ (forall np', In np' ps1 -> none_accepted delim np' rev_text).

(** The text between two positions counted from the end of the reversed
    text: the span of a match, read on the input. *)
Definition original_span (text : str) (m : nat * nat * list str) : nat * nat :=
  (length text - snd (fst m), length text - fst (fst m)).

(** Libraries that never find a date: dateutil and parsedatetime raise,
    datefinder and dateparser return nothing. *)
Definition quiet_libraries : Libraries :=
  {| dateutil_parse := fun _ => Raised;
     datefinder_find_dates := fun _ => Ok [];
     dateparser_parse := fun _ => Ok None;
     parsedatetime_parse := fun _ => Raised |}.

(** A date string whose year lies in the plausible window, or no date. *)
Definition year_in_window (r : str) : Prop :=
  r = [] \/ exists y m d, read_ymd r = Some (y, m, d) /\ (1980 <= y <= 2039)%Z.

(** The expansion of a two-digit year as the specification words it: 1900+y
    if plausible, else 2000+y if plausible, else none. *)
Definition expansion (y : Z) : option Z :=
  if plausible_year (1900 + y) then Some (1900 + y)%Z
  else if plausible_year (2000 + y) then Some (2000 + y)%Z
  else None.

(** A library whose fuzzy parser answers 15 July 2021 to everything. *)
Definition july_15 : date := Date 2021 7 15 eq_refl.

Definition fixed_libraries : Libraries :=
  {| dateutil_parse := fun _ => Ok july_15;
     datefinder_find_dates := fun _ => Ok [];
     dateparser_parse := fun _ => Ok None;
     parsedatetime_parse := fun _ => Raised |}.

(** ** Vocabulary of the further properties *)

(** delim.join(fields) for a delimiter of one character. *)
Fixpoint join (d : ascii) (fields : list str) : str :=
  match fields with
  | [] => []
  | [f] => f
  | f :: rest => f ++ d :: join d rest
  end.

(** A field of a located group: one to four decimal digits. *)
Definition digit_field (f : str) : Prop :=
  forallb is_decimal f = true /\ 1 <= length f <= 4.

(** The character of the text at a position, as str.isdigit sees it; the
    empty string stands past either end. *)
Definition digit_at (text : str) (i : nat) : bool := isdigit (char_at text i).

(** A reading of three numbers as month, day, year or as year, month, day,
    and of two numbers as month, year or as year, month. *)
Definition mdy_reading (A B C : Z) : Prop :=
  (1 <= A <= 12)%Z /\ (1 <= B <= 31)%Z /\ plausible_year (expand_year C) = true.

Definition ymd_reading (A B C : Z) : Prop :=
  plausible_year (expand_year A) = true /\ (1 <= B <= 12)%Z /\ (1 <= C <= 31)%Z.

Definition month_year_reading (A B : Z) : Prop :=
  (1 <= A <= 12)%Z /\ plausible_year (expand_year B) = true.

(** Two decimal digits side by side somewhere in the string. *)
Fixpoint adjacent_digits (s : str) : bool :=
  match s with
  | c1 :: s' =>
      match s' with
      | c2 :: _ => (is_decimal c1 && is_decimal c2) || adjacent_digits s'
      | [] => false
      end
  | [] => false
  end.

(** A pattern with a run of at least two digits matches only where two digits
    stand side by side. *)
Definition wants_two_digits (p : pattern) : Prop :=
  exists p1 lo hi p2, p = p1 ++ Digits lo hi :: p2 /\ 2 <= lo.

(** What the standardizer answers for a month M and a year Y, and for three
    numbers read as month, day, year with day, month, year as the fallback. *)
Definition month_year_result (M Y : Z) : str :=
  if in_range 1 M 12 && plausible_year (expand_year Y)
  then first_of_month (expand_year Y) M
  else [].

Definition mdy_result (M D Y : Z) : str :=
  if in_range 1 M 12 && in_range 1 D 31 && plausible_year (expand_year Y)
  then ymd_string (expand_year Y) M D
  else if in_range 1 D 12 && in_range 1 M 31 && plausible_year (expand_year Y)
  then ymd_string (expand_year Y) D M
  else [].

(** No date, or a canonical one. *)
Definition canonical_or_empty (r : str) : Prop := r = [] \/ canonical r = true.

(** Two spans that share no position. *)
Definition disjoint_spans (a b : nat * nat) : Prop :=
  snd a <= fst b \/ snd b <= fst a.

(** dateutil reads the ISO string of the date y-m-d as that date. *)
Definition reads_iso (L : Libraries) (y m d : Z) : Prop :=
  exists dt, dateutil_parse L (ymd_string y m d) = Ok dt
             /\ year dt = y /\ month dt = m /\ day dt = d.

(** The two patterns of three fields of the regex evaluator. *)
Definition P_YMD : pattern :=
  [Digits 4 4; Class DELIMS; Digits 1 2; Class DELIMS; Digits 1 2].
Definition P_MDY : pattern :=
  [Digits 1 2; Class DELIMS; Digits 1 2; Class DELIMS; Digits 2 4].

(** The year the regex evaluator reads in the last of three fields: as
    written for four digits, expanded for two. *)
Definition regex_year (g : str) (Y : Z) : Z :=
  if length g =? 4 then Y else expand_year Y.

(** Libraries whose dateutil reads a string dddd-dd-dd as that date and
    nothing else, the other three finding nothing. *)
Definition iso_reader : Libraries :=
  {| dateutil_parse :=
       fun s => match read_ymd s with
                | Some (y, m, d) => make_date y m d
                | None => Raised
                end;
     datefinder_find_dates := fun _ => Ok [];
     dateparser_parse := fun _ => Ok None;
     parsedatetime_parse := fun _ => Raised |}.

(** Every place where the pattern matches, one match for each starting
    position, whether or not it overlaps another: the matches a scan would
    find if it were started afresh at each position. *)
Fixpoint matches_from (p : pattern) (s : str) (pos : nat)
  : list (nat * nat * list str) :=
  match s with
  | [] => []
  | _ :: s' =>
      match match_here p s with
      | Some pieces =>
          (pos, pos + length (concat pieces), groups p pieces)
            :: matches_from p s' (S pos)
      | None => matches_from p s' (S pos)
      end
  end.

Definition all_matches (p : pattern) (s : str) : list (nat * nat * list str) :=
  matches_from p s 0.

(** A qualifying group in the plain sense of the words: a match of the
    pattern anywhere in the text that passes every test of the loop body. *)
Definition qualifies (delim : ascii) (np : nat * pattern) (rev_text : str)
           (m : nat * nat * list str) : Prop :=
  In m (all_matches (snd np) rev_text)
  /\ accept_match delim (fst np) rev_text m <> None.

(** * Properties *)

Unset Implicit Arguments.

(** ** Loops left by return *)

Lemma first_some_split (A B : Type) (f : A -> option B) l r :
  first_some f l = Some r ->
  exists l1 x l2, l = l1 ++ x :: l2 /\ f x = Some r
                  /\ forall y, In y l1 -> f y = None.
Proof.
  induction l as [|a l IH]; simpl; [discriminate|].
  destruct (f a) eqn:Fa.
  - intros H; inversion H; subst. exists [], a, l. repeat split; auto.
    intros y [].
  - intros H. destruct (IH H) as (l1 & x & l2 & -> & Hx & Hn).
    exists (a :: l1), x, l2. repeat split; auto.
    intros y [<-|Hy]; auto.
Qed.

Lemma first_some_in (A B : Type) (f : A -> option B) l r :
  first_some f l = Some r -> exists x, In x l /\ f x = Some r.
Proof.
  intros H. destruct (first_some_split _ _ _ _ _ H) as (l1 & x & l2 & -> & Hx & _).
  exists x. split; auto. apply in_or_app. right. left. reflexivity.
Qed.

Lemma first_some_none (A B : Type) (f : A -> option B) l :
  (forall x, In x l -> f x = None) -> first_some f l = None.
Proof.
  induction l as [|a l IH]; simpl; auto.
  intros H. rewrite (H a (or_introl eq_refl)). apply IH. auto.
Qed.

(** ** The matcher *)

Lemma try_down_some (A : Type) (f : nat -> option A) lo k r :
  try_down f lo k = Some r -> exists j, lo <= j <= k /\ f j = Some r.
Proof.
  induction k as [|k IH]; simpl.
  - destruct (0 <? lo) eqn:E; [discriminate|].
    apply Nat.ltb_ge in E. destruct (f 0) eqn:F; [|discriminate].
    intros H; inversion H; subst. exists 0. split; [lia|auto].
  - destruct (S k <? lo) eqn:E; [discriminate|].
    apply Nat.ltb_ge in E. destruct (f (S k)) eqn:F.
    + intros H; inversion H; subst. exists (S k). split; [lia|auto].
    + intros H. destruct (IH H) as (j & Hj & Fj). exists j. split; [lia|auto].
Qed.

Lemma match_here_sound p : forall s pieces,
  match_here p s = Some pieces ->
  Forall2 conforms p pieces /\ exists rest, s = concat pieces ++ rest.
Proof.
  induction p as [|i p IH]; intros s pieces; simpl.
  - intros H; inversion H; subst. split; [constructor|]. exists s. reflexivity.
  - destruct i as [lo hi|c|cs|].
    + intros H. apply try_down_some in H. destruct H as (j & Hj & H).
      destruct (length (firstn j s) =? j) eqn:E1; simpl in H; [|discriminate].
      destruct (forallb is_decimal (firstn j s)) eqn:E2; [|discriminate].
      destruct (match_here p (skipn j s)) as [ps|] eqn:M; [|discriminate].
      simpl in H. inversion H; subst. apply Nat.eqb_eq in E1.
      destruct (IH _ _ M) as (F & rest & Hr). split.
      * constructor; auto. simpl. split; [lia|auto].
      * exists rest. simpl. rewrite <- app_assoc, <- Hr.
        symmetry. apply firstn_skipn.
    + destruct s as [|x s]; [discriminate|].
      destruct (Ascii.eqb x c) eqn:E; [|discriminate].
      apply Ascii.eqb_eq in E. subst x.
      destruct (match_here p s) as [ps|] eqn:M; [|discriminate].
      simpl. intros H; inversion H; subst.
      destruct (IH _ _ M) as (F & rest & Hr). split.
      * constructor; auto. reflexivity.
      * exists rest. simpl. f_equal. exact Hr.
    + destruct s as [|x s]; [discriminate|].
      destruct (existsb (Ascii.eqb x) cs) eqn:E; [|discriminate].
      apply existsb_exists in E. destruct E as (y & Hy & E).
      apply Ascii.eqb_eq in E. subst y.
      destruct (match_here p s) as [ps|] eqn:M; [|discriminate].
      simpl. intros H; inversion H; subst.
      destruct (IH _ _ M) as (F & rest & Hr). split.
      * constructor; auto. exists x. auto.
      * exists rest. simpl. f_equal. exact Hr.
    + destruct s as [|x s]; [|discriminate].
      destruct (match_here p []) as [ps|] eqn:M; [|discriminate].
      simpl. intros H; inversion H; subst.
      destruct (IH _ _ M) as (F & rest & Hr). split.
      * constructor; auto. reflexivity.
      * exists rest. simpl. exact Hr.
Qed.

(** The spans found by finditer, read on the scanned string. *)
Lemma finditer_from_sound p : forall s pos skip st en gs,
  In (st, en, gs) (finditer_from p s pos skip) ->
  exists pieces,
    pos + skip <= st /\ st - pos < length s
    /\ match_here p (skipn (st - pos) s) = Some pieces
    /\ en = st + length (concat pieces)
    /\ gs = groups p pieces.
Proof.
  induction s as [|c s IH]; intros pos skip st en gs; simpl; [intros []|].
  destruct skip as [|k].
  - destruct (match_here p (c :: s)) as [pieces|] eqn:M.
    + intros [H|H].
      * inversion H; subst. exists pieces.
        rewrite Nat.sub_diag. simpl. repeat split; auto; lia.
      * apply IH in H. destruct H as (ps & H1 & H2 & H3 & H4 & H5).
        exists ps. replace (st - pos) with (S (st - S pos)) by lia.
        simpl. repeat split; auto; lia.
    + intros H. apply IH in H. destruct H as (ps & H1 & H2 & H3 & H4 & H5).
      exists ps. replace (st - pos) with (S (st - S pos)) by lia.
      simpl. repeat split; auto; lia.
  - intros H. apply IH in H. destruct H as (ps & H1 & H2 & H3 & H4 & H5).
    exists ps. replace (st - pos) with (S (st - S pos)) by lia.
    simpl. repeat split; auto; lia.
Qed.

Lemma finditer_sound p s st en gs :
  In (st, en, gs) (finditer p s) ->
  exists pieces rest,
    Forall2 conforms p pieces
    /\ skipn st s = concat pieces ++ rest
    /\ en = st + length (concat pieces)
    /\ st < length s
    /\ gs = groups p pieces.
Proof.
  intros H. apply finditer_from_sound in H.
  destruct H as (ps & H1 & H2 & H3 & H4 & H5).
  rewrite Nat.sub_0_r in *.
  destruct (match_here_sound _ _ _ H3) as (F & rest & Hr).
  exists ps, rest. repeat split; auto.
Qed.

(** The starts of the spans grow strictly: the matches do not overlap. *)
Lemma finditer_from_sorted p : forall s pos skip,
  StronglySorted (fun a b => fst (fst a) < fst (fst b))
                 (finditer_from p s pos skip).
Proof.
  induction s as [|c s IH]; intros pos skip; simpl; [constructor|].
  destruct skip as [|k]; [|apply IH].
  destruct (match_here p (c :: s)) as [pieces|]; [|apply IH].
  constructor; [apply IH|].
  apply Forall_forall. intros [[st en] gs] H.
  apply finditer_from_sound in H. destruct H as (ps & H1 & _). simpl. lia.
Qed.

(** ** The locator *)

Lemma first_some_none_inv (A B : Type) (f : A -> option B) l :
  first_some f l = None -> forall x, In x l -> f x = None.
Proof.
  induction l as [|a l IH]; simpl; [intros _ x []|].
  destruct (f a) eqn:Fa; [discriminate|].
  intros H x [<-|Hx]; auto.
Qed.

Lemma delim_not_decimal d : In d DELIM_LIST -> is_decimal d = false.
Proof.
  unfold DELIM_LIST. simpl.
  intros [<-|[<-|[<-|[<-|[<-|[]]]]]]; reflexivity.
Qed.

Lemma decimal_run_no_delim d s :
  is_decimal d = false -> forallb is_decimal s = true -> ~ In d s.
Proof.
  intros Hd Hs Hin. rewrite forallb_forall in Hs.
  rewrite (Hs d Hin) in Hd. discriminate.
Qed.

Lemma split_on_no_delim d s : ~ In d s -> split_on d s = [s].
Proof.
  induction s as [|c s IH]; simpl; auto.
  intros H. destruct (Ascii.eqb c d) eqn:E.
  - apply Ascii.eqb_eq in E. subst. exfalso. apply H. left. reflexivity.
  - rewrite IH; auto.
Qed.

Lemma split_on_app d a rest :
  ~ In d a -> split_on d (a ++ d :: rest) = a :: split_on d rest.
Proof.
  induction a as [|c a IH]; simpl.
  - intros _. rewrite Ascii.eqb_refl. reflexivity.
  - intros H. destruct (Ascii.eqb c d) eqn:E.
    + apply Ascii.eqb_eq in E. subst. exfalso. apply H. left. reflexivity.
    + rewrite IH; auto.
Qed.

Lemma slice_of_skipn (s : str) st c rest :
  skipn st s = c ++ rest -> slice s st (st + length c) = c.
Proof.
  intros H. unfold slice. rewrite H.
  replace (st + length c - st) with (length c + 0) by lia.
  rewrite firstn_app_2. simpl. apply app_nil_r.
Qed.

(** A span of the reversed text, read back on the text. *)
Lemma rev_slice_rev (t : str) st en :
  st <= en -> en <= length t ->
  rev (slice (rev t) st en) = slice t (length t - en) (length t - st).
Proof.
  intros H1 H2. unfold slice.
  rewrite skipn_rev, firstn_rev, rev_involutive.
  rewrite length_firstn.
  replace (Nat.min (length t - st) (length t) - (en - st))
    with (length t - en) by lia.
  replace (length t - st - (length t - en)) with (en - st) by lia.
  rewrite (firstn_skipn_comm (en - st) (length t - en)).
  do 2 f_equal. lia.
Qed.

Lemma accept_match_inv delim n rt m g d k :
  accept_match delim n rt m = Some (g, d, k) ->
  g = rev (slice rt (fst (fst m)) (snd (fst m))) /\ d = [delim] /\ k = n.
Proof.
  destruct m as [[st en] gs]. unfold accept_match. cbv zeta.
  repeat match goal with
         | |- context [if ?b then _ else _] => destruct b; try discriminate
         end.
  all: intros H; inversion H; subst; auto.
Qed.

Lemma sorted_after (A : Type) (R : A -> A -> Prop) l1 x l2 :
  StronglySorted R (l1 ++ x :: l2) -> forall y, In y l2 -> R x y.
Proof.
  induction l1 as [|a l1 IH]; simpl; intros H.
  - apply StronglySorted_inv in H. destruct H as [_ H].
    rewrite Forall_forall in H. exact H.
  - apply StronglySorted_inv in H. destruct H as [H _]. auto.
Qed.

Lemma extract_selects text num g d n :
  extract_same_delim_group_from_reversed (PyStr text) num = (g, d, n) ->
  g <> [] ->
  exists delim np m,
    In delim DELIM_LIST /\ In np (patterns delim)
    /\ In m (finditer (snd np) (rev text))
    /\ accept_match delim (fst np) (rev text) m = Some (g, d, n)
    /\ forall m', accepted delim np (rev text) m' ->
                  fst (fst m) <= fst (fst m').
Proof.
  unfold extract_same_delim_group_from_reversed.
  destruct (first_some (scan_delim (rev text)) DELIM_LIST) as [r|] eqn:E.
  2:{ intros H; inversion H; subst. intros Hg. exfalso. apply Hg. reflexivity. }
  intros -> Hg.
  destruct (first_some_in _ _ _ _ _ E) as (delim & Hd & E1).
  unfold scan_delim in E1.
  destruct (first_some_in _ _ _ _ _ E1) as (np & Hp & E2).
  unfold scan_pattern in E2.
  destruct (first_some_split _ _ _ _ _ E2) as (l1 & m & l2 & Hl & Hm & Hn).
  exists delim, np, m. repeat split; auto.
  - rewrite Hl. apply in_or_app. right. left. reflexivity.
  - intros m' [Hin Hacc]. rewrite Hl in Hin.
    apply in_app_or in Hin. destruct Hin as [Hin|[<-|Hin]].
    + exfalso. apply Hacc. apply Hn. exact Hin.
    + lia.
    + pose proof (finditer_from_sorted (snd np) (rev text) 0 0) as S.
      fold (finditer (snd np) (rev text)) in S. rewrite Hl in S.
      apply Nat.lt_le_incl. apply (sorted_after _ _ _ _ _ S _ Hin).
Qed.

Lemma rev_three (p1 p3 : str) d :
  rev (concat [p1; [d]; p3]) = rev p3 ++ [d] ++ rev p1.
Proof.
  simpl. rewrite app_nil_r, rev_app_distr. simpl.
  rewrite <- app_assoc. reflexivity.
Qed.

(** The shape of an accepted group of two fields. *)
Lemma two_field_shape text num g d :
  extract_same_delim_group_from_reversed (PyStr text) num = (g, d, 2) ->
  exists f1 f2 delim,
    In delim DELIM_LIST /\ d = [delim] /\ g = f1 ++ d ++ f2
    /\ f1 <> [] /\ f2 <> []
    /\ forallb is_decimal f1 = true /\ forallb is_decimal f2 = true.
Proof.
  intros H.
  assert (Hg : g <> []).
  { intros ->. unfold extract_same_delim_group_from_reversed in H.
    destruct (first_some (scan_delim (rev text)) DELIM_LIST) as [r|] eqn:E;
      [|discriminate].
    subst r.
    destruct (first_some_in _ _ _ _ _ E) as (delim & Hd & E1).
    destruct (first_some_in _ _ _ _ _ E1) as (np & Hp & E2).
    destruct (first_some_in _ _ _ _ _ E2) as (m & Hm & E3).
    destruct (accept_match_inv _ _ _ _ _ _ _ E3) as (Hr & _ & Hk).
    destruct m as [[st en] gs].
    destruct (finditer_sound _ _ _ _ _ Hm) as (ps & rest & F & Hs & He & _ & _).
    simpl in Hr. rewrite He, (slice_of_skipn _ _ _ _ Hs) in Hr.
    assert (C : concat ps = []).
    { destruct (concat ps); auto. simpl in Hr.
      symmetry in Hr. apply app_eq_nil in Hr. destruct Hr; discriminate. }
    simpl in Hp.
    destruct Hp as [<-|[<-|[<-|[<-|[]]]]]; simpl in F, Hk; try discriminate;
      inversion F as [|? p1 ? ? C1 F1]; subst; simpl in C1;
      destruct p1; simpl in C; try discriminate; simpl in C1; lia. }
  destruct (extract_selects _ _ _ _ _ H Hg)
    as (delim & np & [[st en] gs] & Hd & Hp & Hm & Ha & _).
  destruct (accept_match_inv _ _ _ _ _ _ _ Ha) as (Hr & -> & Hk).
  destruct (finditer_sound _ _ _ _ _ Hm) as (ps & rest & F & Hs & He & _ & _).
  simpl in Hr. rewrite He, (slice_of_skipn _ _ _ _ Hs) in Hr.
  simpl in Hp.
  destruct Hp as [<-|[<-|[<-|[<-|[]]]]]; simpl in F, Hk; try discriminate.
  all: inversion F as [|? p1 ? ? C1 F1]; subst; clear F;
    inversion F1 as [|? p2 ? ? C2 F2]; subst; clear F1;
    inversion F2 as [|? p3 ? ? C3 F3]; subst; clear F2;
    inversion F3; subst; clear F3;
    simpl in C1, C2, C3; subst p2; destruct C1 as [L1 D1]; destruct C3 as [L3 D3];
    exists (rev p3), (rev p1), delim;
    repeat split; auto.
  all: try apply rev_three.
  all: try (intros E; apply (f_equal (@length _)) in E;
            rewrite length_rev in E; simpl in E; lia).
  all: rewrite forallb_forall in *; intros x Hx; apply in_rev in Hx; auto.
Qed.

(** ** Totality: no call of the pipeline raises *)

Lemma match_here_eos p : forall s pieces,
  match_here (p ++ [Eos]) s = Some pieces -> s = concat pieces.
Proof.
  induction p as [|i p IH]; intros s pieces; simpl.
  - destruct s; [|discriminate]. intros H; inversion H. reflexivity.
  - destruct i as [lo hi|c|cs|].
    + intros H. apply try_down_some in H. destruct H as (j & _ & H).
      destruct ((length (firstn j s) =? j) && forallb is_decimal (firstn j s));
        [|discriminate].
      destruct (match_here (p ++ [Eos]) (skipn j s)) as [ps|] eqn:M;
        [|discriminate].
      inversion H; subst. simpl. rewrite <- (IH _ _ M).
      symmetry. apply firstn_skipn.
    + destruct s as [|x s]; [discriminate|].
      destruct (Ascii.eqb x c); [|discriminate].
      destruct (match_here (p ++ [Eos]) s) as [ps|] eqn:M; [|discriminate].
      simpl. intros H; inversion H; subst. simpl. f_equal. apply (IH _ _ M).
    + destruct s as [|x s]; [discriminate|].
      destruct (existsb (Ascii.eqb x) cs); [|discriminate].
      destruct (match_here (p ++ [Eos]) s) as [ps|] eqn:M; [|discriminate].
      simpl. intros H; inversion H; subst. simpl. f_equal. apply (IH _ _ M).
    + destruct s as [|x s]; [|discriminate].
      destruct (match_here (p ++ [Eos]) []) as [ps|] eqn:M; [|discriminate].
      simpl. intros H; inversion H; subst. simpl. apply (IH _ _ M).
Qed.

Lemma fullmatch_sound p s pieces :
  fullmatch p s = Some pieces ->
  Forall2 conforms (p ++ [Eos]) pieces /\ s = concat pieces.
Proof.
  intros H. split.
  - apply (match_here_sound _ _ _ H).
  - apply (match_here_eos _ _ _ H).
Qed.

Lemma int_total s :
  s <> [] -> forallb is_decimal s = true -> exists z, int s = Ok z.
Proof.
  intros Hs Hd. destruct s as [|c s]; [contradiction|].
  unfold int. rewrite Hd. eexists. reflexivity.
Qed.

Lemma digits_nonempty (piece : str) lo hi :
  conforms (Digits lo hi) piece -> 1 <= lo -> piece <> [].
Proof.
  simpl. intros [H _] Hlo ->. simpl in H. lia.
Qed.

(** Inversion of a match against a pattern written out in full. *)
Ltac invert_conforms :=
  repeat match goal with
         | H : Forall2 conforms (_ :: _) _ |- _ =>
             inversion H; subst; clear H
         | H : Forall2 conforms [] _ |- _ => inversion H; subst; clear H
         end.

Ltac digits_int g z E :=
  let H := fresh in
  assert (H : exists z, int g = Ok z)
    by (apply int_total;
        [eapply digits_nonempty; [eassumption|lia]
        |match goal with C : conforms (Digits _ _) g |- _ => apply C end]);
  destruct H as [z E].

Section Totality.

Variable L : Libraries.

Lemma month_year_date_total gm gy lo1 hi1 lo2 hi2 :
  conforms (Digits lo1 hi1) gm -> conforms (Digits lo2 hi2) gy ->
  1 <= lo1 -> 1 <= lo2 ->
  exists r, month_year_date gm gy = Ok r.
Proof.
  intros C1 C2 H1 H2. unfold month_year_date.
  digits_int gm mm Em. digits_int gy yy Ey. rewrite Em, Ey. simpl.
  destruct (_ && _); eexists; reflexivity.
Qed.

Lemma mdy_date_total g1 g2 g3 :
  conforms (Digits 1 2) g1 -> conforms (Digits 1 2) g2 ->
  conforms (Digits 2 4) g3 ->
  exists r, mdy_date g1 g2 g3 = Ok r.
Proof.
  intros C1 C2 C3. unfold mdy_date.
  digits_int g1 mm Em. digits_int g2 dd Ed. digits_int g3 yy Ey.
  rewrite Em, Ed, Ey. simpl.
  destruct (_ && _); [eexists; reflexivity|].
  destruct (_ && _); eexists; reflexivity.
Qed.

(** The standardizer returns for every string. *)
Lemma standardize_date_total s : exists r, standardize_date L s = Ok r.
Proof.
  unfold standardize_date.
  destruct (negb (truthy s)); [eexists; reflexivity|].
  destruct (fullmatch RE_YEAR (strip s)) as [ps|] eqn:E1.
  { destruct (fullmatch_sound _ _ _ E1) as [F Hs]. unfold RE_YEAR in F.
    simpl in F. invert_conforms.
    match goal with C : conforms Eos _ |- _ => simpl in C; subst end.
    simpl in Hs. rewrite !app_nil_r in Hs. rewrite Hs.
    match goal with C : conforms (Digits 4 4) ?g |- _ => digits_int g z Ez end.
    rewrite Ez. simpl. destruct (plausible_year z); eexists; reflexivity. }
  destruct (fullmatch RE_MONTH_YEAR (strip s)) as [ps|] eqn:E2.
  { destruct (fullmatch_sound _ _ _ E2) as [F _]. unfold RE_MONTH_YEAR in F.
    simpl in F. invert_conforms. simpl.
    eapply month_year_date_total; eauto. }
  destruct (fullmatch RE_YEAR_MONTH (strip s)) as [ps|] eqn:E3.
  { destruct (fullmatch_sound _ _ _ E3) as [F _]. unfold RE_YEAR_MONTH in F.
    simpl in F. invert_conforms. simpl.
    eapply month_year_date_total; eauto. }
  destruct (fullmatch RE_MDY (strip s)) as [ps|] eqn:E4.
  { destruct (fullmatch_sound _ _ _ E4) as [F _]. unfold RE_MDY in F.
    simpl in F. invert_conforms. simpl.
    eapply mdy_date_total; eauto. }
  eexists; reflexivity.
Qed.

Lemma counter_add_nonempty d c : counter_add d c <> [].
Proof.
  destruct c as [|[k n] c]; simpl; [discriminate|].
  destruct (Py.eqb k d); discriminate.
Qed.

Lemma Counter_snoc l d : Counter (l ++ [d]) = counter_add d (Counter l).
Proof. unfold Counter. rewrite fold_left_app. reflexivity. Qed.

Lemma Counter_nonempty l : l <> [] -> Counter l <> [].
Proof.
  destruct l as [|a l] using rev_ind; [contradiction|].
  intros _. rewrite Counter_snoc. apply counter_add_nonempty.
Qed.

Lemma consensus_date_total dates two_group :
  exists r, consensus_date dates two_group = Ok r.
Proof.
  unfold consensus_date.
  destruct (iso_dates dates) as [|d ds] eqn:E; [eexists; reflexivity|].
  destruct (Counter (d :: ds)) as [|x items] eqn:C.
  { exfalso. apply (Counter_nonempty (d :: ds)); [discriminate|exact C]. }
  unfold most_common_value, Py.bind.
  destruct two_group; [|eexists; reflexivity].
  match goal with
  | |- context [split ?a ?b] =>
      destruct (split a b) as [|p0 [|p1 [|p2 [|]]]]; eexists; reflexivity
  end.
Qed.

Lemma final_eval_of_total group3 delim3 group2 delim2 :
  exists r, final_eval_of group3 delim3 group2 delim2 = Ok r.
Proof.
  unfold final_eval_of.
  destruct (_ && _); [eexists; reflexivity|].
  destruct (truthy group2 && truthy delim2 && (splitcount group2 delim2 =? 2))
    eqn:E; [|eexists; reflexivity].
  apply andb_true_iff in E. destruct E as [E1 E2].
  unfold splitcount in E2. rewrite E1 in E2. apply Nat.eqb_eq in E2.
  destruct (split group2 delim2) as [|p0 [|p1 ps]]; try discriminate.
  eexists; reflexivity.
Qed.

Lemma evaluated_total text : exists r, evaluated text = Ok r.
Proof.
  unfold evaluated.
  destruct (extract_same_delim_group_from_reversed text 3) as [[g3 d3] n3].
  destruct (extract_same_delim_group_from_reversed text 2) as [[g2 d2] n2].
  apply final_eval_of_total.
Qed.

(** A row is processed without an exception, whatever the cell holds and
    whatever the libraries do. *)
Lemma process_row_total text : exists r, process_row L text = Ok r.
Proof.
  unfold process_row.
  destruct (evaluated_total text) as [e ->]. simpl.
  destruct (standardize_date_total (extract_date_datefinder L e)) as [r1 ->].
  destruct (standardize_date_total (extract_date_dateparser L e)) as [r2 ->].
  destruct (standardize_date_total (extract_date_parsedatetime L e)) as [r3 ->].
  destruct (standardize_date_total (extract_date_regex_datetime L e)) as [r4 ->].
  simpl.
  destruct (consensus_date_total [PyStr r1; PyStr r2; PyStr r3; PyStr r4]
                                 (is_two_group text)) as [c ->].
  simpl. eexists; reflexivity.
Qed.

End Totality.

(** ** The counter *)

Lemma str_eqb_eq (a b : str) : Py.eqb a b = true <-> a = b.
Proof.
  unfold Py.eqb. destruct (list_eq_dec ascii_dec a b); split; auto.
  discriminate.
Qed.

Lemma count_snoc l d k :
  count (l ++ [d]) k = count l k + (if list_eq_dec ascii_dec d k then 1 else 0).
Proof.
  unfold count. rewrite count_occ_app. simpl.
  destruct (list_eq_dec ascii_dec d k); reflexivity.
Qed.

Lemma encountered_before_snoc k1 k2 l d :
  encountered_before k1 k2 l -> encountered_before k1 k2 (l ++ [d]).
Proof.
  intros (l1 & l2 & -> & H). exists l1, (l2 ++ [d]). split; auto.
  rewrite <- app_assoc. reflexivity.
Qed.

(** Adding a value that has an entry bumps that entry in place. *)
Lemma counter_add_present d c :
  In d (map fst c) ->
  exists c1 n c2, c = c1 ++ (d, n) :: c2 /\ ~ In d (map fst c1)
                  /\ counter_add d c = c1 ++ (d, S n) :: c2.
Proof.
  induction c as [|[k n] c IH]; simpl; [intros []|].
  destruct (Py.eqb k d) eqn:E.
  - apply str_eqb_eq in E. subst k. intros _.
    exists [], n, c. repeat split; auto.
  - intros [H|H]; [subst; exfalso; simpl in E|].
    + assert (Py.eqb d d = true) by (apply str_eqb_eq; reflexivity). congruence.
    + destruct (IH H) as (c1 & n' & c2 & -> & Hn & ->).
      exists ((k, n) :: c1), n', c2. repeat split; auto.
      simpl. intros [->|Hd]; [|auto].
      assert (Py.eqb d d = true) by (apply str_eqb_eq; reflexivity). congruence.
Qed.

(** Adding a new value appends its entry. *)
Lemma counter_add_absent d c :
  ~ In d (map fst c) -> counter_add d c = c ++ [(d, 1)].
Proof.
  induction c as [|[k n] c IH]; simpl; auto.
  intros H. destruct (Py.eqb k d) eqn:E.
  - apply str_eqb_eq in E. subst. exfalso. apply H. left. reflexivity.
  - rewrite IH; auto.
Qed.

Lemma in_keys (c : list (str * nat)) k n : In (k, n) c -> In k (map fst c).
Proof. intros H. change k with (fst (k, n)). apply in_map. exact H. Qed.

Lemma Counter_spec l : counter_of l (Counter l).
Proof.
  induction l as [|d l IH] using rev_ind.
  - constructor; simpl.
    + constructor.
    + intros k n [].
    + intros k [].
    + intros ks1 k1 ks2 H. destruct ks1; discriminate.
  - rewrite Counter_snoc. destruct IH as [I1 I2 I3 I4].
    destruct (in_dec (list_eq_dec ascii_dec) d (map fst (Counter l)))
      as [Hin|Hout].
    + destruct (counter_add_present d _ Hin) as (c1 & n & c2 & Hc & Hn & ->).
      rewrite Hc in *. clear Hc.
      assert (K : map fst (c1 ++ (d, S n) :: c2)
                  = map fst (c1 ++ (d, n) :: c2))
        by (rewrite !map_app; reflexivity).
      constructor.
      * rewrite K. exact I1.
      * intros k n' H. apply in_app_or in H.
        assert (Hd : forall k0 n0, In (k0, n0) (c1 ++ c2) -> k0 <> d).
        { intros k0 n0 H0 ->. rewrite map_app in I1. simpl in I1.
          apply NoDup_remove_2 in I1. apply I1. rewrite <- map_app.
          apply (in_keys _ _ _ H0). }
        destruct H as [H|[H|H]].
        -- assert (In (k, n') (c1 ++ (d, n) :: c2))
             by (apply in_or_app; left; exact H).
           destruct (I2 _ _ H0) as [Hk ->]. split; [apply in_or_app; auto|].
           rewrite count_snoc.
           destruct (list_eq_dec ascii_dec d k) as [<-|]; [|lia].
           exfalso. apply (Hd d (count l d)); auto. apply in_or_app. auto.
        -- inversion H; subst.
           assert (H0 : In (k, n) (c1 ++ (k, n) :: c2))
             by (apply in_or_app; right; left; reflexivity).
           destruct (I2 _ _ H0) as [Hk ->]. split; [apply in_or_app; auto|].
           rewrite count_snoc.
           destruct (list_eq_dec ascii_dec k k); [lia|contradiction].
        -- assert (In (k, n') (c1 ++ (d, n) :: c2))
             by (apply in_or_app; right; right; exact H).
           destruct (I2 _ _ H0) as [Hk ->]. split; [apply in_or_app; auto|].
           rewrite count_snoc.
           destruct (list_eq_dec ascii_dec d k) as [<-|]; [|lia].
           exfalso. apply (Hd d (count l d)); auto. apply in_or_app. auto.
      * intros k H. rewrite K. apply in_app_or in H.
        destruct H as [H|[<-|[]]]; auto.
      * intros ks1 k1 ks2 H k2 Hk2. apply encountered_before_snoc.
        rewrite K in H. apply (I4 _ _ _ H _ Hk2).
    + rewrite (counter_add_absent _ _ Hout).
      assert (Hdl : ~ In d l) by (intros H; apply Hout, I3, H).
      constructor.
      * rewrite map_app. simpl.
        apply NoDup_rev in I1. rewrite <- (rev_involutive (_ ++ _)).
        apply NoDup_rev. rewrite rev_app_distr. simpl.
        constructor; auto. rewrite <- in_rev. exact Hout.
      * intros k n H. apply in_app_or in H. destruct H as [H|[H|[]]].
        -- destruct (I2 _ _ H) as [Hk ->]. split; [apply in_or_app; auto|].
           rewrite count_snoc.
           destruct (list_eq_dec ascii_dec d k) as [<-|]; [contradiction|lia].
        -- inversion H; subst. split; [apply in_or_app; right; left; auto|].
           rewrite count_snoc.
           destruct (list_eq_dec ascii_dec k k); [|contradiction].
           unfold count. rewrite (proj1 (count_occ_not_In _ _ _) Hdl).
           reflexivity.
      * intros k H. rewrite map_app. apply in_app_or in H.
        apply in_or_app. destruct H as [H|[<-|[]]]; [left; auto|right; left; auto].
      * intros ks1 k1 ks2 H k2 Hk2. rewrite map_app in H. simpl in H.
        destruct ks2 as [|x ks2] using rev_ind; [destruct Hk2|]. clear IHks2.
        rewrite app_comm_cons, app_assoc in H.
        apply app_inj_tail in H. destruct H as [H Hx]. subst x.
        apply in_app_or in Hk2. destruct Hk2 as [Hk2|[<-|[]]].
        -- apply encountered_before_snoc. apply (I4 _ _ _ H _ Hk2).
        -- assert (He : In k1 l).
           { assert (Hk : In k1 (map fst (Counter l)))
               by (rewrite H; apply in_or_app; right; left; reflexivity).
             apply in_map_iff in Hk. destruct Hk as ([k n] & <- & Hk).
             apply (I2 k n Hk). }
           apply in_split in He. destruct He as (l1 & l2 & ->).
           exists l1, (l2 ++ [d]). split.
           ++ rewrite <- app_assoc. reflexivity.
           ++ intros Hd. apply Hdl. apply in_or_app. auto.
Qed.

Lemma first_max_spec items : forall best,
  exists pre post,
    best :: items = pre ++ first_max best items :: post
    /\ (forall x, In x pre -> snd x < snd (first_max best items))
    /\ (forall x, In x post -> snd x <= snd (first_max best items))
    /\ snd best <= snd (first_max best items).
Proof.
  induction items as [|x items IH]; intros best; simpl.
  - exists [], []. repeat split; auto; intros x [].
  - destruct (snd best <? snd x) eqn:E.
    + apply Nat.ltb_lt in E.
      destruct (IH x) as (pre & post & H & H1 & H2 & H3).
      exists (best :: pre), post. rewrite H. repeat split; auto; [|lia].
      intros y [<-|Hy]; [lia|auto].
    + apply Nat.ltb_ge in E.
      destruct (IH best) as (pre & post & H & H1 & H2 & H3).
      destruct pre as [|b pre]; simpl in H.
      * injection H as Hb Hi. exists [], (x :: items).
        rewrite <- Hb in *. repeat split; auto.
        intros y [<-|Hy]; [lia|]. apply H2. rewrite <- Hi. exact Hy.
      * injection H as Hb Hi. subst b.
        exists (best :: x :: pre), post.
        split; [simpl; rewrite <- Hi; reflexivity|]. repeat split; auto.
        intros y [<-|[<-|Hy]].
        -- apply H1. left. reflexivity.
        -- assert (snd best < snd (first_max best items))
             by (apply H1; left; reflexivity). lia.
        -- apply H1. right. exact Hy.
Qed.

(** The most common value of a non-empty list is its stable mode. *)
Lemma most_common_stable l :
  l <> [] ->
  exists m, most_common_value (Counter l) = Ok m /\ stable_mode l m.
Proof.
  intros Hl. destruct (Counter_spec l) as [I1 I2 I3 I4].
  destruct (Counter l) as [|x items] eqn:C.
  { exfalso. apply (Counter_nonempty l Hl C). }
  simpl. eexists. split; [reflexivity|].
  destruct (first_max_spec items x) as (pre & post & H & H1 & H2 & _).
  set (e := first_max x items) in *. destruct e as [m n] eqn:Ee.
  cbn [fst snd] in *.
  assert (He : In (m, n) (x :: items))
    by (rewrite H; apply in_or_app; right; left; reflexivity).
  destruct (I2 _ _ He) as [Hm Hn].
  assert (Hcount : forall y, In y l ->
            (exists n', In (y, n') pre /\ n' = count l y)
            \/ y = m
            \/ (exists n', In (y, n') post /\ n' = count l y)).
  { intros y Hy. apply I3 in Hy. apply in_map_iff in Hy.
    destruct Hy as ([y' n'] & Hf & Hy). simpl in Hf. subst y'.
    destruct (I2 _ _ Hy) as [_ Hn'].
    rewrite H in Hy. apply in_app_or in Hy.
    destruct Hy as [Hy|[Hy|Hy]].
    - left. exists n'. auto.
    - right. left. inversion Hy. reflexivity.
    - right. right. exists n'. auto. }
  repeat split; auto.
  - intros y.
    destruct (in_dec (list_eq_dec ascii_dec) y l) as [Hy|Hy].
    + destruct (Hcount y Hy) as [(n' & Hp & ->)|[->|(n' & Hp & ->)]].
      * apply H1 in Hp. simpl in Hp. lia.
      * lia.
      * apply H2 in Hp. simpl in Hp. lia.
    + unfold count at 1. rewrite (proj1 (count_occ_not_In _ _ _) Hy). lia.
  - intros y Hy Hne Hc.
    destruct (Hcount y Hy) as [(n' & Hp & Hn')|[->|(n' & Hp & Hn')]].
    + apply H1 in Hp. simpl in Hp. lia.
    + contradiction.
    + apply (I4 (map fst pre) m (map fst post)).
      * rewrite H, map_app. reflexivity.
      * apply (in_keys _ _ _ Hp).
Qed.

Lemma stable_mode_in l m : stable_mode l m -> In m l.
Proof. intros [H _]. exact H. Qed.

Lemma iso_dates_kept dates : iso_dates dates = kept_dates dates.
Proof.
  unfold kept_dates.
  induction dates as [|v dates IH]; simpl; auto.
  destruct v as [d| | |]; simpl; auto.
  destruct d as [|c d].
  - simpl. exact IH.
  - cbn [truthy negb]. unfold well_formed at 1.
    destruct (fullmatch RE_ISO (strip (c :: d))); simpl; rewrite IH; reflexivity.
Qed.

(** The three fields of a well-formed date. *)
Lemma well_formed_shape d :
  well_formed d = true ->
  exists y1 y2 y3 y4 m1 m2 d1 d2,
    d = [y1; y2; y3; y4; "-"; m1; m2; "-"; d1; d2]%char
    /\ forallb is_decimal [y1; y2; y3; y4; m1; m2; d1; d2] = true.
Proof.
  unfold well_formed.
  destruct (fullmatch RE_ISO d) as [ps|] eqn:E; [|discriminate].
  intros _. destruct (fullmatch_sound _ _ _ E) as [F ->].
  unfold RE_ISO in F. simpl in F. invert_conforms.
  repeat match goal with
         | C : conforms (Lit _) _ |- _ => simpl in C; subst
         | C : conforms Eos _ |- _ => simpl in C; subst
         | C : conforms (Digits _ _) ?g |- _ =>
             let HL := fresh in let HD := fresh in
             destruct C as [HL HD];
             do 5 (try destruct g as [|? g]); simpl in HL; try lia
         end.
  do 8 eexists. split; [reflexivity|].
  cbn [forallb] in *.
  repeat match goal with
         | H : _ && _ = true |- _ => apply andb_true_iff in H; destruct H
         end.
  repeat match goal with
         | H : is_decimal _ = true |- _ => rewrite H; clear H
         end.
  reflexivity.
Qed.

Lemma decimal_not_hyphen c : is_decimal c = true -> Ascii.eqb c "-" = false.
Proof.
  intros H. destruct (Ascii.eqb c "-") eqn:E; auto.
  apply Ascii.eqb_eq in E. subst. discriminate.
Qed.

Lemma month_precision_split d :
  well_formed d = true ->
  match split d (lit "-") with
  | [p0; p1; _] => p0 ++ lit "-" ++ p1 ++ lit "-01"
  | _ => d
  end = month_precision d
  /\ day_component (month_precision d) = lit "01".
Proof.
  intros H. destruct (well_formed_shape d H)
    as (y1 & y2 & y3 & y4 & m1 & m2 & d1 & d2 & -> & Hd).
  simpl in Hd.
  repeat match goal with
         | H : _ && _ = true |- _ => apply andb_true_iff in H; destruct H
         end.
  unfold day_component, month_precision. simpl.
  repeat match goal with
         | H : is_decimal ?c = true |- _ =>
             rewrite (decimal_not_hyphen c H); clear H
         end.
  split; reflexivity.
Qed.

Lemma kept_well_formed dates m : In m (kept_dates dates) -> well_formed m = true.
Proof. unfold kept_dates. intros H. apply filter_In in H. apply H. Qed.

(** What consensus_date returns, in full. *)
Lemma consensus_date_spec dates two_group :
  exists r, consensus_date dates two_group = Ok r
    /\ match kept_dates dates with
       | [] => r = []
       | kept => exists m, stable_mode kept m
                   /\ r = if two_group then month_precision m else m
       end.
Proof.
  unfold consensus_date. rewrite iso_dates_kept.
  destruct (kept_dates dates) as [|d ds] eqn:K.
  - exists []. auto.
  - destruct (most_common_stable (d :: ds)) as (m & -> & Hm); [discriminate|].
    unfold Py.bind.
    assert (W : well_formed m = true)
      by (apply (kept_well_formed dates); rewrite K;
          apply (stable_mode_in _ _ Hm)).
    destruct two_group.
    + exists (month_precision m). split; [|exists m; auto].
      destruct (month_precision_split m W) as [<- _].
      destruct (split m (lit "-")) as [|p0 [|p1 [|p2 [|]]]]; reflexivity.
    + exists m. split; [reflexivity|]. exists m. auto.
Qed.

(** ** Canonical dates *)

Lemma in_Z_range lo n x : (lo <= x < lo + Z.of_nat n)%Z -> In x (Z_range lo n).
Proof.
  intros H. unfold Z_range. apply in_map_iff.
  exists (Z.to_nat (x - lo)). split; [lia|]. apply in_seq. lia.
Qed.

Lemma in_range_spec lo x hi : in_range lo x hi = true <-> (lo <= x <= hi)%Z.
Proof. unfold in_range. rewrite andb_true_iff, !Z.leb_le. reflexivity. Qed.

Lemma plausible_year_spec y : plausible_year y = true <-> (1980 <= y <= 2039)%Z.
Proof. apply (in_range_spec 1980 y 2039). Qed.

(** Every date of the plausible window is written and read back. *)
Lemma ymd_table :
  forallb (fun y =>
    forallb (fun m =>
      forallb (fun d =>
        match read_ymd (ymd_string y m d) with
        | Some (y', m', d') => (y' =? y)%Z && (m' =? m)%Z && (d' =? d)%Z
        | None => false
        end && falls_through (ymd_string y m d))
      (Z_range 1 31)) (Z_range 1 12)) (Z_range 1980 60) = true.
Proof. vm_compute. reflexivity. Qed.

Lemma ymd_table_at y m d :
  plausible_year y = true -> in_range 1 m 12 = true -> in_range 1 d 31 = true ->
  read_ymd (ymd_string y m d) = Some (y, m, d)
  /\ falls_through (ymd_string y m d) = true.
Proof.
  intros Hy Hm Hd.
  apply plausible_year_spec in Hy. apply in_range_spec in Hm, Hd.
  pose proof ymd_table as T.
  rewrite forallb_forall in T. specialize (T y (in_Z_range 1980 60 y ltac:(simpl; lia))).
  rewrite forallb_forall in T. specialize (T m (in_Z_range 1 12 m ltac:(simpl; lia))).
  rewrite forallb_forall in T. specialize (T d (in_Z_range 1 31 d ltac:(simpl; lia))).
  apply andb_true_iff in T. destruct T as [T1 T2]. split; [|exact T2].
  destruct (read_ymd (ymd_string y m d)) as [[[y' m'] d']|]; [|discriminate].
  apply andb_true_iff in T1. destruct T1 as [T1 T3].
  apply andb_true_iff in T1. destruct T1 as [T1 T4].
  apply Z.eqb_eq in T1, T3, T4. subst. reflexivity.
Qed.

Lemma canonical_ymd y m d :
  plausible_year y = true -> in_range 1 m 12 = true -> in_range 1 d 31 = true ->
  canonical (ymd_string y m d) = true.
Proof.
  intros Hy Hm Hd. unfold canonical.
  rewrite (proj1 (ymd_table_at y m d Hy Hm Hd)). rewrite Hy, Hm, Hd. reflexivity.
Qed.

Lemma first_of_month_ymd y m : first_of_month y m = ymd_string y m 1.
Proof. reflexivity. Qed.

Lemma first_of_year_ymd y : format_d 4 y ++ lit "-01-01" = ymd_string y 1 1.
Proof. reflexivity. Qed.

Lemma valid_ymd_ranges y m d :
  valid_ymd y m d = true -> in_range 1 m 12 = true /\ in_range 1 d 31 = true.
Proof.
  unfold valid_ymd, in_range, days_in_month. intros H.
  repeat (apply andb_true_iff in H; destruct H as [H ?]).
  split; apply andb_true_iff; split; auto.
  destruct (m =? 2)%Z; [destruct (is_leap y)|destruct (_ || _)]; lia.
Qed.

Lemma canonical_isoformat dt :
  plausible_year (year dt) = true -> canonical (isoformat dt) = true.
Proof.
  intros H. destruct (valid_ymd_ranges _ _ _ (date_valid dt)).
  apply canonical_ymd; auto.
Qed.

Section Standard.

Variable L : Libraries.

Lemma month_year_date_canonical gm gy r :
  month_year_date gm gy = Ok r -> r = [] \/ canonical r = true.
Proof.
  unfold month_year_date.
  destruct (int gm) as [mm|]; [|discriminate].
  destruct (int gy) as [yy|]; [|discriminate]. simpl.
  destruct (in_range 1 mm 12 && plausible_year (expand_year yy)) eqn:E;
    intros H; inversion H; auto.
  right. apply andb_true_iff in E. destruct E.
  rewrite first_of_month_ymd. apply canonical_ymd; auto.
Qed.

Lemma mdy_date_canonical g1 g2 g3 r :
  mdy_date g1 g2 g3 = Ok r -> r = [] \/ canonical r = true.
Proof.
  unfold mdy_date.
  destruct (int g1) as [mm|]; [|discriminate].
  destruct (int g2) as [dd|]; [|discriminate].
  destruct (int g3) as [yy|]; [|discriminate]. simpl.
  destruct (in_range 1 mm 12 && in_range 1 dd 31
            && plausible_year (expand_year yy)) eqn:E1.
  { intros H; inversion H. right.
    apply andb_true_iff in E1. destruct E1 as [E1 ?].
    apply andb_true_iff in E1. destruct E1.
    apply canonical_ymd; auto. }
  destruct (in_range 1 dd 12 && in_range 1 mm 31
            && plausible_year (expand_year yy)) eqn:E2.
  { intros H; inversion H. right.
    apply andb_true_iff in E2. destruct E2 as [E2 ?].
    apply andb_true_iff in E2. destruct E2.
    apply canonical_ymd; auto. }
  intros H; inversion H; auto.
Qed.

Lemma fuzzy_date_canonical s :
  fuzzy_date L s = [] \/ canonical (fuzzy_date L s) = true.
Proof.
  unfold fuzzy_date.
  destruct (_ && _); auto.
  destruct (dateutil_parse L s) as [dt|]; auto.
  destruct (plausible_year (year dt)) eqn:E; auto.
  right. apply canonical_isoformat. exact E.
Qed.

(** Whatever the standardizer returns is empty or canonical. *)
Lemma standardize_date_canonical s r :
  standardize_date L s = Ok r -> r = [] \/ canonical r = true.
Proof.
  unfold standardize_date.
  destruct (negb (truthy s)); [intros H; inversion H; auto|].
  destruct (fullmatch RE_YEAR (strip s)).
  { destruct (int (strip s)) as [y|]; [|discriminate]. simpl.
    destruct (plausible_year y) eqn:E; intros H; inversion H; auto.
    right. rewrite first_of_year_ymd. apply canonical_ymd; auto. }
  destruct (fullmatch RE_MONTH_YEAR (strip s)) as [ps|].
  { destruct (groups RE_MONTH_YEAR ps) as [|a [|b [|]]]; try discriminate.
    apply month_year_date_canonical. }
  destruct (fullmatch RE_YEAR_MONTH (strip s)) as [ps|].
  { destruct (groups RE_YEAR_MONTH ps) as [|a [|b [|]]]; try discriminate.
    apply month_year_date_canonical. }
  destruct (fullmatch RE_MDY (strip s)) as [ps|].
  { destruct (groups RE_MDY ps) as [|a [|b [|c [|]]]]; try discriminate.
    apply mdy_date_canonical. }
  intros H; inversion H. apply fuzzy_date_canonical.
Qed.

(** A string that falls through is handed to the fuzzy parse. *)
Lemma standardize_date_fuzzy s :
  falls_through s = true ->
  standardize_date L s
  = Ok match dateutil_parse L s with
       | Ok dt => if plausible_year (year dt) then isoformat dt else []
       | Raised => []
       end.
Proof.
  unfold falls_through. intros H.
  apply andb_true_iff in H. destruct H as [H H4].
  apply andb_true_iff in H. destruct H as [H H3].
  apply andb_true_iff in H. destruct H as [H1 H2].
  apply str_eqb_eq in H2.
  unfold standardize_date. rewrite H1, H2. simpl negb. cbv iota.
  destruct (fullmatch RE_YEAR s); [discriminate|].
  destruct (fullmatch RE_MONTH_YEAR s); [discriminate|].
  destruct (fullmatch RE_YEAR_MONTH s); [discriminate|].
  destruct (fullmatch RE_MDY s); [discriminate|].
  unfold fuzzy_date. rewrite H4. reflexivity.
Qed.

End Standard.

(** ** Inputs without a digit *)

Lemma finditer_needs_digit lo hi p s :
  1 <= lo ->
  forallb (fun c => negb (is_decimal c)) s = true ->
  finditer (Digits lo hi :: p) s = [].
Proof.
  intros Hlo Hs.
  destruct (finditer (Digits lo hi :: p) s) as [|[[st en] gs] ms] eqn:E; auto.
  exfalso.
  assert (Hin : In (st, en, gs) (finditer (Digits lo hi :: p) s))
    by (rewrite E; left; reflexivity).
  destruct (finditer_sound _ _ _ _ _ Hin) as (ps & rest & F & Hsk & _).
  inversion F as [|? piece ? ? C F']; subst.
  destruct C as [Hlen Hdec].
  destruct piece as [|c piece]; [simpl in Hlen; lia|].
  simpl in Hdec. apply andb_true_iff in Hdec. destruct Hdec as [Hc _].
  assert (In c s).
  { rewrite <- (firstn_skipn st s). apply in_or_app. right.
    rewrite Hsk. left. reflexivity. }
  rewrite forallb_forall in Hs. specialize (Hs c H).
  rewrite Hc in Hs. discriminate.
Qed.

Lemma no_digit_rev s :
  forallb (fun c => negb (is_decimal c)) s = true ->
  forallb (fun c => negb (is_decimal c)) (rev s) = true.
Proof.
  rewrite !forallb_forall. intros H x Hx. apply H. apply in_rev. exact Hx.
Qed.

(** The locator finds nothing in a cell without a digit. *)
Lemma extract_no_digit text num :
  no_digit_input text ->
  extract_same_delim_group_from_reversed text num = ([], [], 0).
Proof.
  destruct text as [s| | |]; try reflexivity.
  intros H. apply no_digit_rev in H.
  unfold extract_same_delim_group_from_reversed.
  assert (first_some (scan_delim (rev s)) DELIM_LIST = None) as ->;
    [|reflexivity].
  apply first_some_none.
  intros delim _. unfold scan_delim. apply first_some_none.
  intros np Hnp. unfold scan_pattern.
  simpl in Hnp.
  destruct Hnp as [<-|[<-|[<-|[<-|[]]]]]; cbn [fst snd];
    rewrite finditer_needs_digit by (auto; lia); reflexivity.
Qed.

Lemma regex_empty L : extract_date_regex_datetime L [] = [].
Proof. reflexivity. Qed.

Lemma process_row_no_digit L text :
  silent_on_empty L -> no_digit_input text ->
  process_row L text = Ok empty_record.
Proof.
  intros (H1 & H2 & H3) Ht.
  unfold process_row, evaluated, is_two_group.
  rewrite !(extract_no_digit text _ Ht).
  cbn [final_eval_of truthy andb Py.bind is_two_group_of negb].
  assert (E1 : extract_date_datefinder L [] = []).
  { unfold extract_date_datefinder. destruct H1 as [->| ->]; reflexivity. }
  assert (E2 : extract_date_dateparser L [] = []).
  { unfold extract_date_dateparser. destruct H2 as [->| ->]; reflexivity. }
  assert (E3 : extract_date_parsedatetime L [] = []).
  { unfold extract_date_parsedatetime.
    destruct H3 as [->|(y & m & d & hh & mi & ss & st & -> & Hst)];
      [reflexivity|].
    simpl. destruct (0 <? st)%Z eqn:E; [apply Z.ltb_lt in E; lia|reflexivity]. }
  rewrite E1, E2, E3, regex_empty. reflexivity.
Qed.

(** ** Groups of two fields *)

Lemma evaluated_two_fields text num f1 f2 d delim :
  extract_same_delim_group_from_reversed text num = (f1 ++ d ++ f2, d, 2) ->
  d = [delim] -> f1 <> [] ->
  ~ In delim f1 -> ~ In delim f2 ->
  evaluated text = Ok (f1 ++ d ++ lit "01" ++ d ++ f2)
  /\ is_two_group text = true.
Proof.
  intros H -> Hf1 H1 H2.
  assert (E : forall n, extract_same_delim_group_from_reversed text n
                        = (f1 ++ [delim] ++ f2, [delim], 2))
    by (intros n; rewrite <- H; destruct text; reflexivity).
  unfold evaluated, is_two_group. rewrite !E.
  unfold final_eval_of, is_two_group_of, splitcount.
  assert (T : truthy (f1 ++ [delim] ++ f2) = true)
    by (destruct f1; [contradiction|reflexivity]).
  rewrite T. cbn [truthy andb split app].
  rewrite (split_on_app delim f1 f2 H1), (split_on_no_delim delim f2 H2).
  split; reflexivity.
Qed.

(** ** Every date the pipeline produces is canonical *)

Lemma int_digits s :
  s <> [] -> forallb is_decimal s = true ->
  int s = Ok (fold_left (fun acc c => 10 * acc + digit_value c)%Z s 0%Z).
Proof.
  intros Hs Hd. destruct s; [contradiction|]. unfold int. rewrite Hd.
  reflexivity.
Qed.

(** Reading a string of the canonical shape. *)
Lemma read_ymd_shape y1 y2 y3 y4 m1 m2 d1 d2 :
  forallb is_decimal [y1; y2; y3; y4; m1; m2; d1; d2] = true ->
  exists y m d,
    int [y1; y2; y3; y4] = Ok y /\ int [m1; m2] = Ok m /\ int [d1; d2] = Ok d
    /\ read_ymd [y1; y2; y3; y4; "-"; m1; m2; "-"; d1; d2]%char
       = Some (y, m, d).
Proof.
  intros H. cbn [forallb] in H.
  repeat (apply andb_true_iff in H; let H' := fresh in destruct H as [H' H]).
  do 3 eexists.
  rewrite !int_digits by (try discriminate; cbn [forallb];
    repeat match goal with E : is_decimal _ = true |- _ => rewrite E; clear E end;
    reflexivity).
  repeat split.
  unfold read_ymd, fullmatch, RE_ISO. simpl.
  repeat match goal with E : is_decimal _ = true |- _ => rewrite E end.
  simpl.
  repeat match goal with E : is_decimal _ = true |- _ => rewrite E end.
  simpl. reflexivity.
Qed.

Lemma canonical_well_formed r : canonical r = true -> well_formed r = true.
Proof.
  unfold canonical, read_ymd, well_formed.
  destruct (fullmatch RE_ISO r); [reflexivity|discriminate].
Qed.

Lemma decimal_not_space c : is_decimal c = true -> char_isspace c = false.
Proof.
  unfold is_decimal, char_isspace. intros H.
  apply andb_true_iff in H. destruct H as [H1 H2].
  apply N.leb_le in H1, H2.
  repeat match goal with
         | |- context [(?a <=? ?b)%N] =>
             let E := fresh in destruct (a <=? b)%N eqn:E;
             [apply N.leb_le in E|apply N.leb_gt in E]
         | |- context [(?a =? ?b)%N] =>
             let E := fresh in destruct (a =? b)%N eqn:E;
             [apply N.eqb_eq in E|apply N.eqb_neq in E]
         end; simpl; try reflexivity; lia.
Qed.

(** A well-formed date has no blank to strip. *)
Lemma well_formed_strip r : well_formed r = true -> strip r = r.
Proof.
  intros H. destruct (well_formed_shape r H)
    as (y1 & y2 & y3 & y4 & m1 & m2 & d1 & d2 & -> & Hd).
  cbn [forallb] in Hd.
  repeat (apply andb_true_iff in Hd; let H' := fresh in destruct Hd as [H' Hd]).
  unfold strip. cbn [lstrip].
  rewrite (decimal_not_space y1) by assumption.
  cbn [rev app lstrip].
  rewrite (decimal_not_space d2) by assumption.
  reflexivity.
Qed.

Lemma canonical_month_precision m :
  canonical m = true -> canonical (month_precision m) = true.
Proof.
  intros H. pose proof (canonical_well_formed m H) as W.
  destruct (well_formed_shape m W)
    as (y1 & y2 & y3 & y4 & m1 & m2 & d1 & d2 & -> & Hd).
  destruct (read_ymd_shape y1 y2 y3 y4 m1 m2 d1 d2 Hd)
    as (y & mo & d & Iy & Im & Id & R).
  assert (Hd' : forallb is_decimal [y1; y2; y3; y4; m1; m2; "0"; "1"]%char
                = true).
  { cbn [forallb] in *.
    repeat (apply andb_true_iff in Hd;
            let H' := fresh in destruct Hd as [H' Hd]).
    repeat match goal with E : is_decimal _ = true |- _ => rewrite E; clear E end.
    reflexivity. }
  destruct (read_ymd_shape y1 y2 y3 y4 m1 m2 "0" "1" Hd')
    as (y' & mo' & d' & Iy' & Im' & Id' & R').
  unfold canonical in *. rewrite R in H.
  unfold month_precision. cbn [firstn app lit list_ascii_of_string].
  rewrite R'.
  assert (y' = y) by congruence. assert (mo' = mo) by congruence.
  assert (d' = 1%Z) by (vm_compute in Id'; congruence). subst.
  apply andb_true_iff in H. destruct H as [H _]. rewrite H. reflexivity.
Qed.

(** Every string kept by the resolver is canonical when its inputs are empty
    or canonical. *)
Lemma kept_canonical dates :
  Forall (fun v => exists x, v = PyStr x /\ (x = [] \/ canonical x = true))
         dates ->
  Forall (fun m => canonical m = true) (kept_dates dates).
Proof.
  unfold kept_dates. induction 1 as [|v dates (x & -> & Hx) _ IH]; simpl.
  - constructor.
  - destruct Hx as [->|Hx].
    + simpl. exact IH.
    + rewrite (well_formed_strip x (canonical_well_formed x Hx)).
      rewrite (canonical_well_formed x Hx). constructor; auto.
Qed.

Lemma consensus_date_canonical dates two_group r :
  Forall (fun v => exists x, v = PyStr x /\ (x = [] \/ canonical x = true))
         dates ->
  consensus_date dates two_group = Ok r ->
  r = [] \/ canonical r = true.
Proof.
  intros Hd Hr. apply kept_canonical in Hd.
  destruct (consensus_date_spec dates two_group) as (r' & Hr' & Hs).
  rewrite Hr in Hr'. inversion Hr'; subst r'. clear Hr'.
  destruct (kept_dates dates) as [|d ds] eqn:K; auto.
  destruct Hs as (m & Hm & ->). right.
  rewrite Forall_forall in Hd.
  pose proof (Hd m (stable_mode_in _ _ Hm)) as C.
  destruct two_group; auto. apply canonical_month_precision. exact C.
Qed.

Section Evaluators.

Variable L : Libraries.

Lemma first_standard_canonical ms r :
  first_standard L ms = Ok r -> r = [] \/ canonical r = true.
Proof.
  induction ms as [|m ms IH]; simpl.
  - intros H; inversion H; auto.
  - destruct (standardize_date L (isoformat m)) as [iso|] eqn:E;
      [|discriminate].
    simpl. destruct (truthy iso); auto.
    intros H; inversion H; subst.
    apply (standardize_date_canonical L _ _ E).
Qed.

Lemma datefinder_canonical text :
  extract_date_datefinder L text = []
  \/ canonical (extract_date_datefinder L text) = true.
Proof.
  unfold extract_date_datefinder.
  destruct (datefinder_find_dates L text) as [ms|]; simpl; auto.
  destruct (first_standard L ms) as [r|] eqn:E; simpl; auto.
  apply (first_standard_canonical _ _ E).
Qed.

Lemma dateparser_canonical text :
  extract_date_dateparser L text = []
  \/ canonical (extract_date_dateparser L text) = true.
Proof.
  unfold extract_date_dateparser.
  destruct (dateparser_parse L text) as [[dt|]|]; simpl; auto.
  destruct (standardize_date L (isoformat dt)) as [r|] eqn:E; simpl; auto.
  apply (standardize_date_canonical L _ _ E).
Qed.

Lemma parsedatetime_canonical text :
  extract_date_parsedatetime L text = []
  \/ canonical (extract_date_parsedatetime L text) = true.
Proof.
  unfold extract_date_parsedatetime.
  destruct (parsedatetime_parse L text) as [[[[[[[y m] d] hh] mi] ss] st]|];
    simpl; auto.
  destruct (0 <? st)%Z; simpl; auto.
  destruct (make_datetime y m d hh mi ss) as [dt|]; simpl; auto.
  destruct (standardize_date L (isoformat dt)) as [r|] eqn:E; simpl; auto.
  apply (standardize_date_canonical L _ _ E).
Qed.

Lemma regex_full_date_canonical y m d r :
  regex_full_date L y m d = Ok (Some r) -> r = [] \/ canonical r = true.
Proof.
  unfold regex_full_date. destruct (_ && _); [|discriminate].
  destruct (make_date y m d) as [dt|]; [|discriminate]. simpl.
  destruct (standardize_date L (isoformat dt)) as [r'|] eqn:E; [|discriminate].
  simpl. intros H; inversion H; subst.
  apply (standardize_date_canonical L _ _ E).
Qed.

Lemma regex_month_year_canonical gm gy r :
  regex_month_year gm gy = Ok (Some r) -> canonical r = true.
Proof.
  unfold regex_month_year.
  destruct (int gm) as [mm|]; [|discriminate].
  destruct (int gy) as [yy|]; [|discriminate]. simpl.
  destruct (in_range 1 mm 12 && plausible_year (expand_year yy)) eqn:E;
    [|discriminate].
  intros H; inversion H. apply andb_true_iff in E. destruct E.
  rewrite first_of_month_ymd. apply canonical_ymd; auto.
Qed.

Lemma regex_try_canonical gs r :
  regex_try L gs = Ok (Some r) -> r = [] \/ canonical r = true.
Proof.
  unfold regex_try.
  destruct gs as [|g0 [|g1 [|g2 [|]]]]; try discriminate.
  - destruct (int g0) as [yy|]; [|discriminate]. simpl.
    destruct (plausible_year yy) eqn:E; [|discriminate].
    intros H; inversion H. right. rewrite first_of_year_ymd.
    apply canonical_ymd; auto.
  - destruct (_ && _).
    + intros H. right. apply (regex_month_year_canonical _ _ _ H).
    + destruct (_ && _); [|discriminate].
      intros H. right. apply (regex_month_year_canonical _ _ _ H).
  - destruct (length g0 =? 4).
    { destruct (int g0); [|discriminate]. destruct (int g1); [|discriminate].
      destruct (int g2); [|discriminate]. apply regex_full_date_canonical. }
    destruct (length g2 =? 4).
    { destruct (int g2); [|discriminate]. destruct (int g0); [|discriminate].
      destruct (int g1); [|discriminate]. apply regex_full_date_canonical. }
    destruct (length g2 =? 2); [|discriminate].
    destruct (int g2); [|discriminate]. simpl.
    destruct (int g0); [|discriminate]. destruct (int g1); [|discriminate].
    apply regex_full_date_canonical.
Qed.

Lemma regex_canonical text :
  extract_date_regex_datetime L text = []
  \/ canonical (extract_date_regex_datetime L text) = true.
Proof.
  unfold extract_date_regex_datetime.
  destruct (first_some _ REGEX_PATTERNS) as [r|] eqn:E; auto.
  destruct (first_some_in _ _ _ _ _ E) as (pat & _ & E1).
  destruct (first_some_in _ _ _ _ _ E1) as (m & _ & E2).
  unfold regex_match in E2.
  destruct (regex_try L (snd m)) as [[r'|]|] eqn:E3; try discriminate.
  simpl in E2. inversion E2; subst. apply (regex_try_canonical _ _ E3).
Qed.

(** Every date of a row is empty or canonical. *)
Lemma process_row_canonical text rec :
  process_row L text = Ok rec ->
  Forall (fun r => r = [] \/ canonical r = true)
         [datefinder_date rec; dateparser_date rec; parsedatetime_date rec;
          regex_date rec; consensus rec].
Proof.
  unfold process_row.
  destruct (evaluated text) as [e|]; [|discriminate]. simpl.
  destruct (standardize_date L (extract_date_datefinder L e)) as [r1|] eqn:E1;
    [|discriminate].
  destruct (standardize_date L (extract_date_dateparser L e)) as [r2|] eqn:E2;
    [|discriminate].
  destruct (standardize_date L (extract_date_parsedatetime L e)) as [r3|] eqn:E3;
    [|discriminate].
  destruct (standardize_date L (extract_date_regex_datetime L e)) as [r4|] eqn:E4;
    [|discriminate].
  simpl.
  destruct (consensus_date _ _) as [c|] eqn:Ec; [|discriminate].
  simpl. intros H; inversion H; subst; simpl.
  pose proof (standardize_date_canonical L _ _ E1).
  pose proof (standardize_date_canonical L _ _ E2).
  pose proof (standardize_date_canonical L _ _ E3).
  pose proof (standardize_date_canonical L _ _ E4).
  do 4 (constructor; [assumption|]).
  constructor; [|constructor].
  eapply consensus_date_canonical; [|exact Ec].
  do 4 (constructor; [eexists; split; [reflexivity|assumption]|]).
  constructor.
Qed.

End Evaluators.

(** ** The rightmost group *)

Lemma scan_pattern_none delim rt np :
  scan_pattern delim rt np = None -> none_accepted delim np rt.
Proof.
  unfold scan_pattern. intros H m [Hin Hacc]. apply Hacc.
  apply (first_some_none_inv _ _ _ _ H m Hin).
Qed.

Lemma scan_delim_none rt delim :
  scan_delim rt delim = None ->
  forall np, In np (patterns delim) -> none_accepted delim np rt.
Proof.
  unfold scan_delim. intros H np Hnp. apply scan_pattern_none.
  apply (first_some_none_inv _ _ _ _ H np Hnp).
Qed.

Lemma finditer_span p s st en gs :
  In (st, en, gs) (finditer p s) -> st <= en /\ en <= length s.
Proof.
  intros H. destruct (finditer_sound _ _ _ _ _ H) as (ps & rest & _ & Hs & -> & Hlt & _).
  split; [lia|].
  apply (f_equal (@length _)) in Hs. rewrite length_skipn, length_app in Hs. lia.
Qed.

(** The group the locator returns: the first accepted match of the winning
    delimiter and pattern, which no other accepted match of that scan lies to
    the right of. *)
Lemma extract_rightmost text num g d n :
  extract_same_delim_group_from_reversed (PyStr text) num = (g, d, n) ->
  g <> [] ->
  exists delim np m,
    winning delim np (rev text)
    /\ d = [delim] /\ n = fst np
    /\ accepted delim np (rev text) m
    /\ g = slice text (fst (original_span text m)) (snd (original_span text m))
    /\ forall m', accepted delim np (rev text) m' ->
                  snd (original_span text m') <= snd (original_span text m).
Proof.
  unfold extract_same_delim_group_from_reversed.
  destruct (first_some (scan_delim (rev text)) DELIM_LIST) as [r|] eqn:E.
  2:{ intros H; inversion H; subst. intros Hg. exfalso. apply Hg. reflexivity. }
  intros -> Hg.
  destruct (first_some_split _ _ _ _ _ E) as (ds1 & delim & ds2 & Hds & E1 & N1).
  unfold scan_delim in E1.
  destruct (first_some_split _ _ _ _ _ E1) as (ps1 & np & ps2 & Hps & E2 & N2).
  unfold scan_pattern in E2.
  destruct (first_some_split _ _ _ _ _ E2) as (l1 & m & l2 & Hl & Hm & Hn).
  assert (Hin : In m (finditer (snd np) (rev text)))
    by (rewrite Hl; apply in_or_app; right; left; reflexivity).
  destruct (accept_match_inv _ _ _ _ _ _ _ Hm) as (Hg' & Hd & Hk).
  exists delim, np, m. repeat split; auto.
  - exists ds1, ds2, ps1, ps2. repeat split; auto.
    + intros d' np' Hd' Hnp'. apply (scan_delim_none _ _ (N1 d' Hd') np' Hnp').
    + intros np' Hnp'. apply scan_pattern_none. apply (N2 np' Hnp').
  - rewrite Hm. discriminate.
  - destruct m as [[st en] gs]. simpl in *.
    destruct (finditer_span _ _ _ _ _ Hin) as [H1 H2].
    rewrite length_rev in H2. rewrite Hg'. apply rev_slice_rev; auto.
  - intros m' [Hin' Hacc]. unfold original_span. simpl.
    rewrite Hl in Hin'. apply in_app_or in Hin'.
    destruct Hin' as [Hin'|[<-|Hin']].
    + exfalso. apply Hacc. apply Hn. exact Hin'.
    + lia.
    + pose proof (finditer_from_sorted (snd np) (rev text) 0 0) as S.
      fold (finditer (snd np) (rev text)) in S. rewrite Hl in S.
      pose proof (sorted_after _ _ _ _ _ S _ Hin'). simpl in H. lia.
Qed.

(** ** Groups of two fields, from the locator to the row *)

Lemma first_some_defined (A B : Type) (f : A -> option B) l x :
  In x l -> f x <> None -> first_some f l <> None.
Proof.
  intros Hx Hf H. apply Hf. apply (first_some_none_inv _ _ _ _ H x Hx).
Qed.

(** When some group qualifies and every qualifying group has two fields, the
    locator returns a group of two fields. *)
Lemma only_two_field_groups text num :
  (exists delim np m,
     In delim DELIM_LIST /\ In np (patterns delim)
     /\ accepted delim np (rev text) m) ->
  (forall delim np m,
     In delim DELIM_LIST -> In np (patterns delim) ->
     accepted delim np (rev text) m -> fst np = 2) ->
  exists g d,
    extract_same_delim_group_from_reversed (PyStr text) num = (g, d, 2).
Proof.
  intros (delim & np & m & Hd & Hp & Hin & Hacc) Honly.
  unfold extract_same_delim_group_from_reversed.
  destruct (first_some (scan_delim (rev text)) DELIM_LIST) as [[[g d] n]|] eqn:E.
  - exists g, d.
    destruct (first_some_in _ _ _ _ _ E) as (delim' & Hd' & E1).
    destruct (first_some_in _ _ _ _ _ E1) as (np' & Hp' & E2).
    destruct (first_some_in _ _ _ _ _ E2) as (m' & Hm' & E3).
    destruct (accept_match_inv _ _ _ _ _ _ _ E3) as (_ & _ & ->).
    rewrite (Honly delim' np' m' Hd' Hp'); [reflexivity|].
    split; [exact Hm'|]. rewrite E3. discriminate.
  - exfalso. revert E. apply (first_some_defined _ _ _ _ delim Hd).
    apply (first_some_defined _ _ _ _ np Hp).
    apply (first_some_defined _ _ _ _ m Hin). exact Hacc.
Qed.

(** When the group the locator finds has two fields f1 and f2 joined by the
    delimiter d, the evaluated element is f1 + d + "01" + d + f2, the row is
    processed, and its consensus, when not empty, has the day 01. *)
Lemma located_two_field_group :
  forall (L : Libraries) (text : value) (g d : str),
    extract_same_delim_group_from_reversed text 3 = (g, d, 2) ->
    exists f1 f2,
      g = f1 ++ d ++ f2
      /\ f1 <> [] /\ f2 <> []
      /\ forallb is_decimal f1 = true /\ forallb is_decimal f2 = true
      /\ evaluated text = Ok (f1 ++ d ++ lit "01" ++ d ++ f2)
      /\ exists rec,
           process_row L text = Ok rec
           /\ evaluated_element rec = f1 ++ d ++ lit "01" ++ d ++ f2
           /\ (consensus rec <> [] -> day_component (consensus rec) = lit "01").
Proof.
  intros L text g d H.
  destruct text as [text| | |]; try discriminate.
  destruct (two_field_shape _ _ _ _ H)
    as (f1 & f2 & delim & Hd & -> & -> & N1 & N2 & D1 & D2).
  pose proof (delim_not_decimal _ Hd) as Hnd.
  destruct (evaluated_two_fields _ _ _ _ _ delim H eq_refl N1
              (decimal_run_no_delim _ _ Hnd D1)
              (decimal_run_no_delim _ _ Hnd D2)) as [Ev Tw].
  exists f1, f2. repeat split; auto.
  destruct (process_row_total L (PyStr text)) as [rec Hrec].
  exists rec. split; [exact Hrec|].
  unfold process_row in Hrec. rewrite Ev, Tw in Hrec. simpl Py.bind in Hrec.
  destruct (standardize_date L (extract_date_datefinder L _)) as [r1|];
    [|discriminate].
  destruct (standardize_date L (extract_date_dateparser L _)) as [r2|];
    [|discriminate].
  destruct (standardize_date L (extract_date_parsedatetime L _)) as [r3|];
    [|discriminate].
  destruct (standardize_date L (extract_date_regex_datetime L _)) as [r4|];
    [|discriminate].
  simpl Py.bind in Hrec.
  destruct (consensus_date_spec [PyStr r1; PyStr r2; PyStr r3; PyStr r4] true)
    as (c & Hc & Hs).
  rewrite Hc in Hrec. simpl in Hrec. inversion Hrec; subst rec; simpl.
  split; [reflexivity|].
  intros Hne.
  destruct (kept_dates [PyStr r1; PyStr r2; PyStr r3; PyStr r4])
    as [|k ks] eqn:K; [contradiction|].
  destruct Hs as (m & Hm & ->).
  apply month_precision_split.
  apply (kept_well_formed [PyStr r1; PyStr r2; PyStr r3; PyStr r4]).
  rewrite K. apply (stable_mode_in _ _ Hm).
Qed.

(** ** Years, canonical strings and the fuzzy parse *)

Section YearLemmas.

Local Open Scope Z_scope.

Lemma canonical_fields r :
  canonical r = true ->
  well_formed r = true
  /\ exists y m d, read_ymd r = Some (y, m, d)
       /\ 1980 <= y <= 2039 /\ 1 <= m <= 12 /\ 1 <= d <= 31.
Proof.
  intros H. split; [apply canonical_well_formed; exact H|].
  unfold canonical in H.
  destruct (read_ymd r) as [[[y m] d]|]; [|discriminate].
  apply andb_true_iff in H. destruct H as [H H3].
  apply andb_true_iff in H. destruct H as [H1 H2].
  exists y, m, d. split; [reflexivity|].
  apply plausible_year_spec in H1. apply in_range_spec in H2, H3. auto.
Qed.

Lemma canonical_year_in_window r :
  r = [] \/ canonical r = true -> year_in_window r.
Proof.
  intros [->|H]; [left; reflexivity|right].
  destruct (canonical_fields r H) as (_ & y & m & d & R & Hy & _).
  exists y, m, d. auto.
Qed.

Lemma mdy_ok_plausible g1 g2 g3 :
  mdy_ok g1 g2 g3 = true ->
  exists yy, int (strip g3) = Ok yy
             /\ plausible_year (fst (expand_year_flag yy)) = true.
Proof.
  unfold mdy_ok.
  destruct (int (strip g1)); [|discriminate].
  destruct (int (strip g2)); [|discriminate].
  destruct (int (strip g3)) as [yy|]; [|discriminate].
  destruct (expand_year_flag yy) as [y' ok] eqn:E.
  destruct (in_range 1 a 12 && in_range 1 a0 31 && plausible_year y') eqn:C;
    [|discriminate].
  intros _. exists yy. split; [reflexivity|].
  apply andb_true_iff in C. destruct C as [_ C]. rewrite E. exact C.
Qed.

Lemma ymd_ok_plausible g1 g2 g3 :
  ymd_ok g1 g2 g3 = true ->
  exists yy, int (strip g1) = Ok yy
             /\ plausible_year (fst (expand_year_flag yy)) = true.
Proof.
  unfold ymd_ok.
  destruct (int (strip g1)) as [yy|]; [|discriminate].
  destruct (int (strip g2)); [|discriminate].
  destruct (int (strip g3)); [|discriminate].
  destruct (expand_year_flag yy) as [y' ok] eqn:E.
  intros C. exists yy. split; [reflexivity|].
  apply andb_true_iff in C. destruct C as [_ C]. rewrite E. exact C.
Qed.

Lemma month_year_ok_plausible gm gy :
  month_year_ok gm gy = true ->
  exists yy, int gy = Ok yy /\ plausible_year (expand_year yy) = true.
Proof.
  unfold month_year_ok.
  destruct (int gm); [|discriminate].
  destruct (int gy) as [yy|]; [|discriminate].
  intros C. exists yy. split; [reflexivity|].
  apply andb_true_iff in C. destruct C as [_ C]. exact C.
Qed.

Lemma expansion_loop y : first_plausible CENTURIES y = expansion y.
Proof.
  unfold first_plausible, CENTURIES, expansion.
  rewrite (Z.add_comm y 1900), (Z.add_comm y 2000). reflexivity.
Qed.

Lemma expansion_plausible y Y : expansion y = Some Y -> plausible_year Y = true.
Proof.
  unfold expansion.
  destruct (plausible_year (1900 + y)) eqn:E1;
    [intros H; inversion H; subst; exact E1|].
  destruct (plausible_year (2000 + y)) eqn:E2;
    [intros H; inversion H; subst; exact E2|discriminate].
Qed.

Lemma two_digit_not_plausible y : y <= 99 -> plausible_year y = false.
Proof.
  intros H. unfold plausible_year.
  destruct (1980 <=? y) eqn:E; [apply Z.leb_le in E; lia|reflexivity].
Qed.

Lemma expand_year_two_digit y :
  0 <= y <= 99 ->
  expand_year y = match expansion y with Some Y => Y | None => y end
  /\ expand_year_flag y
     = match expansion y with Some Y => (Y, true) | None => (y, false) end
  /\ plausible_year (expand_year y)
     = match expansion y with Some _ => true | None => false end.
Proof.
  intros H. unfold expand_year, expand_year_flag.
  assert (E : (y <? 100) = true) by (apply Z.ltb_lt; lia).
  rewrite E, expansion_loop.
  destruct (expansion y) as [Y|] eqn:X; repeat split; auto.
  - apply (expansion_plausible y Y X).
  - apply two_digit_not_plausible. lia.
Qed.

Lemma isoformat_fuzzy dt :
  plausible_year (year dt) = true ->
  read_ymd (isoformat dt) = Some (year dt, month dt, day dt)
  /\ falls_through (isoformat dt) = true.
Proof.
  intros H. destruct (valid_ymd_ranges _ _ _ (date_valid dt)).
  apply ymd_table_at; auto.
Qed.

(** What the standardizer makes of a string that is not a calendar date,
    whatever dateutil answers. *)
Lemma not_a_calendar_date L y m d :
  plausible_year y = true -> in_range 1 m 12 = true -> in_range 1 d 31 = true ->
  valid_ymd y m d = false ->
  standardize_date L (ymd_string y m d) <> Ok (ymd_string y m d).
Proof.
  intros Hy Hm Hd Hv H.
  destruct (ymd_table_at y m d Hy Hm Hd) as [R F].
  rewrite (standardize_date_fuzzy L _ F) in H.
  assert (N : ymd_string y m d <> []).
  { intros E. rewrite E in R. discriminate. }
  destruct (dateutil_parse L (ymd_string y m d)) as [dt|];
    [|inversion H; congruence].
  destruct (plausible_year (year dt)) eqn:P; [|inversion H; congruence].
  inversion H as [E].
  destruct (isoformat_fuzzy dt P) as [R' _].
  rewrite E, R in R'. inversion R'; subst.
  rewrite (date_valid dt) in Hv. discriminate.
Qed.

End YearLemmas.

(** * Further properties of the code *)

(** ** Matches do not overlap *)

Lemma finditer_from_apart p : forall s pos skip,
  StronglySorted (fun a b => snd (fst a) <= fst (fst b))
                 (finditer_from p s pos skip).
Proof.
  induction s as [|c s IH]; intros pos skip; simpl; [constructor|].
  destruct skip as [|k]; [|apply IH].
  destruct (match_here p (c :: s)) as [pieces|]; [|apply IH].
  constructor; [apply IH|].
  apply Forall_forall. intros [[st en] gs] H.
  apply finditer_from_sound in H. destruct H as (ps & H1 & _). simpl. lia.
Qed.

Lemma sorted_pair (A : Type) (R : A -> A -> Prop) l x y :
  StronglySorted R l -> In x l -> In y l -> x = y \/ R x y \/ R y x.
Proof.
  induction 1 as [|a l S IH F]; [intros []|].
  rewrite Forall_forall in F.
  intros [<-|Hx] [<-|Hy]; auto.
Qed.

Lemma finditer_disjoint p s m m' :
  In m (finditer p s) -> In m' (finditer p s) ->
  m = m' \/ disjoint_spans (fst m) (fst m').
Proof.
  intros H H'.
  destruct (sorted_pair _ _ _ m m' (finditer_from_apart p s 0 0) H H')
    as [E|[R|R]]; auto; right; [left|right]; exact R.
Qed.

(** X1: the scan of one pattern enumerates matches that never overlap, and
    the locator looks at nothing else.  So the group it returns shares no
    character with any other match of the winning pattern: once a match is
    rejected, a group that overlaps it is never considered. *)
Theorem returned_group_overlaps_no_match :
  forall (text : str) (num : nat) (g d : str) (n : nat),
    extract_same_delim_group_from_reversed (PyStr text) num = (g, d, n) ->
    g <> [] ->
    exists delim np m,
      winning delim np (rev text)
      /\ accepted delim np (rev text) m
      /\ g = slice text (fst (original_span text m))
                   (snd (original_span text m))
      /\ forall m',
           In m' (finditer (snd np) (rev text)) ->
           m' = m
           \/ disjoint_spans (original_span text m) (original_span text m').
Proof.
  intros text num g d n E Hg.
  destruct (extract_rightmost text num g d n E Hg)
    as (delim & np & m & W & _ & _ & A & S & _).
  exists delim, np, m. repeat split; auto; try apply A.
  intros m' H'. destruct A as [H _].
  destruct (finditer_disjoint _ _ m m' H H') as [->|D]; [left; reflexivity|].
  right. destruct m as [[st en] gs]. destruct m' as [[st' en'] gs'].
  destruct (finditer_span _ _ _ _ _ H) as [H1 H2].
  destruct (finditer_span _ _ _ _ _ H') as [H1' H2'].
  rewrite length_rev in *.
  unfold disjoint_spans, original_span in *. simpl in *. lia.
Qed.

Lemma returned_group_overlaps_no_match_witness :
  exists delim np m,
    winning delim np (rev (lit "2021-03-15-77"))
    /\ accepted delim np (rev (lit "2021-03-15-77")) m
    /\ lit "2021-03"
       = slice (lit "2021-03-15-77")
               (fst (original_span (lit "2021-03-15-77") m))
               (snd (original_span (lit "2021-03-15-77") m))
    /\ forall m',
         In m' (finditer (snd np) (rev (lit "2021-03-15-77"))) ->
         m' = m
         \/ disjoint_spans (original_span (lit "2021-03-15-77") m)
                           (original_span (lit "2021-03-15-77") m').
Proof.
  apply (returned_group_overlaps_no_match
           (lit "2021-03-15-77") 3 (lit "2021-03") (lit "-") 2).
  - vm_compute. reflexivity.
  - discriminate.
Defined.

(** ** The group the locator returns *)

Lemma split_on_join d fields :
  fields <> [] -> Forall (fun f => ~ In d f) fields ->
  split_on d (join d fields) = fields.
Proof.
  induction fields as [|f fields IH]; [contradiction|].
  intros _ H. inversion H as [|? ? Hf Hr]; subst.
  destruct fields as [|f' fields].
  - simpl. apply split_on_no_delim. exact Hf.
  - change (join d (f :: f' :: fields)) with (f ++ d :: join d (f' :: fields)).
    rewrite (split_on_app d f _ Hf). f_equal. apply IH; [discriminate|exact Hr].
Qed.

Lemma digit_field_rev f lo hi :
  conforms (Digits lo hi) f -> 1 <= lo -> hi <= 4 -> digit_field (rev f).
Proof.
  intros [Hl Hd] H1 H4. split.
  - rewrite forallb_forall in *. intros x Hx. apply Hd. apply in_rev. exact Hx.
  - rewrite length_rev. lia.
Qed.

Lemma digit_field_no_delim delim f :
  In delim DELIM_LIST -> digit_field f -> ~ In delim f.
Proof.
  intros Hd [Hf _]. apply decimal_run_no_delim; auto.
  apply delim_not_decimal. exact Hd.
Qed.

Lemma rev_five (p1 p2 p3 : str) d :
  rev (concat [p1; [d]; p2; [d]; p3]) = join d [rev p3; rev p2; rev p1].
Proof.
  simpl. rewrite app_nil_r.
  rewrite rev_app_distr. simpl. rewrite rev_app_distr. simpl.
  rewrite <- !app_assoc. reflexivity.
Qed.

(** The match behind a returned group. *)
Lemma extract_origin text num g d n :
  extract_same_delim_group_from_reversed (PyStr text) num = (g, d, n) ->
  (g, d, n) <> ([], [], 0) ->
  exists delim np st en gs pieces rest,
    In delim DELIM_LIST /\ In np (patterns delim)
    /\ In (st, en, gs) (finditer (snd np) (rev text))
    /\ accept_match delim (fst np) (rev text) (st, en, gs) = Some (g, d, n)
    /\ Forall2 conforms (snd np) pieces
    /\ skipn st (rev text) = concat pieces ++ rest
    /\ en = st + length (concat pieces)
    /\ g = rev (concat pieces) /\ d = [delim] /\ n = fst np.
Proof.
  unfold extract_same_delim_group_from_reversed.
  destruct (first_some (scan_delim (rev text)) DELIM_LIST) as [r|] eqn:E.
  2:{ intros H Hn. exfalso. apply Hn. symmetry. exact H. }
  intros -> _.
  destruct (first_some_in _ _ _ _ _ E) as (delim & Hd & E1).
  destruct (first_some_in _ _ _ _ _ E1) as (np & Hp & E2).
  destruct (first_some_in _ _ _ _ _ E2) as ([[st en] gs] & Hm & E3).
  destruct (accept_match_inv _ _ _ _ _ _ _ E3) as (Hg & Hd' & Hk).
  destruct (finditer_sound _ _ _ _ _ Hm) as (ps & rest & F & Hs & He & _ & _).
  exists delim, np, st, en, gs, ps, rest. repeat split; auto.
  simpl in Hg. rewrite He, (slice_of_skipn _ _ _ _ Hs) in Hg. exact Hg.
Qed.

(** The locator answers all or nothing, and a group is two or three digit
    fields joined by one delimiter of DELIM_LIST. *)
Lemma extract_shape text num :
  extract_same_delim_group_from_reversed text num = ([], [], 0)
  \/ exists delim fields,
       In delim DELIM_LIST
       /\ (length fields = 2 \/ length fields = 3)
       /\ Forall digit_field fields
       /\ extract_same_delim_group_from_reversed text num
          = (join delim fields, [delim], length fields).
Proof.
  destruct text as [text| | |]; try (left; reflexivity).
  destruct (extract_same_delim_group_from_reversed (PyStr text) num)
    as [[g d] n] eqn:E.
  destruct (list_eq_dec ascii_dec g []) as [Hg|Hg];
    [destruct (list_eq_dec ascii_dec d []) as [Hd|Hd];
     [destruct (Nat.eq_dec n 0) as [Hn|Hn]|]|].
  { subst. left. reflexivity. }
  all: right;
    destruct (extract_origin text num g d n E) as
      (delim & np & st & en & gs & ps & rest & Hdl & Hp & _ & _ & F & _ & _
       & -> & -> & ->); [intros X; inversion X; congruence|].
  all: simpl in Hp; destruct Hp as [<-|[<-|[<-|[<-|[]]]]]; simpl in F;
    invert_conforms;
    repeat match goal with
           | C : conforms (Lit _) _ |- _ => simpl in C; subst
           end.
  all: match goal with
       | |- context [concat [?p1; [_]; ?p2; [_]; ?p3]] =>
           exists delim, [rev p3; rev p2; rev p1]; rewrite rev_five
       | |- context [concat [?p1; [_]; ?p3]] =>
           exists delim, [rev p3; rev p1]; rewrite rev_three
       end.
  all: split; [exact Hdl|];
    split; [simpl; auto|];
    split; [|reflexivity];
    repeat (apply Forall_cons; [eapply digit_field_rev; eauto; lia|]);
    apply Forall_nil.
Qed.

(** Every test an accepted match has passed. *)
Lemma accept_match_facts delim n rt st en gs r :
  accept_match delim n rt (st, en, gs) = Some r ->
  let orig := rev (slice rt st en) in
  let fields := filter truthy (split orig [delim]) in
  (st = 0 \/ isdigit (char_at rt (st - 1)) = false)
  /\ (en = length rt \/ isdigit (char_at rt en) = false)
  /\ length fields = n
  /\ contains " " orig = false
  /\ (n = 3 -> fields3_ok fields = true)
  /\ (n = 2 -> fields2_ok fields = true).
Proof.
  unfold accept_match. cbv zeta.
  destruct ((st =? 0) || _) eqn:B1; [|discriminate].
  destruct ((en =? length rt) || _) eqn:B2; [|discriminate].
  cbn [andb].
  destruct (length _ =? n) eqn:Hl; [|discriminate].
  destruct (contains " " _) eqn:Hc; [discriminate|].
  cbn [andb negb].
  destruct (if n =? 3 then _ else _) eqn:Hok; [|discriminate].
  intros _. apply Nat.eqb_eq in Hl.
  repeat split; auto.
  - apply orb_true_iff in B1. destruct B1 as [B1|B1].
    + left. apply Nat.eqb_eq. exact B1.
    + destruct (0 <? st) eqn:P.
      * right. apply negb_true_iff in B1. exact B1.
      * left. apply Nat.ltb_ge in P. lia.
  - apply orb_true_iff in B2. destruct B2 as [B2|B2].
    + left. apply Nat.eqb_eq. exact B2.
    + right. destruct (en <? length rt) eqn:P.
      * apply negb_true_iff in B2. exact B2.
      * unfold char_at. apply Nat.ltb_ge in P.
        rewrite (proj2 (nth_error_None rt en) P). reflexivity.
  - intros ->. exact Hok.
  - intros ->. exact Hok.
Qed.

Lemma char_at_rev (t : str) i :
  i < length t -> char_at (rev t) i = char_at t (length t - S i).
Proof.
  intros H. unfold char_at. rewrite nth_error_rev.
  apply Nat.ltb_lt in H. rewrite H. reflexivity.
Qed.

(** A located group never touches a digit: the characters of the text just
    before and just after it are not digits. *)
Lemma extract_border text num g d n :
  extract_same_delim_group_from_reversed (PyStr text) num = (g, d, n) ->
  g <> [] ->
  exists a b,
    a <= b /\ b <= length text
    /\ g = slice text a b
    /\ (a = 0 \/ digit_at text (a - 1) = false)
    /\ (b = length text \/ digit_at text b = false).
Proof.
  intros E Hg.
  destruct (extract_origin text num g d n E) as
    (delim & np & st & en & gs & ps & rest & Hdl & Hp & Hm & Ha & F & Hs & He
     & Hg' & _ & _); [intros X; inversion X; contradiction|].
  destruct (finditer_span _ _ _ _ _ Hm) as [H1 H2]. rewrite length_rev in H2.
  destruct (accept_match_inv _ _ _ _ _ _ _ Ha) as (Hr & _ & _). simpl in Hr.
  destruct (accept_match_facts _ _ _ _ _ _ _ Ha) as (B1 & B2 & _).
  rewrite length_rev in B2.
  exists (length text - en), (length text - st).
  split; [lia|]. split; [lia|].
  split; [rewrite Hr; apply rev_slice_rev; lia|].
  assert (Hne : st < en).
  { destruct (Nat.eq_dec st en) as [->|]; [|lia].
    exfalso. apply Hg. rewrite Hr. unfold slice. rewrite Nat.sub_diag.
    reflexivity. }
  unfold digit_at. split.
  - destruct B2 as [->|B2]; [left; lia|].
    destruct (Nat.eq_dec en (length text)) as [->|Hen]; [left; lia|right].
    rewrite char_at_rev in B2 by lia.
    replace (length text - en - 1) with (length text - S en) by lia. exact B2.
  - destruct B1 as [->|B1]; [left; lia|].
    destruct (Nat.eq_dec st 0) as [->|Hst]; [left; lia|right].
    rewrite char_at_rev in B1 by lia.
    replace (length text - S (st - 1)) with (length text - st) in B1 by lia.
    exact B1.
Qed.

(** ** Field order of a located group *)

Lemma lstrip_id c (s : str) : char_isspace c = false -> lstrip (c :: s) = c :: s.
Proof. intros H. simpl. rewrite H. reflexivity. Qed.

Lemma strip_decimal f : forallb is_decimal f = true -> strip f = f.
Proof.
  intros H. unfold strip.
  assert (L1 : forall s : str, forallb is_decimal s = true -> lstrip s = s).
  { intros [|c s] Hs; [reflexivity|]. simpl in Hs.
    apply andb_true_iff in Hs. destruct Hs as [Hc _].
    apply lstrip_id. apply decimal_not_space. exact Hc. }
  rewrite (L1 f H). rewrite L1; [apply rev_involutive|].
  rewrite forallb_forall in *. intros x Hx. apply H. apply in_rev. exact Hx.
Qed.

Lemma digit_field_int f :
  digit_field f -> strip f = f /\ exists z, int f = Ok z.
Proof.
  intros [Hd Hl]. split; [apply strip_decimal; exact Hd|].
  apply int_total; auto. intros ->. simpl in Hl. lia.
Qed.

Lemma expand_year_flag_fst yy : fst (expand_year_flag yy) = expand_year yy.
Proof.
  unfold expand_year_flag, expand_year.
  destruct (yy <? 100)%Z; [|reflexivity].
  destruct (first_plausible CENTURIES yy); reflexivity.
Qed.

Lemma digit_field_truthy f : digit_field f -> truthy f = true.
Proof. intros [_ H]. destruct f; [simpl in H; lia|reflexivity]. Qed.

Lemma filter_truthy_fields fields :
  Forall digit_field fields -> filter truthy fields = fields.
Proof.
  induction 1 as [|f fields Hf _ IH]; simpl; auto.
  rewrite (digit_field_truthy f Hf), IH. reflexivity.
Qed.

(** The fields of a located group and the tests they passed. *)
Lemma extract_fields text num g d n :
  extract_same_delim_group_from_reversed (PyStr text) num = (g, d, n) ->
  g <> [] ->
  exists delim fields,
    In delim DELIM_LIST /\ d = [delim] /\ g = join delim fields
    /\ n = length fields /\ (n = 2 \/ n = 3)
    /\ Forall digit_field fields
    /\ split g d = fields
    /\ (n = 3 -> fields3_ok fields = true)
    /\ (n = 2 -> fields2_ok fields = true).
Proof.
  intros E Hg.
  destruct (extract_shape (PyStr text) num) as [Z|(delim & fields & Hd & Hl & F & S)].
  { rewrite E in Z. inversion Z. contradiction. }
  rewrite E in S. inversion S; subst g d n. clear S.
  assert (Hsplit : split (join delim fields) [delim] = fields).
  { cbn [split]. apply split_on_join.
    - intros ->. destruct Hl; discriminate.
    - eapply Forall_impl; [|exact F].
      intros f Hf. apply digit_field_no_delim; auto. }
  destruct (extract_origin text num _ _ _ E) as
    (delim' & np & st & en & gs & ps & rest & _ & _ & _ & Ha & _ & _ & _
     & _ & Hd' & _); [intros X; inversion X; contradiction|].
  inversion Hd'; subst delim'.
  destruct (accept_match_inv _ _ _ _ _ _ _ Ha) as (Hr & _ & Hn). simpl in Hr.
  destruct (accept_match_facts _ _ _ _ _ _ _ Ha) as (_ & _ & _ & _ & K3 & K2).
  cbv zeta in K3, K2. rewrite <- Hr, Hsplit, (filter_truthy_fields _ F) in K3, K2.
  exists delim, fields. repeat split; auto.
  - intros H3. apply K3. congruence.
  - intros H2. apply K2. congruence.
Qed.

Lemma mdy_ok_reading a b c :
  digit_field a -> digit_field b -> digit_field c ->
  fields3_ok [a; b; c] = true ->
  exists A B C, int a = Ok A /\ int b = Ok B /\ int c = Ok C
                /\ (mdy_reading A B C \/ ymd_reading A B C).
Proof.
  intros Ha Hb Hc.
  destruct (digit_field_int a Ha) as [Sa [A Ia]].
  destruct (digit_field_int b Hb) as [Sb [B Ib]].
  destruct (digit_field_int c Hc) as [Sc [C Ic]].
  unfold fields3_ok, mdy_ok, ymd_ok. rewrite Sa, Sb, Sc, Ia, Ib, Ic.
  intros H. exists A, B, C. repeat split; auto.
  destruct (expand_year_flag C) as [y ok] eqn:EC.
  destruct (negb (in_range 1 A 12 && in_range 1 B 31 && plausible_year y)) eqn:N.
  - right. destruct (expand_year_flag A) as [y' ok'] eqn:EA.
    apply andb_true_iff in H. destruct H as [H H3].
    apply andb_true_iff in H. destruct H as [H1 H2].
    apply in_range_spec in H1, H2.
    pose proof (expand_year_flag_fst A) as X. rewrite EA in X. simpl in X.
    unfold ymd_reading. rewrite <- X. auto.
  - left. apply negb_false_iff in N.
    apply andb_true_iff in N. destruct N as [N N3].
    apply andb_true_iff in N. destruct N as [N1 N2].
    apply in_range_spec in N1, N2.
    pose proof (expand_year_flag_fst C) as X. rewrite EC in X. simpl in X.
    unfold mdy_reading. rewrite <- X. auto.
Qed.

Lemma month_year_ok_reading gm gy :
  month_year_ok gm gy = true ->
  exists M Y, int gm = Ok M /\ int gy = Ok Y /\ month_year_reading M Y.
Proof.
  unfold month_year_ok.
  destruct (int gm) as [M|]; [|discriminate].
  destruct (int gy) as [Y|]; [|discriminate].
  intros H. apply andb_true_iff in H. destruct H as [H1 H2].
  apply in_range_spec in H1. exists M, Y.
  split; [reflexivity|]. split; [reflexivity|]. split; assumption.
Qed.

Lemma is_year_field_length g :
  is_year_field g = true -> length g = 2 \/ length g = 4.
Proof.
  unfold is_year_field. intros H. apply andb_true_iff in H. destruct H as [H _].
  apply orb_true_iff in H. destruct H as [H|H]; apply Nat.eqb_eq in H; auto.
Qed.

Lemma fields2_ok_reading a b :
  digit_field a -> digit_field b ->
  fields2_ok [a; b] = true ->
  exists A B, int a = Ok A /\ int b = Ok B
    /\ ((month_year_reading A B /\ (length b = 2 \/ length b = 4))
        \/ (month_year_reading B A /\ (length a = 2 \/ length a = 4))).
Proof.
  intros Ha Hb.
  destruct (digit_field_int a Ha) as [Sa _].
  destruct (digit_field_int b Hb) as [Sb _].
  unfold fields2_ok. cbn [map]. rewrite Sa, Sb.
  destruct (is_month_field a && is_year_field b) eqn:E1.
  - intros H. destruct (month_year_ok_reading _ _ H) as (M & Y & I1 & I2 & R).
    exists M, Y. repeat split; auto. left. split; auto.
    apply andb_true_iff in E1. apply is_year_field_length. apply E1.
  - destruct (is_year_field a && is_month_field b) eqn:E2; [|discriminate].
    intros H. destruct (month_year_ok_reading _ _ H) as (M & Y & I1 & I2 & R).
    exists Y, M. repeat split; auto. right. split; auto.
    apply andb_true_iff in E2. apply is_year_field_length. apply E2.
Qed.

Lemma join_chars delim fields c :
  Forall digit_field fields -> In c (join delim fields) ->
  is_decimal c = true \/ c = delim.
Proof.
  induction fields as [|f fields IH]; [intros _ []|].
  intros F Hc. inversion F as [|? ? [Hf _] Hr]; subst.
  rewrite forallb_forall in Hf.
  destruct fields as [|f' fields].
  - left. apply Hf. exact Hc.
  - change (join delim (f :: f' :: fields))
      with (f ++ delim :: join delim (f' :: fields)) in Hc.
    apply in_app_or in Hc. destruct Hc as [Hc|[Hc|Hc]]; auto.
Qed.

Lemma extract_num_irrelevant text n m :
  extract_same_delim_group_from_reversed text n
  = extract_same_delim_group_from_reversed text m.
Proof. destruct text; reflexivity. Qed.

Lemma extract_shape_full (text : value) (num : nat) :
    extract_same_delim_group_from_reversed text num = ([], [], 0)
    \/ exists delim fields,
         In delim DELIM_LIST
         /\ (length fields = 2 \/ length fields = 3)
         /\ Forall digit_field fields
         /\ extract_same_delim_group_from_reversed text num
            = (join delim fields, [delim], length fields)
         /\ split (join delim fields) [delim] = fields
         /\ Forall (fun c => is_decimal c = true \/ c = delim)
                   (join delim fields).
Proof.
  destruct (extract_shape text num) as [Z|(delim & fields & Hd & Hl & F & S)];
    [left; exact Z|right].
  exists delim, fields. repeat split; auto.
  - cbn [split]. apply split_on_join.
    + intros ->. destruct Hl; discriminate.
    + eapply Forall_impl; [|exact F].
      intros f Hf. apply digit_field_no_delim; auto.
  - apply Forall_forall. intros c Hc. apply (join_chars delim fields c F Hc).
Qed.

(** X2: the locator answers all or nothing.  It returns ('', '', 0), or a
    group of two or three fields of one to four decimal digits joined by one
    delimiter of DELIM_LIST, with that delimiter and the number of fields; the
    group holds nothing but decimal digits and that delimiter (no blank, no
    second delimiter), and splitting it at the delimiter gives the fields. *)
Theorem located_group_shape :
  forall (text : value) (num : nat),
    extract_same_delim_group_from_reversed text num = ([], [], 0)
    \/ exists delim fields,
         In delim DELIM_LIST
         /\ (length fields = 2 \/ length fields = 3)
         /\ Forall digit_field fields
         /\ extract_same_delim_group_from_reversed text num
            = (join delim fields, [delim], length fields)
         /\ split (join delim fields) [delim] = fields
         /\ Forall (fun c => is_decimal c = true \/ c = delim)
                   (join delim fields).
Proof. exact extract_shape_full. Qed.

(** X3: a located group is cut from the text at a place where it touches no
    digit: it is text[a:b], and neither text[a-1] nor text[b], where they
    exist, is a digit. *)
Theorem located_group_touches_no_digit :
  forall (text : str) (num : nat) (g d : str) (n : nat),
    extract_same_delim_group_from_reversed (PyStr text) num = (g, d, n) ->
    g <> [] ->
    exists a b,
      a <= b /\ b <= length text
      /\ g = slice text a b
      /\ (a = 0 \/ digit_at text (a - 1) = false)
      /\ (b = length text \/ digit_at text b = false).
Proof. exact extract_border. Qed.

Lemma located_group_touches_no_digit_witness :
  exists a b,
    a <= b /\ b <= length (lit "inv20120108_03-15-21.pdf")
    /\ lit "03-15-21" = slice (lit "inv20120108_03-15-21.pdf") a b
    /\ (a = 0 \/ digit_at (lit "inv20120108_03-15-21.pdf") (a - 1) = false)
    /\ (b = length (lit "inv20120108_03-15-21.pdf")
        \/ digit_at (lit "inv20120108_03-15-21.pdf") b = false).
Proof.
  apply (located_group_touches_no_digit
           (lit "inv20120108_03-15-21.pdf") 3 (lit "03-15-21") (lit "-") 3).
  - vm_compute. reflexivity.
  - discriminate.
Defined.

(** X4: the fields of a located group read as a date.  Three fields are
    month, day, year or year, month, day, with month in 1..12, day in 1..31
    and a plausible year after century expansion; two fields are month, year
    or year, month, the year field having two or four digits. *)
Theorem located_group_reads_as_date :
  forall (text : str) (num : nat) (g d : str) (n : nat),
    extract_same_delim_group_from_reversed (PyStr text) num = (g, d, n) ->
    g <> [] ->
    match split g d with
    | [a; b; c] =>
        n = 3
        /\ exists A B C,
             int a = Ok A /\ int b = Ok B /\ int c = Ok C
             /\ (mdy_reading A B C \/ ymd_reading A B C)
    | [a; b] =>
        n = 2
        /\ exists A B,
             int a = Ok A /\ int b = Ok B
             /\ ((month_year_reading A B /\ (length b = 2 \/ length b = 4))
                 \/ (month_year_reading B A /\ (length a = 2 \/ length a = 4)))
    | _ => False
    end.
Proof.
  intros text num g d n E Hg.
  destruct (extract_fields text num g d n E Hg)
    as (delim & fields & _ & _ & _ & Hn & Hl & F & -> & K3 & K2).
  destruct fields as [|a [|b [|c [|]]]]; simpl in Hn; try (destruct Hl; lia).
  - split; [exact Hn|]. inversion F as [|? ? Fa F']; subst.
    inversion F' as [|? ? Fb _]; subst.
    apply fields2_ok_reading; auto.
  - split; [exact Hn|]. inversion F as [|? ? Fa F']; subst.
    inversion F' as [|? ? Fb F'']; subst. inversion F'' as [|? ? Fc _]; subst.
    apply mdy_ok_reading; auto.
Qed.

Lemma located_group_reads_as_date_witness :
  match split (lit "03-15-21") (lit "-") with
  | [a; b; c] =>
      3 = 3
      /\ exists A B C,
           int a = Ok A /\ int b = Ok B /\ int c = Ok C
           /\ (mdy_reading A B C \/ ymd_reading A B C)
  | [a; b] =>
      3 = 2
      /\ exists A B,
           int a = Ok A /\ int b = Ok B
           /\ ((month_year_reading A B /\ (length b = 2 \/ length b = 4))
               \/ (month_year_reading B A /\ (length a = 2 \/ length a = 4)))
  | _ => False
  end.
Proof.
  apply (located_group_reads_as_date
           (lit "2020-01-01_report_03-15-21.pdf") 3
           (lit "03-15-21") (lit "-") 3).
  - vm_compute. reflexivity.
  - discriminate.
Defined.

(** X5: extract_rightmost_pattern hands back the group of the locator as it
    is, labelled 3 when there is one and 0 when there is none: since the
    locator ignores num_groups, the branch that would insert "01" and answer 2
    is never taken. *)
Theorem rightmost_pattern_never_expands :
  forall (text : value),
    exists g d n,
      extract_same_delim_group_from_reversed text 3 = (g, d, n)
      /\ extract_rightmost_pattern text = (g, if truthy g then 3 else 0)
      /\ snd (extract_rightmost_pattern text) <> 2.
Proof.
  intros text.
  destruct (extract_same_delim_group_from_reversed text 3) as [[g d] n] eqn:E.
  exists g, d, n. split; [reflexivity|].
  assert (R : extract_rightmost_pattern text = (g, if truthy g then 3 else 0)).
  { unfold extract_rightmost_pattern.
    rewrite (extract_num_irrelevant text 2 3), E.
    destruct g as [|c g]; reflexivity. }
  split; [exact R|]. rewrite R. destruct (truthy g); discriminate.
Qed.

(** X6: the evaluated element of a row is empty exactly when the locator
    finds no group; it is the group itself when the group has three fields,
    and the two fields with "01" between them otherwise.  So it is always
    empty or three digit fields joined by one delimiter, and the two-group
    flag is set exactly for a group of two fields. *)
Theorem evaluated_element_shape :
  forall (text : value),
    (extract_same_delim_group_from_reversed text 3 = ([], [], 0)
     /\ evaluated text = Ok [] /\ is_two_group text = false)
    \/ exists delim fields,
         In delim DELIM_LIST /\ Forall digit_field fields
         /\ extract_same_delim_group_from_reversed text 3
            = (join delim fields, [delim], length fields)
         /\ ((length fields = 3
              /\ evaluated text = Ok (join delim fields)
              /\ is_two_group text = false)
             \/ (exists f1 f2,
                   fields = [f1; f2]
                   /\ evaluated text = Ok (join delim [f1; lit "01"; f2])
                   /\ is_two_group text = true)).
Proof.
  intros text.
  destruct (extract_shape_full text 3)
    as [Z|(delim & fields & Hd & Hl & F & E & S & _)].
  - left. split; [exact Z|].
    unfold evaluated, is_two_group.
    rewrite (extract_num_irrelevant text 2 3), Z. split; reflexivity.
  - right. exists delim, fields. split; [exact Hd|]. split; [exact F|].
    split; [exact E|].
    assert (T : truthy (join delim fields) = true).
    { destruct fields as [|f fields]; [destruct Hl; discriminate|].
      inversion F as [|? ? Hf _]; subst.
      pose proof (digit_field_truthy f Hf) as Tf.
      destruct f as [|c f]; [discriminate|].
      destruct fields; reflexivity. }
    unfold evaluated, is_two_group.
    rewrite (extract_num_irrelevant text 2 3), E.
    unfold final_eval_of, is_two_group_of, splitcount.
    rewrite T, S. cbn [truthy andb].
    destruct Hl as [Hl|Hl]; rewrite Hl.
    + right. destruct fields as [|f1 [|f2 [|]]]; try discriminate.
      exists f1, f2. repeat split; reflexivity.
    + left. repeat split; reflexivity.
Qed.

(** ** Stripping *)

Lemma lstrip_split s :
  exists w, s = w ++ lstrip s /\ forallb char_isspace w = true.
Proof.
  induction s as [|c s (w & IH & Hw)]; [exists []; auto|].
  simpl. destruct (char_isspace c) eqn:E.
  - exists (c :: w). simpl. rewrite E, Hw. split; [f_equal; exact IH|reflexivity].
  - exists []. auto.
Qed.

Lemma lstrip_head s c s' : lstrip s = c :: s' -> char_isspace c = false.
Proof.
  induction s as [|x s IH]; simpl; [discriminate|].
  destruct (char_isspace x) eqn:E; auto.
  intros H; inversion H; subst. exact E.
Qed.

Lemma lstrip_fixed s :
  match s with [] => True | c :: _ => char_isspace c = false end ->
  lstrip s = s.
Proof. destruct s as [|c s]; simpl; auto. intros ->. reflexivity. Qed.

(** The string is its stripped part between two runs of blanks. *)
Lemma strip_split s :
  exists w1 w2, s = w1 ++ strip s ++ w2
                /\ forallb char_isspace w1 = true
                /\ forallb char_isspace w2 = true.
Proof.
  unfold strip.
  destruct (lstrip_split s) as (w1 & H1 & Hw1).
  destruct (lstrip_split (rev (lstrip s))) as (w2 & H2 & Hw2).
  exists w1, (rev w2). repeat split; auto.
  - rewrite <- rev_app_distr, <- H2, rev_involutive. exact H1.
  - rewrite forallb_forall in *. intros x Hx. apply Hw2. apply in_rev. exact Hx.
Qed.

Lemma strip_ends s :
  match strip s with
  | [] => True
  | c :: _ => char_isspace c = false
  end
  /\ match rev (strip s) with
     | [] => True
     | c :: _ => char_isspace c = false
     end.
Proof.
  unfold strip. rewrite rev_involutive.
  set (u := lstrip s). set (v := lstrip (rev u)).
  assert (Hv : match v with [] => True | c :: _ => char_isspace c = false end).
  { destruct v as [|c v'] eqn:E; auto. apply (lstrip_head (rev u) c v'). exact E. }
  split; [|exact Hv].
  destruct (lstrip_split (rev u)) as (w & Hw & Sw). fold v in Hw.
  assert (Hu : u = rev v ++ rev w).
  { rewrite <- rev_app_distr, <- Hw, rev_involutive. reflexivity. }
  destruct (rev v) as [|c t] eqn:E; auto.
  simpl in Hu.
  apply (lstrip_head s c (t ++ rev w)). exact Hu.
Qed.

Lemma strip_idempotent s : strip (strip s) = strip s.
Proof.
  destruct (strip_ends s) as [H1 H2].
  unfold strip at 1. rewrite (lstrip_fixed (strip s) H1).
  rewrite (lstrip_fixed (rev (strip s)) H2). apply rev_involutive.
Qed.

(** X7: surrounding white space does not count for the standardizer: a string
    and its stripped form are standardized alike. *)
Theorem standardize_ignores_outer_blanks :
  forall (L : Libraries) (s : str),
    standardize_date L (strip s) = standardize_date L s.
Proof.
  intros L s. unfold standardize_date. rewrite strip_idempotent.
  destruct s as [|c s]; [reflexivity|].
  destruct (strip (c :: s)) as [|c' s'] eqn:E; reflexivity.
Qed.

(** ** Strings without two digits side by side *)

Lemma adjacent_app_r a s : adjacent_digits s = true -> adjacent_digits (a ++ s) = true.
Proof.
  induction a as [|c a IH]; simpl; auto.
  intros H. specialize (IH H). destruct (a ++ s) as [|c2 r] eqn:E.
  - destruct a; [subst; discriminate|discriminate].
  - rewrite IH. apply orb_true_r.
Qed.

Lemma adjacent_app_l s b : adjacent_digits s = true -> adjacent_digits (s ++ b) = true.
Proof.
  induction s as [|c1 s IH]; [discriminate|].
  destruct s as [|c2 s]; [discriminate|].
  cbn [adjacent_digits app]. intros H. apply orb_true_iff in H.
  apply orb_true_iff. destruct H as [H|H]; [left; exact H|right].
  apply IH. exact H.
Qed.

Lemma adjacent_run f :
  forallb is_decimal f = true -> 2 <= length f -> adjacent_digits f = true.
Proof.
  destruct f as [|c1 [|c2 f]]; simpl; try lia.
  intros H _. apply andb_true_iff in H. destruct H as [H1 H].
  apply andb_true_iff in H. destruct H as [H2 _]. rewrite H1, H2. reflexivity.
Qed.

Lemma adjacent_inside a f b :
  forallb is_decimal f = true -> 2 <= length f ->
  adjacent_digits (a ++ f ++ b) = true.
Proof.
  intros H1 H2. apply adjacent_app_r, adjacent_app_l, adjacent_run; auto.
Qed.

Lemma conforms_adjacent p : forall pieces,
  Forall2 conforms p pieces -> wants_two_digits p ->
  adjacent_digits (concat pieces) = true.
Proof.
  intros pieces F (p1 & lo & hi & p2 & -> & Hlo).
  apply Forall2_app_inv_l in F. destruct F as (q1 & q2 & F1 & F2 & ->).
  inversion F2 as [|? f ? q3 C F3]; subst. destruct C as [Hl Hd].
  rewrite concat_app. simpl. apply adjacent_inside; auto. lia.
Qed.

Lemma match_here_adjacent p s pieces :
  wants_two_digits p -> match_here p s = Some pieces ->
  adjacent_digits s = true.
Proof.
  intros W M. destruct (match_here_sound _ _ _ M) as (F & rest & ->).
  apply adjacent_app_l. apply (conforms_adjacent p pieces F W).
Qed.

Lemma search_adjacent p s :
  wants_two_digits p -> adjacent_digits s = false -> search p s = false.
Proof.
  intros W. induction s as [|c s IH]; intros H.
  - simpl. destruct (match_here p []) eqn:M; auto.
    rewrite (match_here_adjacent p [] l W M) in H. discriminate.
  - simpl. destruct (match_here p (c :: s)) eqn:M.
    + rewrite (match_here_adjacent p _ l W M) in H. discriminate.
    + apply IH. destruct (adjacent_digits s) eqn:A; auto.
      pose proof (adjacent_app_r [c] s A) as X. simpl app in X.
      rewrite X in H. discriminate.
Qed.

Lemma fullmatch_adjacent p s :
  wants_two_digits p -> adjacent_digits s = false -> fullmatch p s = None.
Proof.
  intros (p1 & lo & hi & p2 & -> & Hlo) H. unfold fullmatch.
  destruct (match_here _ s) eqn:M; auto.
  assert (W : wants_two_digits ((p1 ++ Digits lo hi :: p2) ++ [Eos])).
  { exists p1, lo, hi, (p2 ++ [Eos]). split; [|exact Hlo].
    rewrite <- app_assoc. reflexivity. }
  rewrite (match_here_adjacent _ s l W M) in H. discriminate.
Qed.

Lemma finditer_adjacent p s :
  wants_two_digits p -> adjacent_digits s = false -> finditer p s = [].
Proof.
  intros W H. destruct (finditer p s) as [|[[st en] gs] ms] eqn:E; auto.
  assert (Hin : In (st, en, gs) (finditer p s)) by (rewrite E; left; reflexivity).
  destruct (finditer_sound _ _ _ _ _ Hin) as (ps & rest & F & Hs & _).
  pose proof (conforms_adjacent p ps F W) as A.
  rewrite <- (firstn_skipn st s), Hs in H.
  rewrite (adjacent_app_r _ _ (adjacent_app_l _ rest A)) in H. discriminate.
Qed.

Lemma strip_adjacent s : adjacent_digits s = false -> adjacent_digits (strip s) = false.
Proof.
  intros H. destruct (strip_split s) as (w1 & w2 & Hs & _).
  destruct (adjacent_digits (strip s)) eqn:A; auto.
  rewrite Hs in H.
  rewrite (adjacent_app_r _ _ (adjacent_app_l _ w2 A)) in H. discriminate.
Qed.

(** X8: a text in which no two decimal digits stand side by side holds no
    date for the script: the locator finds no group, the standardizer returns
    '' without calling dateutil, and the regex evaluator returns ''. *)
Theorem no_adjacent_digits_no_date :
  forall (L : Libraries) (s : str),
    adjacent_digits s = false ->
    extract_same_delim_group_from_reversed (PyStr s) 3 = ([], [], 0)
    /\ standardize_date L s = Ok []
    /\ extract_date_regex_datetime L s = [].
Proof.
  intros L s H. split; [|split].
  - unfold extract_same_delim_group_from_reversed.
    assert (Hr : adjacent_digits (rev s) = false).
    { destruct (adjacent_digits (rev s)) eqn:A; auto.
      exfalso. clear L.
      assert (R : forall t : str, adjacent_digits t = true ->
                                  adjacent_digits (rev t) = true).
      { induction t as [|c1 t IH]; [discriminate|].
        destruct t as [|c2 t]; [discriminate|].
        cbn [adjacent_digits]. intros X. apply orb_true_iff in X.
        destruct X as [X|X].
        - apply andb_true_iff in X. destruct X as [X1 X2].
          change (rev (c1 :: c2 :: t)) with ((rev t ++ [c2]) ++ [c1]).
          rewrite <- app_assoc. apply adjacent_app_r. simpl.
          rewrite X1, X2. reflexivity.
        - change (rev (c1 :: c2 :: t)) with (rev (c2 :: t) ++ [c1]).
          apply adjacent_app_l. apply IH. exact X. }
      apply R in A. rewrite rev_involutive in A. congruence. }
    assert (first_some (scan_delim (rev s)) DELIM_LIST = None) as ->;
      [|reflexivity].
    apply first_some_none. intros delim _. apply first_some_none.
    intros np Hnp. unfold scan_pattern.
    rewrite finditer_adjacent; [reflexivity| |exact Hr].
    simpl in Hnp. destruct Hnp as [<-|[<-|[<-|[<-|[]]]]]; cbn [snd].
    + exists [Digits 1 2; Lit delim; Digits 1 2; Lit delim], 2, 4, [].
      split; [reflexivity|lia].
    + exists [], 2, 4, [Lit delim; Digits 1 2; Lit delim; Digits 1 2].
      split; [reflexivity|lia].
    + exists [Digits 1 2; Lit delim], 2, 4, []. split; [reflexivity|lia].
    + exists [], 2, 4, [Lit delim; Digits 1 2]. split; [reflexivity|lia].
  - pose proof (strip_adjacent s H) as Hs.
    unfold standardize_date. destruct (negb (truthy s)); [reflexivity|].
    rewrite (fullmatch_adjacent RE_YEAR), (fullmatch_adjacent RE_MONTH_YEAR),
      (fullmatch_adjacent RE_YEAR_MONTH), (fullmatch_adjacent RE_MDY); auto.
    + unfold fuzzy_date.
      rewrite (search_adjacent [Digits 4 4]), (search_adjacent [Digits 2 2]);
        auto.
      * exists [], 2, 2, []. split; [reflexivity|lia].
      * exists [], 4, 4, []. split; [reflexivity|lia].
    + exists [Digits 1 2; Class DELIMS; Digits 1 2; Class DELIMS], 2, 4, [].
      split; [reflexivity|lia].
    + exists [], 4, 4, [Class DELIMS; Digits 1 2]. split; [reflexivity|lia].
    + exists [Digits 1 2; Class DELIMS], 2, 4, []. split; [reflexivity|lia].
    + exists [], 4, 4, []. split; [reflexivity|lia].
  - unfold extract_date_regex_datetime.
    assert (first_some (fun pat => first_some (regex_match L) (finditer pat s))
                       REGEX_PATTERNS = None) as ->; [|reflexivity].
    apply first_some_none. intros pat Hp.
    rewrite finditer_adjacent; [reflexivity| |exact H].
    unfold REGEX_PATTERNS in Hp. simpl in Hp.
    destruct Hp as [<-|[<-|[<-|[<-|[<-|[]]]]]].
    + exists [], 4, 4, [Class DELIMS; Digits 1 2; Class DELIMS; Digits 1 2].
      split; [reflexivity|lia].
    + exists [Digits 1 2; Class DELIMS; Digits 1 2; Class DELIMS], 2, 4, [].
      split; [reflexivity|lia].
    + exists [Digits 1 2; Class DELIMS], 2, 4, []. split; [reflexivity|lia].
    + exists [], 2, 4, [Class DELIMS; Digits 1 2]. split; [reflexivity|lia].
    + exists [], 4, 4, []. split; [reflexivity|lia].
Qed.

Lemma no_adjacent_digits_no_date_witness :
  extract_same_delim_group_from_reversed (PyStr (lit "v1_r2-d3.txt")) 3
  = ([], [], 0)
  /\ standardize_date quiet_libraries (lit "v1_r2-d3.txt") = Ok []
  /\ extract_date_regex_datetime quiet_libraries (lit "v1_r2-d3.txt") = [].
Proof.
  apply (no_adjacent_digits_no_date quiet_libraries (lit "v1_r2-d3.txt")).
  reflexivity.
Defined.

Lemma decimal_not_delims c :
  is_decimal c = true -> existsb (Ascii.eqb c) DELIMS = false.
Proof.
  intros H. destruct (existsb (Ascii.eqb c) DELIMS) eqn:E; auto.
  apply existsb_exists in E. destruct E as (x & Hx & E).
  apply Ascii.eqb_eq in E. subst x.
  unfold DELIMS in Hx. simpl in Hx.
  destruct Hx as [<-|[<-|[<-|[<-|[<-|[]]]]]]; discriminate.
Qed.

Lemma delims_not_decimal x :
  In x DELIMS -> is_decimal x = false /\ existsb (Ascii.eqb x) DELIMS = true.
Proof.
  intros H. split.
  - unfold DELIMS in H. simpl in H.
    destruct H as [<-|[<-|[<-|[<-|[<-|[]]]]]]; reflexivity.
  - apply existsb_exists. exists x. split; [exact H|apply Ascii.eqb_refl].
Qed.

Lemma strip_fixed s :
  match s with [] => True | c :: _ => char_isspace c = false end ->
  match rev s with [] => True | c :: _ => char_isspace c = false end ->
  strip s = s.
Proof.
  intros H1 H2. unfold strip.
  assert (L1 : forall t : str,
             match t with [] => True | c :: _ => char_isspace c = false end ->
             lstrip t = t).
  { intros [|c t]; simpl; auto. intros ->. reflexivity. }
  rewrite (L1 s H1), (L1 (rev s) H2). apply rev_involutive.
Qed.

(** Rewrites what is known of the characters of a string written out. *)
Ltac char_facts :=
  repeat match goal with
         | H : is_decimal ?c = true |- _ =>
             progress (rewrite ?H, ?(decimal_not_delims c H),
                        ?(decimal_not_space c H))
         | H : In ?x DELIMS |- _ =>
             progress (rewrite ?(proj1 (delims_not_decimal x H)),
                        ?(proj2 (delims_not_decimal x H)))
         end.

Ltac split_decimals :=
  repeat match goal with
         | H : forallb is_decimal _ = true |- _ => cbn [forallb] in H
         | H : _ && _ = true |- _ =>
             apply andb_true_iff in H;
             let H1 := fresh "D" in destruct H as [H1 H]
         | H : true = true |- _ => clear H
         end.

Ltac run_rules :=
  unfold standardize_date; cbn [truthy negb];
  rewrite strip_fixed by (cbn [rev app]; char_facts; reflexivity);
  unfold fullmatch, RE_YEAR, RE_MONTH_YEAR, RE_YEAR_MONTH, RE_MDY;
  cbn [app match_here try_down firstn skipn length Nat.ltb Nat.leb Nat.eqb
           forallb andb option_map existsb];
  char_facts;
  cbn [app match_here try_down firstn skipn length Nat.ltb Nat.leb Nat.eqb
           forallb andb option_map existsb orb];
  char_facts.

Section Rules.

Variable L : Libraries.

Lemma rule_month_year gm gy x :
  forallb is_decimal gm = true -> 1 <= length gm <= 2 ->
  forallb is_decimal gy = true -> 2 <= length gy <= 4 ->
  In x DELIMS ->
  standardize_date L (gm ++ x :: gy) = month_year_date gm gy.
Proof.
  intros Dm Lm Dy Ly Hx.
  destruct gm as [|a [|b [|]]]; simpl in Lm; try lia;
    destruct gy as [|c [|d [|e [|f [|]]]]]; simpl in Ly; try lia;
    split_decimals.
  all: run_rules.
  all: try reflexivity.
Qed.

Lemma rule_year_month gy gm x :
  forallb is_decimal gy = true -> length gy = 4 ->
  forallb is_decimal gm = true -> 1 <= length gm <= 2 ->
  In x DELIMS ->
  standardize_date L (gy ++ x :: gm) = month_year_date gm gy.
Proof.
  intros Dy Ly Dm Lm Hx.
  destruct gy as [|c [|d [|e [|f [|]]]]]; simpl in Ly; try lia;
    destruct gm as [|a [|b [|]]]; simpl in Lm; try lia;
    split_decimals.
  all: run_rules.
  all: try reflexivity.
Qed.

Lemma rule_mdy g1 g2 g3 x1 x2 :
  forallb is_decimal g1 = true -> 1 <= length g1 <= 2 ->
  forallb is_decimal g2 = true -> 1 <= length g2 <= 2 ->
  forallb is_decimal g3 = true -> 2 <= length g3 <= 4 ->
  In x1 DELIMS -> In x2 DELIMS ->
  standardize_date L (g1 ++ x1 :: g2 ++ x2 :: g3) = mdy_date g1 g2 g3.
Proof.
  intros D1 L1 D2 L2 D3 L3 H1 H2.
  destruct g1 as [|a1 [|b1 [|]]]; simpl in L1; try lia;
    destruct g2 as [|a2 [|b2 [|]]]; simpl in L2; try lia;
    destruct g3 as [|c [|d [|e [|f [|]]]]]; simpl in L3; try lia;
    split_decimals.
  all: run_rules.
  all: try reflexivity.
Qed.

Lemma rule_year g :
  forallb is_decimal g = true -> length g = 4 ->
  standardize_date L g
  = Py.bind (int g)
            (fun year => if plausible_year year
                         then Ok (format_d 4 year ++ lit "-01-01") else Ok []).
Proof.
  intros D Hl.
  destruct g as [|c [|d [|e [|f [|]]]]]; simpl in Hl; try lia.
  split_decimals. run_rules. reflexivity.
Qed.

End Rules.

(** X9: a string of exactly four decimal digits is a bare year for the
    standardizer: it gives YYYY-01-01 when the year is plausible and ''
    otherwise, and dateutil is not called. *)
Theorem standardize_bare_year :
  forall (L : Libraries) (g : str) (Y : Z),
    forallb is_decimal g = true -> length g = 4 -> int g = Ok Y ->
    standardize_date L g
    = Ok (if plausible_year Y then ymd_string Y 1 1 else []).
Proof.
  intros L g Y D Hl I. rewrite (rule_year L g D Hl), I. simpl.
  destruct (plausible_year Y); reflexivity.
Qed.

Lemma standardize_bare_year_witness :
  standardize_date quiet_libraries (lit "2021")
  = Ok (if plausible_year 2021 then ymd_string 2021 1 1 else []).
Proof.
  apply (standardize_bare_year quiet_libraries (lit "2021") 2021);
    reflexivity.
Defined.

(** X10: two digit fields joined by a character of the class [-_/\.] are a
    month and a year for the standardizer, in the order month (1-2 digits),
    year (2-4 digits), or year (4 digits), month (1-2 digits).  The result is
    the first day of that month when the month is in 1..12 and the expanded
    year is plausible, and '' otherwise; dateutil is not called.  A year of
    two digits written first is taken for a month. *)
Theorem standardize_month_and_year :
  forall (L : Libraries) (gm gy : str) (x : ascii) (M Y : Z),
    forallb is_decimal gm = true -> forallb is_decimal gy = true ->
    In x DELIMS -> int gm = Ok M -> int gy = Ok Y ->
    1 <= length gm <= 2 ->
    (2 <= length gy <= 4 ->
     standardize_date L (gm ++ x :: gy) = Ok (month_year_result M Y))
    /\ (length gy = 4 ->
        standardize_date L (gy ++ x :: gm) = Ok (month_year_result M Y)).
Proof.
  intros L gm gy x M Y Dm Dy Hx Im Iy Lm.
  assert (R : month_year_date gm gy = Ok (month_year_result M Y)).
  { unfold month_year_date, month_year_result. rewrite Im, Iy. simpl.
    destruct (_ && _); reflexivity. }
  split; intros Ly.
  - rewrite (rule_month_year L gm gy x Dm Lm Dy Ly Hx). exact R.
  - rewrite (rule_year_month L gy gm x Dy Ly Dm Lm Hx). exact R.
Qed.

Lemma standardize_month_and_year_witness :
  standardize_date quiet_libraries (lit "7" ++ "/"%char :: lit "2021")
  = Ok (month_year_result 7 2021)
  /\ standardize_date quiet_libraries (lit "2021" ++ "/"%char :: lit "7")
     = Ok (month_year_result 7 2021).
Proof.
  assert (H : (2 <= length (lit "2021") <= 4 ->
               standardize_date quiet_libraries
                                (lit "7" ++ "/"%char :: lit "2021")
               = Ok (month_year_result 7 2021))
              /\ (length (lit "2021") = 4 ->
                  standardize_date quiet_libraries
                                   (lit "2021" ++ "/"%char :: lit "7")
                  = Ok (month_year_result 7 2021))).
  { apply (standardize_month_and_year quiet_libraries (lit "7") (lit "2021")
             "/"%char 7 2021);
      first [reflexivity | simpl; lia | simpl; auto 10]. }
  destruct H as [H1 H2]. split.
  - apply H1. simpl. lia.
  - apply H2. reflexivity.
Defined.

(** X11: three digit fields of 1-2, 1-2 and 2-4 digits joined by characters of
    the class, which may differ, are month, day, year for the standardizer,
    and day, month, year when that reading is out of range; the result needs
    a plausible expanded year and is '' otherwise; dateutil is not called. *)
Theorem standardize_month_day_year :
  forall (L : Libraries) (g1 g2 g3 : str) (x1 x2 : ascii) (A B Y : Z),
    forallb is_decimal g1 = true -> 1 <= length g1 <= 2 ->
    forallb is_decimal g2 = true -> 1 <= length g2 <= 2 ->
    forallb is_decimal g3 = true -> 2 <= length g3 <= 4 ->
    In x1 DELIMS -> In x2 DELIMS ->
    int g1 = Ok A -> int g2 = Ok B -> int g3 = Ok Y ->
    standardize_date L (g1 ++ x1 :: g2 ++ x2 :: g3) = Ok (mdy_result A B Y).
Proof.
  intros L g1 g2 g3 x1 x2 A B Y D1 L1 D2 L2 D3 L3 H1 H2 I1 I2 I3.
  rewrite (rule_mdy L g1 g2 g3 x1 x2 D1 L1 D2 L2 D3 L3 H1 H2).
  unfold mdy_date, mdy_result. rewrite I1, I2, I3. simpl.
  destruct (_ && _); [reflexivity|]. destruct (_ && _); reflexivity.
Qed.

Lemma standardize_month_day_year_witness :
  standardize_date quiet_libraries
                   (lit "13" ++ "-"%char :: lit "12" ++ "."%char :: lit "99")
  = Ok (mdy_result 13 12 99).
Proof.
  apply (standardize_month_day_year quiet_libraries
           (lit "13") (lit "12") (lit "99") "-"%char "."%char 13 12 99);
    first [reflexivity | simpl; lia | simpl; auto 10].
Defined.

(** ** The consensus of a row *)

Lemma canonical_truthy r : canonical r = true -> truthy r = true.
Proof. destruct r; [discriminate|reflexivity]. Qed.

Lemma kept_of_canonical rs :
  Forall canonical_or_empty rs ->
  kept_dates (map PyStr rs) = filter truthy rs.
Proof.
  unfold kept_dates. induction 1 as [|r rs Hr _ IH]; [reflexivity|].
  simpl. destruct Hr as [->|Hr].
  - simpl. exact IH.
  - rewrite (well_formed_strip r (canonical_well_formed r Hr)).
    rewrite (canonical_well_formed r Hr), (canonical_truthy r Hr).
    f_equal. exact IH.
Qed.

Lemma process_row_parts (L : Libraries) text :
  exists e r1 r2 r3 r4 c,
    evaluated text = Ok e
    /\ standardize_date L (extract_date_datefinder L e) = Ok r1
    /\ standardize_date L (extract_date_dateparser L e) = Ok r2
    /\ standardize_date L (extract_date_parsedatetime L e) = Ok r3
    /\ standardize_date L (extract_date_regex_datetime L e) = Ok r4
    /\ consensus_date [PyStr r1; PyStr r2; PyStr r3; PyStr r4]
                      (is_two_group text) = Ok c
    /\ process_row L text
       = Ok {| evaluated_element := e;
               datefinder_date := r1;
               dateparser_date := r2;
               parsedatetime_date := r3;
               regex_date := r4;
               consensus := c |}.
Proof.
  destruct (evaluated_total text) as [e He].
  destruct (standardize_date_total L (extract_date_datefinder L e)) as [r1 H1].
  destruct (standardize_date_total L (extract_date_dateparser L e)) as [r2 H2].
  destruct (standardize_date_total L (extract_date_parsedatetime L e))
    as [r3 H3].
  destruct (standardize_date_total L (extract_date_regex_datetime L e))
    as [r4 H4].
  destruct (consensus_date_total [PyStr r1; PyStr r2; PyStr r3; PyStr r4]
                                 (is_two_group text)) as [c Hc].
  exists e, r1, r2, r3, r4, c. repeat split; auto.
  unfold process_row. rewrite He. cbn [Py.bind].
  rewrite H1, H2, H3, H4. cbn [Py.bind]. rewrite Hc. reflexivity.
Qed.

(** X12: every date of the output record is '' or canonical: the four
    evaluators return such dates, the row standardizes them once more, and the
    consensus is one of them or one of them cut to the month. *)
Theorem row_dates_are_canonical :
  forall (L : Libraries) (text : value),
    (forall e : str,
       canonical_or_empty (extract_date_datefinder L e)
       /\ canonical_or_empty (extract_date_dateparser L e)
       /\ canonical_or_empty (extract_date_parsedatetime L e)
       /\ canonical_or_empty (extract_date_regex_datetime L e))
    /\ exists rec,
         process_row L text = Ok rec
         /\ Forall canonical_or_empty
                   [datefinder_date rec; dateparser_date rec;
                    parsedatetime_date rec; regex_date rec; consensus rec].
Proof.
  intros L text. split.
  - intros e. repeat split.
    + apply datefinder_canonical.
    + apply dateparser_canonical.
    + apply parsedatetime_canonical.
    + apply regex_canonical.
  - destruct (process_row_total L text) as [rec Hrec].
    exists rec. split; [exact Hrec|].
    apply (process_row_canonical L text rec Hrec).
Qed.

(** X13: the consensus of a row is '' exactly when the four dates of the row
    are all ''; otherwise it is the stable mode of the dates that are not '',
    taken in the order datefinder, dateparser, parsedatetime, regex, and cut to
    the month for a two-field group. *)
Theorem row_consensus_is_mode_of_dates :
  forall (L : Libraries) (text : value),
    exists rec,
      process_row L text = Ok rec
      /\ match filter truthy [datefinder_date rec; dateparser_date rec;
                              parsedatetime_date rec; regex_date rec] with
         | [] => consensus rec = []
         | dates =>
             exists m,
               stable_mode dates m
               /\ consensus rec <> []
               /\ consensus rec
                  = if is_two_group text then month_precision m else m
         end.
Proof.
  intros L text.
  destruct (process_row_parts L text)
    as (e & r1 & r2 & r3 & r4 & c & He & H1 & H2 & H3 & H4 & Hc & Hrec).
  eexists. split; [exact Hrec|]. cbn [datefinder_date dateparser_date
    parsedatetime_date regex_date consensus].
  assert (F : Forall canonical_or_empty [r1; r2; r3; r4]).
  { repeat (apply Forall_cons;
            [eapply standardize_date_canonical; eassumption|]).
    apply Forall_nil. }
  destruct (consensus_date_spec [PyStr r1; PyStr r2; PyStr r3; PyStr r4]
                                (is_two_group text)) as (c' & Hc' & Hs).
  rewrite Hc in Hc'. inversion Hc'; subst c'. clear Hc'.
  change [PyStr r1; PyStr r2; PyStr r3; PyStr r4]
    with (map PyStr [r1; r2; r3; r4]) in Hs.
  rewrite (kept_of_canonical _ F) in Hs.
  destruct (filter truthy [r1; r2; r3; r4]) as [|d ds] eqn:K; [exact Hs|].
  destruct Hs as (m & Hm & Hr). exists m. repeat split; auto.
  - apply (stable_mode_in _ _ Hm).
  - apply Hm.
  - apply Hm.
  - rewrite Hr. assert (Tm : truthy m = true).
    { assert (In m (filter truthy [r1; r2; r3; r4]))
        by (rewrite K; apply (stable_mode_in _ _ Hm)).
      apply filter_In in H. apply H. }
    destruct (is_two_group text).
    + unfold month_precision. destruct (firstn 8 m); discriminate.
    + destruct m; discriminate.
Qed.

(** ** Plurality *)

Lemma stable_mode_unique_plurality l m m' :
  stable_mode l m' -> In m l ->
  (forall x, In x l -> x <> m -> count l x < count l m) ->
  m' = m.
Proof.
  intros (Hin & Hmax & _) Hm Hp.
  destruct (list_eq_dec ascii_dec m' m) as [E|N]; auto.
  specialize (Hp m' Hin N). specialize (Hmax m). lia.
Qed.

(** X14: a value kept by the resolver that is strictly more frequent than
    every other kept value is the consensus, wherever it stands among the
    inputs; with the two-group flag it is returned cut to the month. *)
Theorem strict_plurality_wins :
  forall (dates : list value) (m : str) (two_group : bool),
    In m (kept_dates dates) ->
    (forall x, In x (kept_dates dates) -> x <> m ->
               count (kept_dates dates) x < count (kept_dates dates) m) ->
    consensus_date dates two_group
    = Ok (if two_group then month_precision m else m).
Proof.
  intros dates m tg Hm Hp.
  destruct (consensus_date_spec dates tg) as (r & Hr & Hs).
  rewrite Hr. f_equal.
  destruct (kept_dates dates) as [|d ds] eqn:K; [destruct Hm|].
  destruct Hs as (m' & Hm' & ->).
  rewrite (stable_mode_unique_plurality _ m m' Hm' Hm Hp). reflexivity.
Qed.

Lemma strict_plurality_wins_witness :
  consensus_date [PyStr (lit "2021-07-16"); PyStr (lit "2021-07-15");
                  PyStr []; PyStr (lit "2021-07-15")] false
  = Ok (lit "2021-07-15").
Proof.
  apply (strict_plurality_wins
           [PyStr (lit "2021-07-16"); PyStr (lit "2021-07-15");
            PyStr []; PyStr (lit "2021-07-15")] (lit "2021-07-15") false).
  - vm_compute. auto.
  - vm_compute. intros x [<-|[<-|[<-|[]]]] N; try contradiction; lia.
Defined.

(** ** The datefinder evaluator *)

(** X15: the datefinder evaluator returns '' when datefinder raises;
    otherwise it returns the standardized form of the first date found whose
    standardized form is not '', and '' when there is none. *)
Theorem datefinder_returns_first_valid :
  forall (L : Libraries) (text : str),
    (datefinder_find_dates L text = Raised
     /\ extract_date_datefinder L text = [])
    \/ exists found,
         datefinder_find_dates L text = Ok found
         /\ ((Forall (fun m => standardize_date L (isoformat m) = Ok []) found
              /\ extract_date_datefinder L text = [])
             \/ exists before m after,
                  found = before ++ m :: after
                  /\ Forall (fun m' => standardize_date L (isoformat m') = Ok [])
                            before
                  /\ standardize_date L (isoformat m)
                     = Ok (extract_date_datefinder L text)
                  /\ extract_date_datefinder L text <> []).
Proof.
  intros L text. unfold extract_date_datefinder.
  destruct (datefinder_find_dates L text) as [found|]; [right|left; auto].
  exists found. split; [reflexivity|]. cbn [Py.bind].
  induction found as [|m found IH].
  - left. split; [constructor|reflexivity].
  - cbn [first_standard].
    destruct (standardize_date_total L (isoformat m)) as [iso Hiso].
    rewrite Hiso. cbn [Py.bind].
    destruct iso as [|c iso].
    + cbn [truthy]. destruct IH as [[F E]|(b & m' & a & -> & F & S & N)].
      * left. split; [constructor; auto|exact E].
      * right. exists (m :: b), m', a. repeat split; auto.
    + cbn [truthy catch]. right. exists [], m, found.
      repeat split; auto. discriminate.
Qed.

(** ** The regex evaluator on three digit fields *)

Lemma make_date_ok y m d :
  valid_ymd y m d = true ->
  exists dt, make_date y m d = Ok dt
             /\ year dt = y /\ month dt = m /\ day dt = d.
Proof.
  intros H. unfold make_date.
  generalize (eq_refl (valid_ymd y m d)).
  generalize (valid_ymd y m d) at 2 3.
  intros b. destruct b; intros E.
  - eexists. split; [reflexivity|]. simpl. auto.
  - congruence.
Qed.

Lemma finditer_head p c s pieces :
  match_here p (c :: s) = Some pieces ->
  finditer p (c :: s)
  = (0, 0 + length (concat pieces), groups p pieces)
      :: finditer_from p s 1 (length (concat pieces) - 1).
Proof. intros H. unfold finditer. cbn [finditer_from]. rewrite H. reflexivity. Qed.

Lemma finditer_from_step p c s pos :
  match_here p (c :: s) = None ->
  finditer_from p (c :: s) pos 0 = finditer_from p s (S pos) 0.
Proof. intros H. cbn [finditer_from]. rewrite H. reflexivity. Qed.

Lemma first_some_head (A B : Type) (f : A -> option B) x l r :
  f x = Some r -> first_some f (x :: l) = Some r.
Proof. intros H. cbn [first_some]. rewrite H. reflexivity. Qed.

Lemma first_some_skip (A B : Type) (f : A -> option B) x l :
  f x = None -> first_some f (x :: l) = first_some f l.
Proof. intros H. cbn [first_some]. rewrite H. reflexivity. Qed.

Ltac run_match :=
  cbn [app match_here try_down firstn skipn length Nat.ltb Nat.leb Nat.eqb
         forallb andb option_map existsb];
  char_facts;
  cbn [app match_here try_down firstn skipn length Nat.ltb Nat.leb Nat.eqb
         forallb andb option_map existsb orb];
  char_facts.

Lemma match_year_first g1 g2 g3 x1 x2 :
  forallb is_decimal g1 = true -> length g1 = 4 ->
  forallb is_decimal g2 = true -> 1 <= length g2 <= 2 ->
  forallb is_decimal g3 = true -> 1 <= length g3 <= 2 ->
  In x1 DELIMS -> In x2 DELIMS ->
  match_here P_YMD (g1 ++ x1 :: g2 ++ x2 :: g3) = Some [g1; [x1]; g2; [x2]; g3].
Proof.
  intros D1 L1 D2 L2 D3 L3 H1 H2. unfold P_YMD.
  destruct g1 as [|c [|d [|e [|f [|]]]]]; simpl in L1; try lia;
    destruct g2 as [|a2 [|b2 [|]]]; simpl in L2; try lia;
    destruct g3 as [|a3 [|b3 [|]]]; simpl in L3; try lia;
    split_decimals.
  all: run_match; reflexivity.
Qed.

Lemma match_month_first g1 g2 g3 x1 x2 :
  forallb is_decimal g1 = true -> 1 <= length g1 <= 2 ->
  forallb is_decimal g2 = true -> 1 <= length g2 <= 2 ->
  forallb is_decimal g3 = true -> 2 <= length g3 <= 4 ->
  In x1 DELIMS -> In x2 DELIMS ->
  match_here P_MDY (g1 ++ x1 :: g2 ++ x2 :: g3) = Some [g1; [x1]; g2; [x2]; g3].
Proof.
  intros D1 L1 D2 L2 D3 L3 H1 H2. unfold P_MDY.
  destruct g1 as [|a1 [|b1 [|]]]; simpl in L1; try lia;
    destruct g2 as [|a2 [|b2 [|]]]; simpl in L2; try lia;
    destruct g3 as [|c [|d [|e [|f [|]]]]]; simpl in L3; try lia;
    split_decimals.
  all: run_match; reflexivity.
Qed.

(** The first pattern needs four digits and a delimiter after them: it
    matches nowhere in a text whose first two fields are short. *)
Lemma no_year_first_match g1 g2 g3 x1 x2 :
  forallb is_decimal g1 = true -> 1 <= length g1 <= 2 ->
  forallb is_decimal g2 = true -> 1 <= length g2 <= 2 ->
  forallb is_decimal g3 = true -> 2 <= length g3 <= 4 ->
  In x1 DELIMS -> In x2 DELIMS ->
  finditer P_YMD (g1 ++ x1 :: g2 ++ x2 :: g3) = [].
Proof.
  intros D1 L1 D2 L2 D3 L3 H1 H2. unfold P_YMD, finditer.
  destruct g1 as [|a1 [|b1 [|]]]; simpl in L1; try lia;
    destruct g2 as [|a2 [|b2 [|]]]; simpl in L2; try lia;
    destruct g3 as [|c [|d [|e [|f [|]]]]]; simpl in L3; try lia;
    split_decimals.
  all: cbn [app].
  all: repeat (rewrite finditer_from_step by (run_match; reflexivity)).
  all: reflexivity.
Qed.

Section RegexThreeFields.

Variable L : Libraries.

Lemma standardize_iso y m d :
  plausible_year y = true -> in_range 1 m 12 = true -> in_range 1 d 31 = true ->
  reads_iso L y m d ->
  standardize_date L (ymd_string y m d) = Ok (ymd_string y m d).
Proof.
  intros Hy Hm Hd (dt & Hp & Ey & Em & Ed).
  destruct (ymd_table_at y m d Hy Hm Hd) as [_ F].
  rewrite (standardize_date_fuzzy L _ F), Hp, Ey, Hy.
  unfold isoformat. rewrite Ey, Em, Ed. reflexivity.
Qed.

Lemma regex_full_date_iso y m d :
  plausible_year y = true -> in_range 1 m 12 = true -> in_range 1 d 31 = true ->
  valid_ymd y m d = true -> reads_iso L y m d ->
  regex_full_date L y m d = Ok (Some (ymd_string y m d)).
Proof.
  intros Hy Hm Hd Hv R. unfold regex_full_date. rewrite Hm, Hd, Hy. cbn [andb].
  destruct (make_date_ok y m d Hv) as (dt & -> & Ey & Em & Ed).
  cbn [Py.bind]. unfold isoformat. rewrite Ey, Em, Ed.
  rewrite (standardize_iso y m d Hy Hm Hd R). reflexivity.
Qed.

(** On a four-digit field and two short ones the first pattern matches the
    whole text, and what the try block returns for it is the answer. *)
Lemma regex_year_first g1 g2 g3 x1 x2 r :
  forallb is_decimal g1 = true -> length g1 = 4 ->
  forallb is_decimal g2 = true -> 1 <= length g2 <= 2 ->
  forallb is_decimal g3 = true -> 1 <= length g3 <= 2 ->
  In x1 DELIMS -> In x2 DELIMS ->
  regex_try L [g1; g2; g3] = Ok (Some r) ->
  extract_date_regex_datetime L (g1 ++ x1 :: g2 ++ x2 :: g3) = r.
Proof.
  intros D1 L1 D2 L2 D3 L3 H1 H2 R.
  pose proof (match_year_first g1 g2 g3 x1 x2 D1 L1 D2 L2 D3 L3 H1 H2) as M.
  unfold extract_date_regex_datetime, REGEX_PATTERNS.
  change [Digits 4 4; Class DELIMS; Digits 1 2; Class DELIMS; Digits 1 2]
    with P_YMD.
  destruct g1 as [|c g1]; [discriminate|].
  change ((c :: g1) ++ x1 :: g2 ++ x2 :: g3)
    with (c :: (g1 ++ x1 :: g2 ++ x2 :: g3)) in *.
  rewrite (first_some_head _ _ _ _ _ r); [reflexivity|].
  rewrite (finditer_head _ _ _ _ M).
  apply first_some_head. unfold regex_match. cbn [snd].
  change (groups P_YMD [c :: g1; [x1]; g2; [x2]; g3]) with [c :: g1; g2; g3].
  rewrite R. reflexivity.
Qed.

(** On two short fields and a year field the second pattern is the first to
    match, and it matches the whole text. *)
Lemma regex_month_first g1 g2 g3 x1 x2 r :
  forallb is_decimal g1 = true -> 1 <= length g1 <= 2 ->
  forallb is_decimal g2 = true -> 1 <= length g2 <= 2 ->
  forallb is_decimal g3 = true -> 2 <= length g3 <= 4 ->
  In x1 DELIMS -> In x2 DELIMS ->
  regex_try L [g1; g2; g3] = Ok (Some r) ->
  extract_date_regex_datetime L (g1 ++ x1 :: g2 ++ x2 :: g3) = r.
Proof.
  intros D1 L1 D2 L2 D3 L3 H1 H2 R.
  pose proof (match_month_first g1 g2 g3 x1 x2 D1 L1 D2 L2 D3 L3 H1 H2) as M.
  pose proof (no_year_first_match g1 g2 g3 x1 x2 D1 L1 D2 L2 D3 L3 H1 H2) as N.
  unfold extract_date_regex_datetime, REGEX_PATTERNS.
  change [Digits 4 4; Class DELIMS; Digits 1 2; Class DELIMS; Digits 1 2]
    with P_YMD.
  change [Digits 1 2; Class DELIMS; Digits 1 2; Class DELIMS; Digits 2 4]
    with P_MDY.
  rewrite first_some_skip by (rewrite N; reflexivity).
  destruct g1 as [|c g1]; [simpl in L1; lia|].
  change ((c :: g1) ++ x1 :: g2 ++ x2 :: g3)
    with (c :: (g1 ++ x1 :: g2 ++ x2 :: g3)) in *.
  rewrite (first_some_head _ _ _ _ _ r); [reflexivity|].
  rewrite (finditer_head _ _ _ _ M).
  apply first_some_head. unfold regex_match. cbn [snd].
  change (groups P_MDY [c :: g1; [x1]; g2; [x2]; g3]) with [c :: g1; g2; g3].
  rewrite R. reflexivity.
Qed.

End RegexThreeFields.

Lemma digit_value_range c : is_decimal c = true -> (0 <= digit_value c <= 9)%Z.
Proof.
  unfold is_decimal, digit_value. intros H.
  apply andb_true_iff in H. destruct H as [H1 H2].
  apply N.leb_le in H1, H2. lia.
Qed.

Lemma int_two_digits g Y :
  forallb is_decimal g = true -> length g = 2 -> int g = Ok Y ->
  (0 <= Y <= 99)%Z.
Proof.
  intros D Hl I.
  destruct g as [|a [|b [|]]]; try discriminate.
  rewrite int_digits in I by (auto; discriminate).
  change (fold_left (fun acc c => 10 * acc + digit_value c)%Z [a; b] 0%Z)
    with (10 * (10 * 0 + digit_value a) + digit_value b)%Z in I.
  assert (E : (10 * (10 * 0 + digit_value a) + digit_value b)%Z = Y)
    by congruence.
  cbn [forallb] in D. apply andb_true_iff in D. destruct D as [Da D].
  apply andb_true_iff in D. destruct D as [Db _].
  pose proof (digit_value_range a Da). pose proof (digit_value_range b Db). lia.
Qed.

Lemma january_day y d :
  plausible_year y = true -> (1 <= d <= 12)%Z -> valid_ymd y 1 d = true.
Proof.
  intros Hy Hd. apply plausible_year_spec in Hy.
  unfold valid_ymd, days_in_month.
  change (1 =? 2)%Z with false.
  change ((1 =? 4) || (1 =? 6) || (1 =? 9) || (1 =? 11))%Z with false.
  cbv iota.
  repeat (apply andb_true_iff; split); apply Z.leb_le; lia.
Qed.

Lemma first_day y m :
  plausible_year y = true -> (1 <= m <= 12)%Z -> valid_ymd y m 1 = true.
Proof.
  intros Hy Hm. apply plausible_year_spec in Hy.
  unfold valid_ymd, days_in_month.
  repeat (apply andb_true_iff; split); try (apply Z.leb_le; lia).
  destruct (m =? 2)%Z; [destruct (is_leap y)|destruct (_ || _)]; lia.
Qed.

Section RegexReadings.

Variable L : Libraries.

Lemma regex_try_year_first gy gm gd Y M D :
  length gy = 4 -> int gy = Ok Y -> int gm = Ok M -> int gd = Ok D ->
  plausible_year Y = true -> valid_ymd Y M D = true -> reads_iso L Y M D ->
  regex_try L [gy; gm; gd] = Ok (Some (ymd_string Y M D)).
Proof.
  intros Hl Iy Im Id Hy Hv R. unfold regex_try.
  rewrite Hl, Iy, Im, Id. cbn [Nat.eqb Py.bind].
  destruct (valid_ymd_ranges Y M D Hv) as [Hm Hd].
  apply regex_full_date_iso; auto.
Qed.

Lemma regex_try_month_first gm gd gy Y0 M D :
  forallb is_decimal gy = true ->
  length gm <= 2 -> (length gy = 2 \/ length gy = 4) ->
  int gm = Ok M -> int gd = Ok D -> int gy = Ok Y0 ->
  plausible_year (regex_year gy Y0) = true ->
  valid_ymd (regex_year gy Y0) M D = true ->
  reads_iso L (regex_year gy Y0) M D ->
  regex_try L [gm; gd; gy] = Ok (Some (ymd_string (regex_year gy Y0) M D)).
Proof.
  intros Dy Lm Ly Im Id Iy Hy Hv R. unfold regex_try.
  assert (E : (length gm =? 4) = false) by (apply Nat.eqb_neq; lia).
  rewrite E. clear E.
  destruct (valid_ymd_ranges _ _ _ Hv) as [Hm Hd].
  unfold regex_year in *.
  destruct Ly as [Ly|Ly]; rewrite Ly in *; cbn [Nat.eqb] in *.
  - rewrite Iy. cbn [Py.bind].
    pose proof (int_two_digits gy Y0 Dy Ly Iy) as B.
    assert (X : match first_plausible CENTURIES Y0 with
                | Some y => y
                | None => Y0
                end = expand_year Y0).
    { unfold expand_year.
      assert (T : (Y0 <? 100)%Z = true) by (apply Z.ltb_lt; lia).
      rewrite T. reflexivity. }
    rewrite X, Im, Id. cbn [Py.bind].
    apply regex_full_date_iso; auto.
  - rewrite Iy, Im, Id. cbn [Py.bind].
    apply regex_full_date_iso; auto.
Qed.

End RegexReadings.

(** X16: the regex evaluator reads a year of four digits, a month and a day,
    joined by characters of the class, as that date: when the year is
    plausible, the date exists in the calendar and dateutil reads its ISO
    form, the answer is YYYY-MM-DD. *)
Theorem regex_reads_year_month_day :
  forall (L : Libraries) (gy gm gd : str) (x1 x2 : ascii) (Y M D : Z),
    forallb is_decimal gy = true -> length gy = 4 ->
    forallb is_decimal gm = true -> 1 <= length gm <= 2 ->
    forallb is_decimal gd = true -> 1 <= length gd <= 2 ->
    In x1 DELIMS -> In x2 DELIMS ->
    int gy = Ok Y -> int gm = Ok M -> int gd = Ok D ->
    plausible_year Y = true -> valid_ymd Y M D = true ->
    reads_iso L Y M D ->
    extract_date_regex_datetime L (gy ++ x1 :: gm ++ x2 :: gd)
    = ymd_string Y M D.
Proof.
  intros L gy gm gd x1 x2 Y M D Dy Ly Dm Lm Dd Ld H1 H2 Iy Im Id Hy Hv R.
  apply regex_year_first; auto.
  apply regex_try_year_first; auto.
Qed.

(** X17: the regex evaluator reads a month, a day and a year of two or four
    digits as month, day, year: the year is taken as written when it has four
    digits and expanded when it has two, and there is no second reading as
    day, month, year. *)
Theorem regex_reads_month_day_year :
  forall (L : Libraries) (gm gd gy : str) (x1 x2 : ascii) (M D Y0 : Z),
    forallb is_decimal gm = true -> 1 <= length gm <= 2 ->
    forallb is_decimal gd = true -> 1 <= length gd <= 2 ->
    forallb is_decimal gy = true -> (length gy = 2 \/ length gy = 4) ->
    In x1 DELIMS -> In x2 DELIMS ->
    int gm = Ok M -> int gd = Ok D -> int gy = Ok Y0 ->
    plausible_year (regex_year gy Y0) = true ->
    valid_ymd (regex_year gy Y0) M D = true ->
    reads_iso L (regex_year gy Y0) M D ->
    extract_date_regex_datetime L (gm ++ x1 :: gd ++ x2 :: gy)
    = ymd_string (regex_year gy Y0) M D.
Proof.
  intros L gm gd gy x1 x2 M D Y0 Dm Lm Dd Ld Dy Ly H1 H2 Im Id Iy Hy Hv R.
  apply regex_month_first; auto; [destruct Ly; lia|].
  apply regex_try_month_first; auto. lia.
Qed.

Lemma regex_reads_year_month_day_witness :
  extract_date_regex_datetime iso_reader
    (lit "2021" ++ "-"%char :: lit "07" ++ "-"%char :: lit "15")
  = ymd_string 2021 7 15.
Proof.
  apply (regex_reads_year_month_day iso_reader
           (lit "2021") (lit "07") (lit "15") "-"%char "-"%char 2021 7 15);
    solve [reflexivity | simpl; lia | simpl; auto 10
          | eexists; repeat split; reflexivity].
Defined.

Lemma regex_reads_month_day_year_witness :
  extract_date_regex_datetime iso_reader
    (lit "7" ++ "/"%char :: lit "15" ++ "/"%char :: lit "21")
  = ymd_string (regex_year (lit "21") 21) 7 15.
Proof.
  apply (regex_reads_month_day_year iso_reader
           (lit "7") (lit "15") (lit "21") "/"%char "/"%char 7 15 21);
    solve [reflexivity | simpl; lia | simpl; auto 10
          | eexists; repeat split; reflexivity].
Defined.

(** ** Two-field groups in the regex column *)

Lemma located_pair text g d n f1 f2 :
  extract_same_delim_group_from_reversed (PyStr text) 3 = (g, d, n) ->
  split g d = [f1; f2] ->
  exists delim,
    In delim DELIM_LIST /\ d = [delim] /\ g = f1 ++ delim :: f2
    /\ digit_field f1 /\ digit_field f2
    /\ fields2_ok [f1; f2] = true
    /\ evaluated (PyStr text) = Ok (f1 ++ delim :: lit "01" ++ delim :: f2).
Proof.
  intros E S.
  assert (Hg : g <> []).
  { intros ->.
    destruct (extract_shape_full (PyStr text) 3)
      as [Z|(delim & fields & _ & Hl & F & E' & _)].
    - rewrite E in Z. inversion Z; subst. discriminate.
    - rewrite E in E'. inversion E' as [[J _ _]].
      destruct fields as [|f fields]; [destruct Hl; discriminate|].
      inversion F as [|? ? Hf _]; subst.
      pose proof (digit_field_truthy f Hf) as Tf.
      destruct f; [discriminate|]. destruct fields; discriminate. }
  destruct (extract_fields text 3 g d n E Hg)
    as (delim & fields & Hd & -> & -> & Hn & _ & F & S' & _ & K2).
  rewrite S in S'. subst fields. simpl in Hn. subst n.
  inversion F as [|? ? F1 F']; subst. inversion F' as [|? ? F2 _]; subst.
  exists delim.
  split; [exact Hd|]. split; [reflexivity|]. split; [reflexivity|].
  split; [exact F1|]. split; [exact F2|].
  split; [apply K2; reflexivity|].
  unfold evaluated.
  rewrite (extract_num_irrelevant (PyStr text) 2 3), E.
  unfold final_eval_of, splitcount. rewrite S.
  pose proof (digit_field_truthy f1 F1) as T1.
  destruct f1 as [|c f1]; [discriminate|]. reflexivity.
Qed.

Lemma isdigit_field_tests gm gy :
  length gm <= 2 -> (length gy = 2 \/ length gy = 4) ->
  is_month_field gm && is_year_field gy = false ->
  is_year_field gm && is_month_field gy = false.
Proof.
  unfold is_month_field, is_year_field. intros Lm Ly.
  destruct (isdigit gm), (isdigit gy); rewrite ?andb_false_r; auto.
  rewrite ?andb_true_r.
  remember (length gm) as k eqn:Hk. clear Hk.
  destruct Ly as [Ly|Ly]; rewrite Ly;
    destruct k as [|[|[|]]]; try lia; cbn; intros; try discriminate;
    reflexivity.
Qed.

Section PairReadings.

Variable L : Libraries.

Lemma row_regex_date text e r :
  evaluated (PyStr text) = Ok e ->
  extract_date_regex_datetime L e = r ->
  standardize_date L r = Ok r ->
  exists rec,
    process_row L (PyStr text) = Ok rec
    /\ evaluated_element rec = e /\ regex_date rec = r.
Proof.
  intros He Hr Hs.
  destruct (process_row_parts L (PyStr text))
    as (e' & r1 & r2 & r3 & r4 & c & He' & _ & _ & _ & H4 & _ & P).
  rewrite He in He'. inversion He'; subst e'.
  rewrite Hr, Hs in H4. inversion H4; subst r4.
  eexists. split; [exact P|]. split; reflexivity.
Qed.

End PairReadings.

(** X18: a located group of a four-digit year and a month loses its month in
    the regex column.  The row inserts "01" between the two fields, and the
    regex evaluator reads the result as year, month, day: the regex date is
    the day of January whose number is the month of the text. *)
Theorem year_first_pair_read_as_january :
  forall (L : Libraries) (text g d gy gm : str) (n : nat) (Y M : Z),
    extract_same_delim_group_from_reversed (PyStr text) 3 = (g, d, n) ->
    split g d = [gy; gm] ->
    length gy = 4 ->
    int gy = Ok Y -> int gm = Ok M ->
    plausible_year Y = true ->
    reads_iso L Y 1 M ->
    exists rec,
      process_row L (PyStr text) = Ok rec
      /\ evaluated_element rec = gy ++ d ++ lit "01" ++ d ++ gm
      /\ regex_date rec = ymd_string Y 1 M.
Proof.
  intros L text g d gy gm n Y M E S Ly Iy Im Hy R.
  destruct (located_pair text g d n gy gm E S)
    as (delim & Hd & -> & _ & [Dy _] & [Dm Lm] & K & He).
  assert (HM : in_range 1 M 12 = true /\ length gm <= 2).
  { unfold fields2_ok in K. cbn [map] in K.
    rewrite (strip_decimal gy Dy), (strip_decimal gm Dm) in K.
    assert (X : is_month_field gy = false).
    { unfold is_month_field. rewrite Ly. reflexivity. }
    rewrite X in K. cbn [andb] in K.
    destruct (is_year_field gy && is_month_field gm) eqn:T; [|discriminate].
    apply andb_true_iff in T. destruct T as [_ T].
    unfold month_year_ok in K. rewrite Im, Iy in K.
    apply andb_true_iff in K. destruct K as [K _]. split; [exact K|].
    unfold is_month_field in T.
    apply andb_true_iff in T. destruct T as [T _].
    apply andb_true_iff in T. destruct T as [_ T].
    apply Nat.leb_le in T. exact T. }
  destruct HM as [HM Lm'].
  assert (HM' : (1 <= M <= 12)%Z) by (apply in_range_spec; exact HM).
  assert (Hd31 : in_range 1 M 31 = true) by (apply in_range_spec; lia).
  apply (row_regex_date L text _ _ He).
  - apply (regex_year_first L gy (lit "01") gm delim delim);
      [exact Dy|exact Ly|reflexivity|simpl; lia|exact Dm|lia
      |exact Hd|exact Hd|].
    apply regex_try_year_first;
      [exact Ly|exact Iy|reflexivity|exact Im|exact Hy
      |apply january_day; assumption|exact R].
  - apply standardize_iso; auto.
Qed.

Lemma year_first_pair_read_as_january_witness :
  exists rec,
    process_row iso_reader (PyStr (lit "report_2021-07.pdf")) = Ok rec
    /\ evaluated_element rec
       = lit "2021" ++ lit "-" ++ lit "01" ++ lit "-" ++ lit "07"
    /\ regex_date rec = ymd_string 2021 1 7.
Proof.
  apply (year_first_pair_read_as_january iso_reader
           (lit "report_2021-07.pdf") (lit "2021-07") (lit "-")
           (lit "2021") (lit "07") 2 2021 7);
    solve [reflexivity | eexists; repeat split; reflexivity].
Defined.

(** X19: a located group of a month and a year keeps its month in the regex
    column: with "01" inserted the regex evaluator reads month, day, year,
    and the regex date is the first day of that month. *)
Theorem month_first_pair_read_as_first_day :
  forall (L : Libraries) (text g d gm gy : str) (n : nat) (M Y0 : Z),
    extract_same_delim_group_from_reversed (PyStr text) 3 = (g, d, n) ->
    split g d = [gm; gy] ->
    length gm <= 2 -> (length gy = 2 \/ length gy = 4) ->
    int gm = Ok M -> int gy = Ok Y0 ->
    plausible_year (regex_year gy Y0) = true ->
    reads_iso L (regex_year gy Y0) M 1 ->
    exists rec,
      process_row L (PyStr text) = Ok rec
      /\ evaluated_element rec = gm ++ d ++ lit "01" ++ d ++ gy
      /\ regex_date rec = ymd_string (regex_year gy Y0) M 1.
Proof.
  intros L text g d gm gy n M Y0 E S Lm Ly Im Iy Hy R.
  destruct (located_pair text g d n gm gy E S)
    as (delim & Hd & -> & _ & [Dm Lm'] & [Dy _] & K & He).
  assert (HM : in_range 1 M 12 = true).
  { unfold fields2_ok in K. cbn [map] in K.
    rewrite (strip_decimal gm Dm), (strip_decimal gy Dy) in K.
    destruct (is_month_field gm && is_year_field gy) eqn:T.
    - unfold month_year_ok in K. rewrite Im, Iy in K.
      apply andb_true_iff in K. apply K.
    - rewrite (isdigit_field_tests gm gy Lm Ly T) in K. discriminate. }
  assert (HM' : (1 <= M <= 12)%Z) by (apply in_range_spec; exact HM).
  apply (row_regex_date L text _ _ He).
  - apply (regex_month_first L gm (lit "01") gy delim delim);
      [exact Dm|lia|reflexivity|simpl; lia|exact Dy|destruct Ly; lia
      |exact Hd|exact Hd|].
    apply regex_try_month_first;
      [exact Dy|exact Lm|exact Ly|exact Im|reflexivity|exact Iy|exact Hy
      |apply first_day; assumption|exact R].
  - apply standardize_iso; auto.
Qed.

Lemma month_first_pair_read_as_first_day_witness :
  exists rec,
    process_row iso_reader (PyStr (lit "scan 07_2021.pdf")) = Ok rec
    /\ evaluated_element rec
       = lit "07" ++ lit "_" ++ lit "01" ++ lit "_" ++ lit "2021"
    /\ regex_date rec = ymd_string (regex_year (lit "2021") 2021) 7 1.
Proof.
  apply (month_first_pair_read_as_first_day iso_reader
           (lit "scan 07_2021.pdf") (lit "07_2021") (lit "_")
           (lit "07") (lit "2021") 2 7 2021);
    solve [reflexivity | simpl; lia | simpl; auto
          | eexists; repeat split; reflexivity].
Defined.

(** ** Matches of the scan among all matches *)

Lemma finditer_from_matches p : forall s pos skip m,
  In m (finditer_from p s pos skip) -> In m (matches_from p s pos).
Proof.
  induction s as [|c s IH]; intros pos skip m H; [contradiction|].
  cbn [finditer_from] in H. cbn [matches_from].
  destruct skip as [|k].
  - destruct (match_here p (c :: s)) as [pieces|].
    + destruct H as [H|H]; [left; exact H|right; apply (IH _ _ _ H)].
    + apply (IH _ _ _ H).
  - destruct (match_here p (c :: s)) as [pieces|];
      [right|]; apply (IH _ _ _ H).
Qed.

Lemma accepted_qualifies delim np rt m :
  accepted delim np rt m -> qualifies delim np rt m.
Proof.
  intros [H A]. split; [|exact A].
  apply (finditer_from_matches _ _ _ _ _ H).
Qed.

(** ** Numbers that are neither a month, a day nor a year *)

Section Numbers.

Local Open Scope Z_scope.

Lemma mdy_ok_facts g1 g2 g3 :
  mdy_ok g1 g2 g3 = true ->
  exists A B C,
    int (strip g1) = Ok A /\ int (strip g2) = Ok B /\ int (strip g3) = Ok C
    /\ 1 <= A <= 12 /\ 1 <= B <= 31
    /\ plausible_year (expand_year C) = true.
Proof.
  unfold mdy_ok.
  destruct (int (strip g1)) as [A|]; [|discriminate].
  destruct (int (strip g2)) as [B|]; [|discriminate].
  destruct (int (strip g3)) as [C|]; [|discriminate].
  pose proof (expand_year_flag_fst C) as EF.
  destruct (expand_year_flag C) as [y' ok]. cbn [fst] in EF. subst y'.
  destruct (in_range 1 A 12 && in_range 1 B 31
            && plausible_year (expand_year C)) eqn:T; [|discriminate].
  intros _.
  apply andb_true_iff in T. destruct T as [T T3].
  apply andb_true_iff in T. destruct T as [T1 T2].
  apply in_range_spec in T1, T2.
  exists A, B, C. repeat split; auto; lia.
Qed.

Lemma ymd_ok_facts g1 g2 g3 :
  ymd_ok g1 g2 g3 = true ->
  exists A B C,
    int (strip g1) = Ok A /\ int (strip g2) = Ok B /\ int (strip g3) = Ok C
    /\ plausible_year (expand_year A) = true
    /\ 1 <= B <= 12 /\ 1 <= C <= 31.
Proof.
  unfold ymd_ok.
  destruct (int (strip g1)) as [A|]; [|discriminate].
  destruct (int (strip g2)) as [B|]; [|discriminate].
  destruct (int (strip g3)) as [C|]; [|discriminate].
  pose proof (expand_year_flag_fst A) as EF.
  destruct (expand_year_flag A) as [y' ok]. cbn [fst] in EF. subst y'.
  intros T.
  apply andb_true_iff in T. destruct T as [T T3].
  apply andb_true_iff in T. destruct T as [T1 T2].
  apply in_range_spec in T1, T2.
  exists A, B, C. repeat split; auto; lia.
Qed.

(** A number in a group that passed the field tests is at most 31 or a
    plausible year, after expansion. *)
Lemma fields3_ok_numbers fields f y :
  fields3_ok fields = true ->
  In f fields -> int (strip f) = Ok y ->
  y <= 31 \/ plausible_year (expand_year y) = true.
Proof.
  unfold fields3_ok.
  destruct fields as [|g1 [|g2 [|g3 [|]]]]; try discriminate.
  intros T Hf Hy.
  destruct (mdy_ok g1 g2 g3) eqn:M.
  - destruct (mdy_ok_facts _ _ _ M) as (A & B & C & IA & IB & IC & RA & RB & P).
    destruct Hf as [<-|[<-|[<-|[]]]].
    + left. rewrite IA in Hy. inversion Hy. lia.
    + left. rewrite IB in Hy. inversion Hy. lia.
    + right. rewrite IC in Hy. inversion Hy. subst. exact P.
  - destruct (ymd_ok_facts _ _ _ T) as (A & B & C & IA & IB & IC & P & RB & RC).
    destruct Hf as [<-|[<-|[<-|[]]]].
    + right. rewrite IA in Hy. inversion Hy. subst. exact P.
    + left. rewrite IB in Hy. inversion Hy. lia.
    + left. rewrite IC in Hy. inversion Hy. lia.
Qed.

Lemma fields2_ok_numbers fields f y :
  fields2_ok fields = true ->
  In f fields -> int (strip f) = Ok y ->
  y <= 31 \/ plausible_year (expand_year y) = true.
Proof.
  unfold fields2_ok.
  destruct fields as [|g1 [|g2 [|]]]; try discriminate.
  cbn [map]. intros T Hf Hy.
  assert (K : exists a b, (a = g1 /\ b = g2 \/ a = g2 /\ b = g1)
                          /\ month_year_ok (strip a) (strip b) = true).
  { destruct (_ && _).
    - exists g1, g2. auto.
    - destruct (_ && _); [|discriminate]. exists g2, g1. auto. }
  destruct K as (a & b & Hab & K).
  destruct (month_year_ok_reading _ _ K) as (M & Y & IM & IY & [RM P]).
  assert (Hf' : f = a \/ f = b).
  { destruct Hab as [[-> ->]|[-> ->]]; destruct Hf as [<-|[<-|[]]]; auto. }
  destruct Hf' as [->| ->].
  - left. rewrite IM in Hy. inversion Hy. lia.
  - right. rewrite IY in Hy. inversion Hy. subst. exact P.
Qed.

Lemma no_expansion_no_year y :
  0 <= y <= 99 -> expansion y = None ->
  31 < y /\ plausible_year (expand_year y) = false.
Proof.
  intros Hy E.
  destruct (expand_year_two_digit y Hy) as (_ & _ & P). rewrite E in P.
  split; [|exact P].
  unfold expansion in E.
  destruct (plausible_year (1900 + y)); [discriminate|].
  destruct (plausible_year (2000 + y)) eqn:Q; [discriminate|].
  destruct (Z_le_gt_dec y 31) as [L|G]; [|lia].
  assert (X : plausible_year (2000 + y) = true)
    by (apply plausible_year_spec; lia).
  congruence.
Qed.

Lemma out_of_window_no_year y :
  100 <= y -> plausible_year y = false ->
  31 < y /\ plausible_year (expand_year y) = false.
Proof.
  intros Hy P. split; [lia|].
  unfold expand_year.
  assert (E : (y <? 100) = false) by (apply Z.ltb_ge; lia).
  rewrite E. exact P.
Qed.

(** Both field tests reject a candidate that holds a number above 31 that is
    no plausible year. *)
Lemma field_tests_reject fields f y :
  In f fields -> int (strip f) = Ok y ->
  31 < y -> plausible_year (expand_year y) = false ->
  fields3_ok fields = false /\ fields2_ok fields = false.
Proof.
  intros Hf Hy G P. split.
  - destruct (fields3_ok fields) eqn:T; [|reflexivity].
    destruct (fields3_ok_numbers fields f y T Hf Hy); [lia|congruence].
  - destruct (fields2_ok fields) eqn:T; [|reflexivity].
    destruct (fields2_ok_numbers fields f y T Hf Hy); [lia|congruence].
Qed.

Lemma int_nonempty (f : str) y : int (strip f) = Ok y -> truthy f = true.
Proof. destruct f; [discriminate|reflexivity]. Qed.

(** The loop body rejects such a candidate. *)
Lemma accept_match_rejects delim n rt m f y :
  (n = 2 \/ n = 3)%nat ->
  In f (split (rev (slice rt (fst (fst m)) (snd (fst m)))) [delim]) ->
  int (strip f) = Ok y ->
  31 < y -> plausible_year (expand_year y) = false ->
  accept_match delim n rt m = None.
Proof.
  intros Hn Hf Hy G P. destruct m as [[st en] gs]. cbn [fst snd] in Hf.
  destruct (accept_match delim n rt (st, en, gs)) as [r|] eqn:A; [|reflexivity].
  exfalso.
  destruct (accept_match_facts _ _ _ _ _ _ _ A) as (_ & _ & _ & _ & K3 & K2).
  cbv zeta in K3, K2.
  assert (Hf' : In f (filter truthy
                        (split (rev (slice rt st en)) [delim]))).
  { apply filter_In. split; [exact Hf|apply (int_nonempty f y Hy)]. }
  destruct (field_tests_reject _ f y Hf' Hy G P) as [R3 R2].
  destruct Hn as [->| ->]; [rewrite K2 in R2|rewrite K3 in R3];
    auto; discriminate.
Qed.

(** So no group the locator returns holds one. *)
Lemma located_numbers text num g d n f y :
  extract_same_delim_group_from_reversed (PyStr text) num = (g, d, n) ->
  In f (split g d) -> int f = Ok y ->
  y <= 31 \/ plausible_year (expand_year y) = true.
Proof.
  intros E Hf Hy.
  destruct (list_eq_dec ascii_dec g []) as [Hg|Hg].
  - exfalso. subst g.
    destruct (extract_shape_full (PyStr text) num)
      as [Z|(delim & fields & _ & Hl & F & E' & _)].
    + rewrite E in Z. inversion Z; subst.
      destruct Hf as [<-|[]]. discriminate.
    + rewrite E in E'. inversion E' as [[J _ _]].
      destruct fields as [|f0 fields]; [destruct Hl; discriminate|].
      inversion F as [|? ? Hf0 _]; subst.
      pose proof (digit_field_truthy f0 Hf0) as Tf.
      destruct f0; [discriminate|]. destruct fields; discriminate.
  - destruct (extract_fields text num g d n E Hg)
      as (delim & fields & _ & _ & _ & Hn & Hn' & F & S & K3 & K2).
    rewrite S in Hf.
    rewrite Forall_forall in F.
    destruct (digit_field_int f (F f Hf)) as [St _].
    rewrite <- St in Hy.
    destruct Hn' as [H2|H3].
    + apply (fields2_ok_numbers fields f y (K2 H2) Hf Hy).
    + apply (fields3_ok_numbers fields f y (K3 H3) Hf Hy).
Qed.

End Numbers.

(** The evaluated element is the located group, or that group with 01
    between its two fields. *)
Lemma evaluated_from_located (text : value) :
  exists g d n,
    extract_same_delim_group_from_reversed text 3 = (g, d, n)
    /\ (evaluated text = Ok g
        \/ exists a c,
             split g d = [a; c]
             /\ evaluated text = Ok (a ++ d ++ lit "01" ++ d ++ c)).
Proof.
  destruct (extract_shape_full text 3)
    as [Z|(delim & fields & Hd & Hl & F & E & S & _)].
  - exists [], [], 0. split; [exact Z|left].
    unfold evaluated. rewrite (extract_num_irrelevant text 2 3), Z. reflexivity.
  - exists (join delim fields), [delim], (length fields).
    split; [exact E|].
    assert (T : truthy (join delim fields) = true).
    { destruct fields as [|f fields]; [destruct Hl; discriminate|].
      inversion F as [|? ? Hf _]; subst.
      pose proof (digit_field_truthy f Hf) as Tf.
      destruct f as [|c f]; [discriminate|].
      destruct fields; reflexivity. }
    unfold evaluated.
    rewrite (extract_num_irrelevant text 2 3), E.
    unfold final_eval_of, splitcount.
    rewrite T, S. cbn [truthy andb].
    destruct Hl as [Hl|Hl]; rewrite Hl.
    + right. destruct fields as [|f1 [|f2 [|]]]; try discriminate.
      exists f1, f2. split; reflexivity.
    + left. reflexivity.
Qed.

(** * The claims *)

(** C1, at the input 2020_01_15 03-21: the 3-field group 2020_01_15 qualifies
    (it is an accepted match of the scan for the underscore, and the locator
    returns it when it stands alone), yet the locator answers with the 2-field
    group 03-21 of the hyphen, the delimiter tried first, and the evaluated
    element is the expansion 03-01-21. *)
Theorem three_field_group_passed_over :
  let text := lit "2020_01_15 03-21" in
  let three := (3, [Digits 1 2; Lit "_"; Digits 1 2; Lit "_"; Digits 2 4]%char) in
  In three (patterns "_")
  /\ accepted "_" three (rev text) (6, 16, [lit "51"; lit "10"; lit "0202"])
  /\ accept_match "_" 3 (rev text) (6, 16, [lit "51"; lit "10"; lit "0202"])
     = Some (lit "2020_01_15", lit "_", 3)
  /\ extract_same_delim_group_from_reversed (PyStr (lit "2020_01_15")) 3
     = (lit "2020_01_15", lit "_", 3)
  /\ extract_same_delim_group_from_reversed (PyStr text) 3
     = (lit "03-21", lit "-", 2)
  /\ extract_same_delim_group_from_reversed (PyStr text) 2
     = (lit "03-21", lit "-", 2)
  /\ evaluated (PyStr text) = Ok (lit "03-01-21")
  /\ is_two_group (PyStr text) = true.
Proof.
  cbv zeta. repeat split; try (vm_compute; reflexivity).
  - left. reflexivity.
  - vm_compute. left. reflexivity.
  - vm_compute. discriminate.
Qed.




(** C3 in the plain sense fails: in 03-15-77 the only group that passes the
    tests of the loop body is 03-15, of two fields, but the scan stops at
    15-77, rejects it and resumes after it: no group is returned and the
    evaluated element is empty. *)
Lemma lone_two_field_group_not_found :
  ~ (forall text : str,
       (exists delim np m,
          In delim DELIM_LIST /\ In np (patterns delim)
          /\ qualifies delim np (rev text) m) ->
       (forall delim np m,
          In delim DELIM_LIST -> In np (patterns delim) ->
          qualifies delim np (rev text) m -> fst np = 2) ->
       exists d f1 f2,
         evaluated (PyStr text) = Ok (f1 ++ d ++ lit "01" ++ d ++ f2)).
Proof.
  intros H.
  destruct (H (lit "03-15-77")) as (d & f1 & f2 & E).
  - exists "-"%char, (2, [Digits 1 2; Lit "-"; Digits 2 4]%char),
      (3, 8, [lit "51"; lit "30"]).
    split; [left; reflexivity|].
    split; [right; right; left; reflexivity|].
    split; [vm_compute; auto 10|vm_compute; discriminate].
  - intros delim np m Hd Hp [Hin Hacc].
    unfold DELIM_LIST in Hd. simpl in Hd.
    destruct Hd as [<-|[<-|[<-|[<-|[<-|[]]]]]];
      simpl in Hp; destruct Hp as [<-|[<-|[<-|[<-|[]]]]];
      try reflexivity;
      exfalso; vm_compute in Hin;
      repeat (destruct Hin as [<-|Hin];
              [apply Hacc; vm_compute; reflexivity|]);
      exact Hin.
  - vm_compute in E. inversion E as [E'].
    destruct f1; [destruct d; discriminate|discriminate].
Qed.

(** C3, amended: when some match that the scan enumerates is accepted by the
    loop body and every such match has two fields (f1 and f2 joined by the
    delimiter d), the locator returns that kind of group, the evaluated
    element is f1 + d + "01" + d + f2, the row is processed, and its
    consensus, when not empty, has the day 01. *)
Theorem two_field_group_is_expanded :
  forall (L : Libraries) (text : str),
    (exists delim np m,
       In delim DELIM_LIST /\ In np (patterns delim)
       /\ accepted delim np (rev text) m) ->
    (forall delim np m,
       In delim DELIM_LIST -> In np (patterns delim) ->
       accepted delim np (rev text) m -> fst np = 2) ->
    exists d f1 f2,
      extract_same_delim_group_from_reversed (PyStr text) 3
      = (f1 ++ d ++ f2, d, 2)
      /\ f1 <> [] /\ f2 <> []
      /\ forallb is_decimal f1 = true /\ forallb is_decimal f2 = true
      /\ evaluated (PyStr text) = Ok (f1 ++ d ++ lit "01" ++ d ++ f2)
      /\ exists rec,
           process_row L (PyStr text) = Ok rec
           /\ evaluated_element rec = f1 ++ d ++ lit "01" ++ d ++ f2
           /\ (consensus rec <> [] -> day_component (consensus rec) = lit "01").
Proof.
  intros L text Hsome Honly.
  destruct (only_two_field_groups text 3 Hsome Honly) as (g & d & H).
  destruct (located_two_field_group L (PyStr text) g d H)
    as (f1 & f2 & -> & R).
  exists d, f1, f2. split; [exact H|exact R].
Qed.

Lemma two_field_group_is_expanded_witness :
  exists d f1 f2,
    extract_same_delim_group_from_reversed
      (PyStr (lit "Analysis_Contracts-11-05.pdf")) 3
    = (f1 ++ d ++ f2, d, 2)
    /\ f1 <> [] /\ f2 <> []
    /\ forallb is_decimal f1 = true /\ forallb is_decimal f2 = true
    /\ evaluated (PyStr (lit "Analysis_Contracts-11-05.pdf"))
       = Ok (f1 ++ d ++ lit "01" ++ d ++ f2)
    /\ exists rec,
         process_row fixed_libraries
                     (PyStr (lit "Analysis_Contracts-11-05.pdf")) = Ok rec
         /\ evaluated_element rec = f1 ++ d ++ lit "01" ++ d ++ f2
         /\ regex_date rec = lit "2021-07-15"
         /\ consensus rec = lit "2021-07-01"
         /\ day_component (consensus rec) = lit "01".
Proof.
  destruct (two_field_group_is_expanded
              fixed_libraries (lit "Analysis_Contracts-11-05.pdf"))
    as (d & f1 & f2 & E & N1 & N2 & D1 & D2 & Ev & rec & P & Ee & C).
  - exists "-"%char,
      (2, [Digits 1 2; Lit "-"; Digits 2 4]%char),
      (4, 9, [lit "50"; lit "11"]).
    split; [left; reflexivity|].
    split; [right; right; left; reflexivity|].
    split; [vm_compute; left; reflexivity|vm_compute; discriminate].
  - intros delim np m Hd Hp [Hin Hacc].
    unfold DELIM_LIST in Hd. simpl in Hd.
    destruct Hd as [<-|[<-|[<-|[<-|[<-|[]]]]]];
      simpl in Hp; destruct Hp as [<-|[<-|[<-|[<-|[]]]]];
      try reflexivity;
      exfalso; vm_compute in Hin;
      repeat (destruct Hin as [<-|Hin];
              [apply Hacc; vm_compute; reflexivity|]);
      exact Hin.
  - exists d, f1, f2.
    split; [exact E|]. split; [exact N1|]. split; [exact N2|].
    split; [exact D1|]. split; [exact D2|]. split; [exact Ev|].
    exists rec. split; [exact P|]. split; [exact Ee|].
    assert (R : regex_date rec = lit "2021-07-15"
                /\ consensus rec = lit "2021-07-01").
    { pose proof P as P'. vm_compute in P'. inversion P'. split; reflexivity. }
    destruct R as [R1 R2].
    split; [exact R1|]. split; [exact R2|].
    apply C. rewrite R2. discriminate.
Defined.

Local Open Scope Z_scope.

(** C4 as stated fails twice: with the two-group flag the resolver returns the
    mode cut to the month, 2021-07-01 for the single input 2021-07-15; and a
    string padded with blanks, which is not well formed, is kept once
    trimmed. *)
Lemma consensus_trims_and_truncates :
  ~ (forall dates r, consensus_date dates true = Ok r -> spec_consensus dates r)
  /\ ~ (forall dates r,
          consensus_date dates false = Ok r -> spec_consensus dates r).
Proof.
  split; intros H.
  - specialize (H [PyStr (lit "2021-07-15")] (lit "2021-07-01") eq_refl).
    vm_compute in H. destruct H as [[H|[]] _]. discriminate.
  - specialize (H [PyStr (lit " 2021-07-15")] (lit "2021-07-15") eq_refl).
    vm_compute in H. discriminate.
Qed.

(** C4, amended: the resolver trims each string input and keeps those of the
    form dddd-dd-dd; with none it returns the empty string; otherwise it takes
    the most frequent kept value, a tie going to the value met first, and
    returns it as it is without the two-group flag and with its day replaced by
    01 with the flag.  A row hands it the dates of datefinder, dateparser,
    parsedatetime and the regex evaluator, in this order. *)
Theorem consensus_is_stable_mode :
  (forall (dates : list value) (two_group : bool),
     exists r,
       consensus_date dates two_group = Ok r
       /\ match filter well_formed (map strip (strings_of dates)) with
          | [] => r = []
          | kept => exists m, stable_mode kept m
                      /\ r = if two_group then month_precision m else m
          end)
  /\ (forall (L : Libraries) (text : value),
        exists rec,
          process_row L text = Ok rec
          /\ consensus_date [PyStr (datefinder_date rec);
                             PyStr (dateparser_date rec);
                             PyStr (parsedatetime_date rec);
                             PyStr (regex_date rec)] (is_two_group text)
             = Ok (consensus rec)).
Proof.
  split; [exact consensus_date_spec|].
  intros L text. destruct (process_row_total L text) as [rec Hrec].
  exists rec. split; [exact Hrec|].
  unfold process_row in Hrec.
  destruct (evaluated text) as [e|]; [|discriminate]. simpl Py.bind in Hrec.
  destruct (standardize_date L (extract_date_datefinder L e)) as [r1|];
    [|discriminate].
  destruct (standardize_date L (extract_date_dateparser L e)) as [r2|];
    [|discriminate].
  destruct (standardize_date L (extract_date_parsedatetime L e)) as [r3|];
    [|discriminate].
  destruct (standardize_date L (extract_date_regex_datetime L e)) as [r4|];
    [|discriminate].
  simpl Py.bind in Hrec.
  destruct (consensus_date _ _) as [c|] eqn:Ec; [|discriminate].
  simpl in Hrec. inversion Hrec; subst rec. simpl. exact Ec.
Qed.

(** C5: a year field of two digits y is expanded to 1900+y if that is
    plausible, else to 2000+y if that is plausible, the centuries being tried
    in this order; with neither, the candidate is rejected: each reading of
    the locator, the rules of the standardizer and the regex evaluator fail,
    both field tests of the locator and its loop body reject a candidate that
    holds the number y, and no group the locator returns holds it.  So 99
    gives 1999 and 05 gives 2005, and 03-15-45 is not a group. *)
Theorem two_digit_year_expansion :
  (forall y : Z,
     0 <= y <= 99 ->
     first_plausible CENTURIES y = expansion y
     /\ expand_year y = match expansion y with Some Y => Y | None => y end
     /\ expand_year_flag y
        = match expansion y with Some Y => (Y, true) | None => (y, false) end
     /\ (forall g1 g2 g3 mm dd,
           int (strip g1) = Ok mm -> int (strip g2) = Ok dd ->
           int (strip g3) = Ok y ->
           mdy_ok g1 g2 g3
           = match expansion y with
             | Some _ => in_range 1 mm 12 && in_range 1 dd 31
             | None => false
             end)
     /\ (forall g1 g2 g3 mm dd,
           int (strip g1) = Ok y -> int (strip g2) = Ok mm ->
           int (strip g3) = Ok dd ->
           ymd_ok g1 g2 g3
           = match expansion y with
             | Some _ => in_range 1 mm 12 && in_range 1 dd 31
             | None => false
             end)
     /\ (forall gm gy mm,
           int gm = Ok mm -> int gy = Ok y ->
           month_year_ok gm gy
           = match expansion y with
             | Some _ => in_range 1 mm 12
             | None => false
             end
           /\ month_year_date gm gy
              = Ok match expansion y with
                   | Some Y => if in_range 1 mm 12 then first_of_month Y mm
                               else []
                   | None => []
                   end
           /\ regex_month_year gm gy
              = Ok match expansion y with
                   | Some Y => if in_range 1 mm 12
                               then Some (first_of_month Y mm) else None
                   | None => None
                   end)
     /\ (forall g1 g2 g3 mm dd,
           int g1 = Ok mm -> int g2 = Ok dd -> int g3 = Ok y ->
           mdy_date g1 g2 g3
           = Ok match expansion y with
                | Some Y =>
                    if in_range 1 mm 12 && in_range 1 dd 31
                    then ymd_string Y mm dd
                    else if in_range 1 dd 12 && in_range 1 mm 31
                    then ymd_string Y dd mm
                    else []
                | None => []
                end)
     /\ (forall L g0 g1 g2 mm dd,
           length g0 <> 4%nat -> length g2 = 2%nat ->
           int g0 = Ok mm -> int g1 = Ok dd -> int g2 = Ok y ->
           regex_try L [g0; g1; g2]
           = match expansion y with
             | Some Y => regex_full_date L Y mm dd
             | None => Ok None
             end)
     /\ (forall fields f,
           In f fields -> int (strip f) = Ok y -> expansion y = None ->
           fields3_ok fields = false /\ fields2_ok fields = false)
     /\ (forall delim n rt m f,
           (n = 2 \/ n = 3)%nat ->
           In f (split (rev (slice rt (fst (fst m)) (snd (fst m)))) [delim]) ->
           int (strip f) = Ok y -> expansion y = None ->
           accept_match delim n rt m = None)
     /\ (forall text num g d n f,
           extract_same_delim_group_from_reversed (PyStr text) num = (g, d, n) ->
           In f (split g d) -> int f = Ok y ->
           expansion y = Some (expand_year y)))
  /\ (int (lit "99") = Ok 99 /\ expand_year 99 = 1999)
  /\ (int (lit "05") = Ok 5 /\ expand_year 5 = 2005)
  /\ (forall L, standardize_date L (lit "12-99") = Ok (lit "1999-12-01")
                /\ standardize_date L (lit "11-01-05") = Ok (lit "2005-11-01")
                /\ standardize_date L (lit "03-15-45") = Ok [])
  /\ (extract_same_delim_group_from_reversed (PyStr (lit "03-15-45")) 3
      = ([], [], 0%nat)
      /\ extract_same_delim_group_from_reversed (PyStr (lit "45-03-15")) 3
         = (lit "03-15", lit "-", 2%nat)).
Proof.
  split.
  - intros y Hy.
    destruct (expand_year_two_digit y Hy) as (E1 & E2 & E3).
    split; [apply expansion_loop|]. split; [exact E1|]. split; [exact E2|].
    split; [|split; [|split; [|split; [|split; [|split; [|split]]]]]].
    + intros g1 g2 g3 mm dd H1 H2 H3. unfold mdy_ok.
      rewrite H1, H2, H3, E2.
      destruct (expansion y) as [Y|] eqn:X.
      * rewrite (expansion_plausible y Y X), andb_true_r.
        destruct (_ && _); reflexivity.
      * rewrite (two_digit_not_plausible y) by lia.
        rewrite andb_false_r. reflexivity.
    + intros g1 g2 g3 mm dd H1 H2 H3. unfold ymd_ok.
      rewrite H1, H2, H3, E2.
      destruct (expansion y) as [Y|] eqn:X.
      * rewrite (expansion_plausible y Y X), andb_true_r. reflexivity.
      * rewrite (two_digit_not_plausible y) by lia.
        rewrite andb_false_r. reflexivity.
    + intros gm gy mm H1 H2.
      unfold month_year_ok, month_year_date, regex_month_year.
      rewrite H1, H2. simpl Py.bind. rewrite E3, E1.
      destruct (expansion y) as [Y|]; rewrite ?andb_true_r, ?andb_false_r;
        repeat split; try reflexivity; destruct (in_range 1 mm 12); reflexivity.
    + intros g1 g2 g3 mm dd H1 H2 H3. unfold mdy_date.
      rewrite H1, H2, H3. simpl Py.bind. rewrite E3, E1.
      destruct (expansion y) as [Y|]; rewrite ?andb_true_r, ?andb_false_r.
      * destruct (_ && _); [reflexivity|]. destruct (_ && _); reflexivity.
      * reflexivity.
    + intros L g0 g1 g2 mm dd N4 N2 H0 H1 H2. unfold regex_try.
      apply Nat.eqb_neq in N4. rewrite N4.
      assert (N : (length g2 =? 4)%nat = false) by (rewrite N2; reflexivity).
      rewrite N. rewrite N2. cbn [Nat.eqb].
      rewrite H2. cbn [Py.bind]. rewrite expansion_loop, H0, H1. cbn [Py.bind].
      destruct (expansion y) as [Y|]; [reflexivity|].
      unfold regex_full_date. rewrite (two_digit_not_plausible y) by lia.
      rewrite andb_false_r. reflexivity.
    + intros fields f Hf Hi X.
      destruct (no_expansion_no_year y Hy X) as [G P].
      apply (field_tests_reject fields f y Hf Hi G P).
    + intros delim n rt m f Hn Hf Hi X.
      destruct (no_expansion_no_year y Hy X) as [G P].
      apply (accept_match_rejects delim n rt m f y Hn Hf Hi G P).
    + intros text num g d n f E Hf Hi.
      destruct (expansion y) as [Y|] eqn:X; [rewrite E1; reflexivity|].
      exfalso. destruct (no_expansion_no_year y Hy X) as [G P].
      destruct (located_numbers text num g d n f y E Hf Hi); [lia|congruence].
  - split; [split; reflexivity|]. split; [split; reflexivity|].
    split; [intros L; repeat split; vm_compute; reflexivity|].
    split; vm_compute; reflexivity.
Qed.

Lemma two_digit_year_expansion_witness :
  first_plausible CENTURIES 99 = expansion 99
  /\ expand_year 99 = match expansion 99 with Some Y => Y | None => 99 end.
Proof.
  destruct (proj1 two_digit_year_expansion 99 ltac:(lia)) as (H1 & H2 & _).
  split; [exact H1|exact H2].
Defined.

(** C6 as stated fails for the resolver taken alone: it tests no year and
    hands back the date 2040-01-01 it is given. *)
Lemma consensus_alone_keeps_2040 :
  ~ (forall dates two_group r,
       consensus_date dates two_group = Ok r -> year_in_window r).
Proof.
  intros H.
  destruct (H [PyStr (lit "2040-01-01")] false (lit "2040-01-01") eq_refl)
    as [E|(y & m & d & R & Hy)]; [discriminate|].
  vm_compute in R. inversion R; subst. lia.
Qed.

(** C6, amended: a year is plausible exactly from 1980 to 2039, so 1979 and
    2040 are not.  Each reading of the locator needs a plausible year; both
    field tests and the loop body reject a candidate that holds a number of
    100 or more that is not plausible, so such a number, 1979 and 2040 among
    them, is in no group the locator returns, and the evaluated element adds
    nothing to that group but 01.  Every date the standardizer, the four
    evaluators and the row give, consensus included, has its year in the
    window.  The resolver itself tests no year: it returns one of the dates it
    keeps, cut to the month under the flag, and stays in the window when its
    inputs are standardized dates. *)
Theorem plausible_window_everywhere :
  (forall y, plausible_year y = true <-> 1980 <= y <= 2039)
  /\ plausible_year 1979 = false
  /\ plausible_year 2040 = false
  /\ (forall g1 g2 g3,
        mdy_ok g1 g2 g3 = true ->
        exists yy, int (strip g3) = Ok yy
                   /\ plausible_year (fst (expand_year_flag yy)) = true)
  /\ (forall g1 g2 g3,
        ymd_ok g1 g2 g3 = true ->
        exists yy, int (strip g1) = Ok yy
                   /\ plausible_year (fst (expand_year_flag yy)) = true)
  /\ (forall gm gy,
        month_year_ok gm gy = true ->
        exists yy, int gy = Ok yy /\ plausible_year (expand_year yy) = true)
  /\ (forall L s, exists r, standardize_date L s = Ok r /\ year_in_window r)
  /\ (forall L text,
        year_in_window (extract_date_datefinder L text)
        /\ year_in_window (extract_date_dateparser L text)
        /\ year_in_window (extract_date_parsedatetime L text)
        /\ year_in_window (extract_date_regex_datetime L text))
  /\ (forall L text,
        exists rec,
          process_row L text = Ok rec
          /\ Forall year_in_window
                    [datefinder_date rec; dateparser_date rec;
                     parsedatetime_date rec; regex_date rec; consensus rec])
  /\ (forall fields f y,
        In f fields -> int (strip f) = Ok y ->
        100 <= y -> plausible_year y = false ->
        fields3_ok fields = false /\ fields2_ok fields = false)
  /\ (forall delim n rt m f y,
        (n = 2 \/ n = 3)%nat ->
        In f (split (rev (slice rt (fst (fst m)) (snd (fst m)))) [delim]) ->
        int (strip f) = Ok y ->
        100 <= y -> plausible_year y = false ->
        accept_match delim n rt m = None)
  /\ (forall text num g d n f y,
        extract_same_delim_group_from_reversed (PyStr text) num = (g, d, n) ->
        In f (split g d) -> int f = Ok y ->
        (100 <= y -> plausible_year y = true)
        /\ y <> 1979 /\ y <> 2040)
  /\ (forall text : value,
        exists g d n,
          extract_same_delim_group_from_reversed text 3 = (g, d, n)
          /\ (evaluated text = Ok g
              \/ exists a c,
                   split g d = [a; c]
                   /\ evaluated text = Ok (a ++ d ++ lit "01" ++ d ++ c)))
  /\ (extract_same_delim_group_from_reversed (PyStr (lit "01-15-2040")) 3
      = ([], [], 0%nat)
      /\ extract_same_delim_group_from_reversed (PyStr (lit "01-15-1979")) 3
         = ([], [], 0%nat)
      /\ evaluated (PyStr (lit "01-15-2040")) = Ok []
      /\ evaluated (PyStr (lit "01-15-1979")) = Ok []
      /\ extract_same_delim_group_from_reversed (PyStr (lit "2040-01-15")) 3
         = (lit "01-15", lit "-", 2%nat))
  /\ (forall dates two_group r,
        consensus_date dates two_group = Ok r ->
        r = []
        \/ exists m, In m (kept_dates dates)
                     /\ r = if two_group then month_precision m else m)
  /\ (forall dates two_group r,
        Forall (fun v => exists x, v = PyStr x /\ (x = [] \/ canonical x = true))
               dates ->
        consensus_date dates two_group = Ok r ->
        year_in_window r).
Proof.
  split; [exact plausible_year_spec|].
  split; [reflexivity|]. split; [reflexivity|].
  split; [exact mdy_ok_plausible|].
  split; [exact ymd_ok_plausible|].
  split; [exact month_year_ok_plausible|].
  split; [|split; [|split; [|split; [|split; [|split; [|split; [|split; [|split]]]]]]]].
  - intros L s. destruct (standardize_date_total L s) as [r Hr].
    exists r. split; [exact Hr|]. apply canonical_year_in_window.
    apply (standardize_date_canonical L s r Hr).
  - intros L text. repeat split; apply canonical_year_in_window.
    + apply datefinder_canonical.
    + apply dateparser_canonical.
    + apply parsedatetime_canonical.
    + apply regex_canonical.
  - intros L text. destruct (process_row_total L text) as [rec Hrec].
    exists rec. split; [exact Hrec|].
    pose proof (process_row_canonical L text rec Hrec) as F.
    eapply Forall_impl; [|exact F]. intros r. apply canonical_year_in_window.
  - intros fields f y Hf Hi Hy P.
    destruct (out_of_window_no_year y Hy P) as [G P'].
    apply (field_tests_reject fields f y Hf Hi G P').
  - intros delim n rt m f y Hn Hf Hi Hy P.
    destruct (out_of_window_no_year y Hy P) as [G P'].
    apply (accept_match_rejects delim n rt m f y Hn Hf Hi G P').
  - intros text num g d n f y E Hf Hi.
    assert (W : 100 <= y -> plausible_year y = true).
    { intros Hy. destruct (plausible_year y) eqn:P; [reflexivity|].
      destruct (out_of_window_no_year y Hy P) as [G P'].
      destruct (located_numbers text num g d n f y E Hf Hi); [lia|congruence]. }
    split; [exact W|].
    split; intros ->; specialize (W ltac:(lia)); discriminate.
  - exact evaluated_from_located.
  - repeat split; vm_compute; reflexivity.
  - intros dates two_group r Hr.
    destruct (consensus_date_spec dates two_group) as (r' & Hr' & Hs).
    rewrite Hr in Hr'. inversion Hr'; subst r'. clear Hr'.
    destruct (kept_dates dates) as [|k ks] eqn:K; [left; exact Hs|right].
    destruct Hs as (m & Hm & ->). exists m. split; [|reflexivity].
    apply (stable_mode_in _ _ Hm).
  - intros dates two_group r Hd Hr. apply canonical_year_in_window.
    apply (consensus_date_canonical dates two_group r Hd Hr).
Qed.

Lemma plausible_window_everywhere_witness :
  exists yy, int (strip (lit "21")) = Ok yy
             /\ plausible_year (fst (expand_year_flag yy)) = true.
Proof.
  apply (proj1 (proj2 (proj2 (proj2 plausible_window_everywhere)))
               (lit "03") (lit "15") (lit "21")).
  vm_compute. reflexivity.
Defined.

(** C7 as stated fails: 2021-02-31 has a plausible year, a month in 1..12 and
    a day in 1..31, and no behaviour of dateutil makes the standardizer return
    it. *)
Lemma february_31_is_not_kept :
  ~ (exists L, standardize_date L (lit "2021-02-31") = Ok (lit "2021-02-31"))
  /\ ~ (forall L y m d,
          plausible_year y = true -> in_range 1 m 12 = true ->
          in_range 1 d 31 = true ->
          standardize_date L (ymd_string y m d) = Ok (ymd_string y m d)).
Proof.
  assert (N : forall L, standardize_date L (lit "2021-02-31")
                        <> Ok (lit "2021-02-31")).
  { intros L. apply (not_a_calendar_date L 2021 2 31); reflexivity. }
  split.
  - intros [L H]. apply (N L H).
  - intros H. apply (N quiet_libraries).
    apply (H quiet_libraries 2021 2 31); reflexivity.
Qed.

(** C7, amended: the standardizer has no rule of its own for dddd-dd-dd and
    hands such a string to dateutil.  The canonical string of a calendar date
    with a plausible year comes back unchanged when dateutil reads it as that
    date; a string that is in range but is not a calendar date never comes
    back unchanged. *)
Theorem canonical_date_unchanged :
  forall (L : Libraries),
    (forall dt : date,
       plausible_year (year dt) = true ->
       (exists dt', dateutil_parse L (isoformat dt) = Ok dt'
                    /\ year dt' = year dt /\ month dt' = month dt
                    /\ day dt' = day dt) ->
       standardize_date L (isoformat dt) = Ok (isoformat dt))
    /\ (forall y m d,
          plausible_year y = true -> in_range 1 m 12 = true ->
          in_range 1 d 31 = true -> valid_ymd y m d = false ->
          standardize_date L (ymd_string y m d) <> Ok (ymd_string y m d)).
Proof.
  intros L. split; [|apply not_a_calendar_date].
  intros dt P (dt' & Hp & Ey & Em & Ed).
  destruct (isoformat_fuzzy dt P) as [_ F].
  rewrite (standardize_date_fuzzy L _ F), Hp, Ey, P.
  unfold isoformat. rewrite Ey, Em, Ed. reflexivity.
Qed.

Lemma canonical_date_unchanged_witness :
  standardize_date fixed_libraries (isoformat july_15) = Ok (isoformat july_15).
Proof.
  apply (proj1 (canonical_date_unchanged fixed_libraries) july_15).
  - reflexivity.
  - exists july_15. repeat split; reflexivity.
Defined.

(** C8: a cell that is not a string, or is empty, or has no digit is processed
    without an exception; the locator reports no group, the evaluated element
    is empty and so are the four dates and the consensus.  The three library
    evaluators are outside the script: they are taken to report no date for the
    empty string. *)
Theorem no_digit_gives_empty_record :
  forall (L : Libraries) (text : value),
    silent_on_empty L ->
    no_digit_input text ->
    extract_same_delim_group_from_reversed text 3 = ([], [], 0%nat)
    /\ extract_same_delim_group_from_reversed text 2 = ([], [], 0%nat)
    /\ evaluated text = Ok []
    /\ process_row L text = Ok empty_record.
Proof.
  intros L text HL Ht. repeat split.
  - apply extract_no_digit. exact Ht.
  - apply extract_no_digit. exact Ht.
  - unfold evaluated. rewrite !(extract_no_digit text _ Ht). reflexivity.
  - apply process_row_no_digit; assumption.
Qed.

Lemma no_digit_gives_empty_record_witness :
  (extract_same_delim_group_from_reversed
     (PyStr (lit "no_numbers_here.txt")) 3 = ([], [], 0%nat)
   /\ extract_same_delim_group_from_reversed
        (PyStr (lit "no_numbers_here.txt")) 2 = ([], [], 0%nat)
   /\ evaluated (PyStr (lit "no_numbers_here.txt")) = Ok []
   /\ process_row quiet_libraries (PyStr (lit "no_numbers_here.txt"))
      = Ok empty_record)
  /\ process_row quiet_libraries PyNone = Ok empty_record
  /\ process_row quiet_libraries (PyStr []) = Ok empty_record.
Proof.
  assert (HL : silent_on_empty quiet_libraries).
  { split; [right; reflexivity|split; [right; reflexivity|left; reflexivity]]. }
  split; [|split].
  - apply (no_digit_gives_empty_record quiet_libraries
             (PyStr (lit "no_numbers_here.txt")) HL).
    reflexivity.
  - apply (no_digit_gives_empty_record quiet_libraries PyNone HL). exact I.
  - apply (no_digit_gives_empty_record quiet_libraries (PyStr []) HL).
    reflexivity.
Defined.

(** C9: the standardizer returns for every string, and what it returns is
    empty or a string dddd-dd-dd whose year is plausible, whose month is in
    1..12 and whose day is in 1..31, the fuzzy fallback included. *)
Theorem standardized_date_is_canonical :
  forall (L : Libraries) (s : str),
    exists r,
      standardize_date L s = Ok r
      /\ (r = []
          \/ (well_formed r = true
              /\ exists y m d,
                   read_ymd r = Some (y, m, d)
                   /\ 1980 <= y <= 2039 /\ 1 <= m <= 12 /\ 1 <= d <= 31)).
Proof.
  intros L s. destruct (standardize_date_total L s) as [r Hr].
  exists r. split; [exact Hr|].
  destruct (standardize_date_canonical L s r Hr) as [->|H]; [left; reflexivity|].
  right. apply canonical_fields. exact H.
Qed.

(** C10: the locator returns the same triple whatever number of fields it is
    asked for, since num_groups is never read: in particular asking for 3 and
    asking for 2 give the same answer. *)
Theorem num_groups_is_ignored :
  forall (text : value) (n m : nat),
    extract_same_delim_group_from_reversed text n
    = extract_same_delim_group_from_reversed text m.
Proof. intros [s| | |] n m; reflexivity. Qed.

(** The scan steps over the characters of a rejected match: in 2021-03-15-77
    the match 03-15-77 is rejected and the 3-field group 2021-03-15, which
    passes every test of the loop body, is never enumerated; the locator
    returns the 2-field group 2021-03. *)
Remark overlapping_group_not_enumerated :
  let text := lit "2021-03-15-77" in
  let three := (3%nat, [Digits 1 2; Lit "-"; Digits 1 2; Lit "-"; Digits 2 4]%char) in
  accept_match "-" 3 (rev text) (3%nat, 13%nat, [lit "51"; lit "30"; lit "1202"])
  = Some (lit "2021-03-15", lit "-", 3%nat)
  /\ finditer (snd three) (rev text)
     = [(0%nat, 8%nat, [lit "77"; lit "51"; lit "30"])]
  /\ extract_same_delim_group_from_reversed (PyStr text) 3
     = (lit "2021-03", lit "-", 2%nat)
  /\ evaluated (PyStr text) = Ok (lit "2021-01-03").
Proof. cbv zeta. repeat split; vm_compute; reflexivity. Qed.
